(** * GoTrust: a shallow embedding of the authentication core

    The development follows the Go sources of the [gotrust] package:
    [session.go] (expiring key-value stores and the session manager),
    the JWT manager, the OAuth manager and the [AuthService] that wires
    them together.  Stateful code is written in state-passing style over
    an explicit runtime (wall clock, entropy source, standard output) and
    over the state of the collaborators (session store, user store,
    OAuth provider network). *)

From Stdlib Require Import ZArith String Ascii List Lia.
From stdpp Require Import base option gmap strings list pretty.

Local Open Scope string_scope.
Local Open Scope list_scope.
Local Open Scope Z_scope.

(** * The Go runtime as seen by the package *)

(** A Go call returning [(T, error)] : either the value or the text of
    the error.  [fmt.Errorf("ctx: %w", err)] is string concatenation on
    the text, which is all the callers ever read ([err.Error()]). *)
Inductive result (A : Type) : Type :=
  | Ok (a : A)
  | Err (msg : string).
Arguments Ok {A} a.
Arguments Err {A} msg.

Definition is_Ok {A} (r : result A) : bool :=
  match r with Ok _ => true | Err _ => false end.

Definition is_Err {A} (r : result A) : bool :=
  match r with Ok _ => false | Err _ => true end.

(** [time.Time] is an instant counted in nanoseconds since the Unix
    epoch, [time.Duration] a signed number of nanoseconds. *)
Abbreviation Time := Z (only parsing).
Abbreviation Duration := Z (only parsing).

Definition Second : Duration := 1000000000.
Definition Minute : Duration := 60 * Second.
Definition Hour : Duration := 60 * Minute.

(** [t.Add(d)], [t.Unix()], [t.UnixNano()], [t.After(u)], [t.Before(u)]. *)
Definition Add (t : Time) (d : Duration) : Time := t + d.
Definition Unix (t : Time) : Z := t / Second.
Definition UnixNano (t : Time) : Z := t.
Definition After (t u : Time) : bool := u <? t.
Definition Before (t u : Time) : bool := t <? u.

(** [time.Unix(sec, 0)]: the instant of a whole number of seconds. *)
Definition time_Unix (sec : Z) : Time := sec * Second.

(** The zero [time.Time] (January 1, year 1, UTC). *)
Definition zeroTime : Time := time_Unix (-62135596800).

(** [int64(d.Seconds())]: the duration in whole seconds, truncated
    towards zero.  [Seconds] is a float64 in Go: this is its value for
    durations under 2^24 seconds (about 194 days); beyond, a nanosecond
    part close to a full second can round up to the next second, which
    is not modelled. *)
Definition Seconds_int64 (d : Duration) : Z := Z.quot d Second.

(** The runtime: what [time.Now()], [crypto/rand.Read] and [fmt.Printf]
    touch.  [rt_elapse] lists, for each later reading of the clock, the
    nanoseconds that pass before it: readings never go back.  When the
    entropy source has fewer bytes than asked for, [rand.Read] reports an
    error. *)
Record Runtime := mkRuntime {
  rt_now : Time;
  rt_elapse : list N;
  rt_entropy : list N;
  rt_stdout : list string
}.

Definition time_Now (rt : Runtime) : Time * Runtime :=
  match rt_elapse rt with
  | [] => (rt_now rt, rt)
  | d :: ds =>
      let t := rt_now rt + Z.of_N d in
      (t, {| rt_now := t; rt_elapse := ds;
             rt_entropy := rt_entropy rt; rt_stdout := rt_stdout rt |})
  end.

Definition rand_Read (n : nat) (rt : Runtime) : result (list N) * Runtime :=
  if (n <=? length (rt_entropy rt))%nat
  then (Ok (take n (rt_entropy rt)),
        {| rt_now := rt_now rt; rt_elapse := rt_elapse rt;
           rt_entropy := drop n (rt_entropy rt); rt_stdout := rt_stdout rt |})
  else (Err "unexpected EOF", rt).

Definition fmt_Printf (line : string) (rt : Runtime) : Runtime :=
  {| rt_now := rt_now rt; rt_elapse := rt_elapse rt;
     rt_entropy := rt_entropy rt; rt_stdout := rt_stdout rt ++ [line] |}.

(** The instant shown by the [k]-th next reading of the clock. *)
Fixpoint time_after (k : nat) (rt : Runtime) : Time :=
  match k with
  | O => rt_now rt
  | S k' => time_after k' (snd (time_Now rt))
  end.

(** ** [generateRandomString] (session.go) *)

Definition charset : string :=
  "abcdefghijklmnopqrstuvwxyzABCDEFGHIJKLMNOPQRSTUVWXYZ0123456789".

Definition charset_at (b : N) : ascii :=
  match String.get (N.to_nat (b mod N.of_nat (String.length charset))) charset with
  | Some c => c
  | None => "a"%char
  end.

Definition generateRandomString (length : nat) (rt : Runtime) : string * Runtime :=
  match rand_Read length rt with
  | (Err _, rt1) =>
      let '(now, rt2) := time_Now rt1 in
      (pretty (UnixNano now), rt2)
  | (Ok randomBytes, rt1) =>
      (string_of_list_ascii (map charset_at randomBytes), rt1)
  end.

(** * Serialised values ([encoding/json])

    The stores keep [json.Marshal] output.  The only values this package
    stores are flat structs of strings and timestamps, so a document is a
    finite map from field names to leaves; a timestamp leaf stands for
    the RFC 3339 string that [time.Time] marshals to and parses back from
    without loss.  Decoding into a zero-initialised struct leaves a field
    at its zero value when the document has no such key.  A text leaf
    under the name of a timestamp field does not parse; a timestamp leaf
    under the name of a string field is reported as an error as well
    (Go would copy its text): the documents this package writes never
    have one, their string and timestamp fields bear different names.

    A document is what a decoder reads: JSON text is UTF-8, and the
    encoder writes every byte of a Go string that does not begin a
    well-formed encoding as U+FFFD.  [json_string] is a string as it
    comes back from its encoding. *)

Definition byte_in (lo hi : N) (c : ascii) : bool :=
  ((lo <=? N_of_ascii c) && (N_of_ascii c <=? hi))%N.

(** The first byte of a multi-byte encoding: how many bytes follow it,
    and the range the second one must lie in (the tables of
    [unicode/utf8]: no overlong forms, no surrogates, nothing above
    U+10FFFF). *)
Definition utf8_first (b : N) : option (nat * N * N) :=
  (if b <? 0xC2 then None
   else if b <=? 0xDF then Some (1%nat, 0x80, 0xBF)
   else if b =? 0xE0 then Some (2%nat, 0xA0, 0xBF)
   else if b =? 0xED then Some (2%nat, 0x80, 0x9F)
   else if b <=? 0xEF then Some (2%nat, 0x80, 0xBF)
   else if b =? 0xF0 then Some (3%nat, 0x90, 0xBF)
   else if b <=? 0xF3 then Some (3%nat, 0x80, 0xBF)
   else if b =? 0xF4 then Some (3%nat, 0x80, 0x8F)
   else None)%N.

(** [n] continuation bytes at the head of [s]. *)
Fixpoint utf8_continuation (n : nat) (s : string) : bool :=
  match n with
  | O => true
  | S k =>
      match s with
      | String c rest => byte_in 0x80 0xBF c && utf8_continuation k rest
      | EmptyString => false
      end
  end.

(** [utf8.DecodeRuneInString] as far as the encoder needs it: the number
    of bytes that follow the first in the well-formed encoding at the
    head of [s], or [None] where Go answers [RuneError] of width 1. *)
Definition utf8_following (s : string) : option nat :=
  match s with
  | EmptyString => None
  | String c rest =>
      if (N_of_ascii c <? 0x80)%N then Some O
      else
        match utf8_first (N_of_ascii c) with
        | None => None
        | Some (k, lo, hi) =>
            match rest with
            | String c1 rest1 =>
                if byte_in lo hi c1 && utf8_continuation (Nat.pred k) rest1
                then Some k else None
            | EmptyString => None
            end
        end
  end.

(** U+FFFD in UTF-8. *)
Definition RuneError : string :=
  String "239"%char (String "191"%char (String "189"%char EmptyString)).

(** The encoder's walk over a string; [inside] counts the bytes still to
    copy of the encoding it is in. *)
Fixpoint json_string_from (inside : nat) (s : string) : string :=
  match s with
  | EmptyString => EmptyString
  | String c rest =>
      match inside with
      | S k => String c (json_string_from k rest)
      | O =>
          match utf8_following (String c rest) with
          | Some k => String c (json_string_from k rest)
          | None => RuneError +:+ json_string_from O rest
          end
      end
  end.

Definition json_string (s : string) : string := json_string_from O s.

Inductive JVal :=
  | JString (s : string)
  | JTime (t : Time).

Abbreviation JSON := (gmap string JVal) (only parsing).

Class Marshal (A : Type) := json_Marshal : A -> result JSON.
Class Unmarshal (A : Type) := json_Unmarshal : JSON -> result A.

Definition field_string (doc : JSON) (name : string) : result string :=
  match doc !! name with
  | None => Ok ""
  | Some (JString s) => Ok s
  | Some (JTime _) => Err "json: cannot unmarshal timestamp into Go struct field of type string"
  end.

Definition field_time (doc : JSON) (name : string) : result Time :=
  match doc !! name with
  | None => Ok zeroTime
  | Some (JTime t) => Ok t
  | Some (JString _) => Err "parsing time: cannot parse as RFC 3339"
  end.

(** * Signed tokens ([github.com/golang-jwt/jwt/v5])

    The library is not part of the package; it is modelled symbolically.
    [jwt.MapClaims] is a map from claim names to strings or numbers.  A
    signature is the term that names what was signed, by which method and
    under which key: two signatures are equal exactly when they were made
    from the same inputs (an ideal MAC).  The key is the key as
    [crypto/hmac] uses it, see [hmac_key].  A compact token string is the
    triple of its decoded segments, the claims being the JSON document
    of the second one; any other text does not parse. *)
Inductive Claim :=
  | VString (s : string)
  | VNumber (n : Z).

Abbreviation MapClaims := (gmap string Claim) (only parsing).

Inductive Signature :=
  | HMAC (alg key : string) (claims : gmap string Claim)
  | OtherSignature (raw : string).

Inductive TokenString :=
  | CompactJWS (alg : string) (claims : gmap string Claim) (sig : Signature)
  | NotAToken (text : string).

Global Instance Claim_eq_dec : EqDecision Claim.
Proof. solve_decision. Defined.

Global Instance Signature_eq_dec : EqDecision Signature.
Proof. solve_decision. Defined.

Inductive SigningMethod :=
  | SigningMethodHMAC (name : string)
  | SigningMethodOther (name : string).

Definition SigningMethodHS256 : SigningMethod := SigningMethodHMAC "HS256".

Definition Alg (m : SigningMethod) : string :=
  match m with SigningMethodHMAC n | SigningMethodOther n => n end.

(** [jwt.GetSigningMethod]: the methods the library registers. *)
Definition GetSigningMethod (alg : string) : option SigningMethod :=
  if bool_decide (alg ∈ ["HS256"; "HS384"; "HS512"])
  then Some (SigningMethodHMAC alg)
  else if bool_decide (alg ∈ ["RS256"; "RS384"; "RS512"; "PS256"; "PS384"; "PS512";
                               "ES256"; "ES384"; "ES512"; "EdDSA"; "none"])
  then Some (SigningMethodOther alg)
  else None.

Record Token := mkToken {
  Method : SigningMethod;
  Claims : gmap string Claim;
  Valid : bool
}.

Definition jwt_NewWithClaims (method : SigningMethod) (claims : MapClaims) : Token :=
  {| Method := method; Claims := claims; Valid := false |}.

(** The SHA-2 digests behind the three HMAC methods come from outside:
    [hash_Sum alg data] is the digest of [data] under the hash of the
    method named [alg]. *)
Class Hash := hash_Sum : string -> string -> string.

(** Its block size in bytes: 64 for SHA-256, 128 for SHA-384 and
    SHA-512. *)
Definition BlockSize (alg : string) : nat :=
  if String.eqb alg "HS256" then 64%nat else 128%nat.

(** A string without the zero bytes at its end. *)
Fixpoint trim_zeros (s : string) : string :=
  match s with
  | EmptyString => EmptyString
  | String c rest =>
      let rest' := trim_zeros rest in
      if Ascii.eqb c zero && String.eqb rest' "" then EmptyString
      else String c rest'
  end.

(** [hmac.New(h, key)]: a key longer than a block is replaced by its
    digest, and the key is then filled with zero bytes up to the block.
    Two keys are the same key to the MAC when they agree after that; the
    filled key is given here by what precedes its last zero bytes. *)
Definition hmac_key `{Hash} (alg key : string) : string :=
  trim_zeros (if (BlockSize alg <? String.length key)%nat then hash_Sum alg key else key).

(** The claims as they stand in the JSON segment of the token. *)
Definition json_claim (c : Claim) : Claim :=
  match c with
  | VString s => VString (json_string s)
  | VNumber n => VNumber n
  end.

Definition json_claims (claims : MapClaims) : MapClaims := json_claim <$> claims.

(** [token.SignedString(key)] with a byte-slice key. *)
Definition SignedString `{Hash} (token : Token) (key : string) : result TokenString :=
  match Method token with
  | SigningMethodHMAC name =>
      let claims := json_claims (Claims token) in
      Ok (CompactJWS name claims (HMAC name (hmac_key name key) claims))
  | SigningMethodOther _ => Err "key is of invalid type"
  end.

(** [method.Verify(signingString, sig, key)] with a byte-slice key. *)
Definition Verify `{Hash} (method : SigningMethod) (claims : MapClaims)
    (sig : Signature) (key : string) : result unit :=
  match method with
  | SigningMethodHMAC name =>
      if bool_decide (sig = HMAC name (hmac_key name key) claims) then Ok tt
      else Err "signature is invalid"
  | SigningMethodOther _ => Err "key is of invalid type"
  end.

(** [MapClaims.parseNumericDate]: a missing claim and the number 0 both
    mean "not set"; a claim that is not a number is an error. *)
Definition parseNumericDate (m : MapClaims) (key : string) : result (option Time) :=
  match m !! key with
  | None => Ok None
  | Some (VNumber n) => if n =? 0 then Ok None else Ok (Some (time_Unix n))
  | Some (VString _) => Err (key +:+ " is invalid")
  end.

Definition verifyExpiresAt (claims : MapClaims) (cmp : Time) : list string :=
  match parseNumericDate claims "exp" with
  | Err e => [e]
  | Ok None => []
  | Ok (Some exp) => if Before cmp exp then [] else ["token is expired"]
  end.

Definition verifyNotBefore (claims : MapClaims) (cmp : Time) : list string :=
  match parseNumericDate claims "nbf" with
  | Err e => [e]
  | Ok None => []
  | Ok (Some nbf) => if negb (Before cmp nbf) then [] else ["token is not valid yet"]
  end.

(** The default [Validator]: expiry and not-before, no leeway; issued-at,
    audience, issuer and subject are not checked unless asked for. *)
Definition Validate (claims : MapClaims) (rt : Runtime) : result unit * Runtime :=
  let '(now, rt1) := time_Now rt in
  match verifyExpiresAt claims now ++ verifyNotBefore claims now with
  | [] => (Ok tt, rt1)
  | e :: errs => (Err (String.concat ", " (e :: errs)), rt1)
  end.

(** [jwt.Parse(tokenString, keyFunc)]: decode, look the method up, ask
    the caller for the key, verify the signature, validate the claims. *)
Definition jwt_Parse `{Hash} (tokenString : TokenString)
    (keyFunc : Token -> result string) (rt : Runtime) : result Token * Runtime :=
  match tokenString with
  | NotAToken _ =>
      (Err "token is malformed: token contains an invalid number of segments", rt)
  | CompactJWS alg claims sig =>
      match GetSigningMethod alg with
      | None => (Err "token is unverifiable: signing method (alg) is unavailable", rt)
      | Some method =>
          let token := {| Method := method; Claims := claims; Valid := false |} in
          match keyFunc token with
          | Err e =>
              (Err ("token is unverifiable: error while executing keyfunc: " +:+ e), rt)
          | Ok key =>
              match Verify method claims sig key with
              | Err e => (Err ("token signature is invalid: " +:+ e), rt)
              | Ok _ =>
                  match Validate claims rt with
                  | (Err e, rt1) => (Err ("token has invalid claims: " +:+ e), rt1)
                  | (Ok _, rt1) =>
                      (Ok {| Method := method; Claims := claims; Valid := true |}, rt1)
                  end
              end
          end
      end
  end.

(** Type assertion [claims[key].(string)] with the result ignored on
    failure: the empty string unless the claim is a string. *)
Definition claim_string (claims : MapClaims) (key : string) : string :=
  match claims !! key with
  | Some (VString s) => s
  | _ => ""
  end.

(** * Data model (the package's types) *)

Record User := mkUser {
  User_ID : string;
  User_Email : string;
  User_Name : string;
  User_AvatarURL : string;
  User_Provider : string;
  User_CreatedAt : Time;
  User_UpdatedAt : Time
}.

Record AuthResponse := mkAuthResponse {
  AuthResponse_User : User;
  AuthResponse_AccessToken : TokenString;
  AuthResponse_RefreshToken : TokenString;
  AuthResponse_ExpiresIn : Z
}.

Record SignUpRequest := mkSignUpRequest {
  SignUp_Email : string;
  SignUp_Password : string;
  SignUp_Name : string
}.

Record SignInRequest := mkSignInRequest {
  SignIn_Email : string;
  SignIn_Password : string
}.

Abbreviation OAuthProvider := string (only parsing).
Definition ProviderGoogle : OAuthProvider := "google".
Definition ProviderGitHub : OAuthProvider := "github".
Definition ProviderLocal : OAuthProvider := "local".

Record OAuthUserInfo := mkOAuthUserInfo {
  OAuth_ID : string;
  OAuth_Email : string;
  OAuth_Name : string;
  OAuth_AvatarURL : string;
  OAuth_Provider : string
}.

Record TokenClaims := mkTokenClaims {
  UserID : string;
  Email : string;
  Name : string;
  Provider : string
}.

Record SessionData := mkSessionData {
  Session_UserID : string;
  Session_Email : string;
  Session_CreatedAt : Time;
  Session_ExpiresAt : Time
}.

Record OAuthState := mkOAuthState {
  State : string;
  RedirectURI : string;
  State_ExpiresAt : Time
}.

Global Instance SessionData_Marshal : Marshal SessionData := fun d =>
  Ok (<["user_id" := JString (json_string (Session_UserID d))]>
      (<["email" := JString (json_string (Session_Email d))]>
      (<["created_at" := JTime (Session_CreatedAt d)]>
      (<["expires_at" := JTime (Session_ExpiresAt d)]> ∅)))).

Global Instance SessionData_Unmarshal : Unmarshal SessionData := fun doc =>
  match field_string doc "user_id", field_string doc "email",
        field_time doc "created_at", field_time doc "expires_at" with
  | Ok u, Ok e, Ok c, Ok x =>
      Ok {| Session_UserID := u; Session_Email := e;
            Session_CreatedAt := c; Session_ExpiresAt := x |}
  | Err m, _, _, _ | _, Err m, _, _ | _, _, Err m, _ | _, _, _, Err m => Err m
  end.

Global Instance OAuthState_Marshal : Marshal OAuthState := fun s =>
  Ok (<["state" := JString (json_string (State s))]>
      (<["redirect_uri" := JString (json_string (RedirectURI s))]>
      (<["expires_at" := JTime (State_ExpiresAt s)]> ∅))).

Global Instance OAuthState_Unmarshal : Unmarshal OAuthState := fun doc =>
  match field_string doc "state", field_string doc "redirect_uri",
        field_time doc "expires_at" with
  | Ok s, Ok r, Ok x =>
      Ok {| State := s; RedirectURI := r; State_ExpiresAt := x |}
  | Err m, _, _ | _, Err m, _ | _, _, Err m => Err m
  end.

Record Config := mkConfig {
  JWTSecret : string;
  JWTExpiration : Duration;
  JWTIssuer : string;
  GoogleClientID : string;
  GoogleClientSecret : string;
  GoogleRedirectURI : string;
  GoogleScopes : list string;
  GitHubClientID : string;
  GitHubClientSecret : string;
  GitHubRedirectURI : string;
  GitHubScopes : list string;
  OAuthStateExpiration : Duration;
  FrontendSuccessURL : string;
  FrontendErrorURL : string;
  RedisURL : string;
  EnableRedisCache : bool;
  BCryptCost : Z;
  AllowSignup : bool;
  RequireEmailVerification : bool
}.

(** * Expiring key-value stores (session.go) *)

(** The [SessionStore] interface.  An implementation owns a state [S];
    a call may also read the clock.  [value interface{}] and
    [dest interface{}] are any type with a JSON encoding. *)
Class SessionStore (S : Type) := {
  store_Set : forall {A} `{Marshal A},
      string -> A -> Duration -> S -> Runtime -> result unit * S * Runtime;
  store_Get : forall {A} `{Unmarshal A},
      string -> S -> Runtime -> result A * S * Runtime;
  store_Delete : list string -> S -> Runtime -> result unit * S * Runtime;
  store_Exists : list string -> S -> Runtime -> result bool * S * Runtime
}.

(** ** [MemorySessionStore]: a map from keys to serialised values with an
    absolute expiry.  The mutex is not modelled: calls are sequential. *)
Record memoryItem := mkItem {
  value : gmap string JVal;
  expiresAt : Time
}.

Record MemorySessionStore := mkMemory {
  store : gmap string memoryItem
}.

Definition NewMemorySessionStore : MemorySessionStore := {| store := ∅ |}.

Definition MemorySessionStore_Set {A} `{Marshal A} (key : string) (v : A)
    (expiration : Duration) (m : MemorySessionStore) (rt : Runtime)
    : result unit * MemorySessionStore * Runtime :=
  match json_Marshal v with
  | Err e => (Err ("failed to marshal value: " +:+ e), m, rt)
  | Ok data =>
      let '(now, rt1) := time_Now rt in
      (Ok tt,
       {| store := <[key := {| value := data; expiresAt := Add now expiration |}]> (store m) |},
       rt1)
  end.

Definition MemorySessionStore_Get {A} `{Unmarshal A} (key : string)
    (m : MemorySessionStore) (rt : Runtime)
    : result A * MemorySessionStore * Runtime :=
  match store m !! key with
  | None => (Err "key not found", m, rt)
  | Some item =>
      let '(now, rt1) := time_Now rt in
      if After now (expiresAt item)
      then (Err "key expired", {| store := delete key (store m) |}, rt1)
      else (json_Unmarshal (value item), m, rt1)
  end.

Definition MemorySessionStore_Delete (keys : list string)
    (m : MemorySessionStore) (rt : Runtime)
    : result unit * MemorySessionStore * Runtime :=
  (Ok tt, {| store := foldl (fun acc key => delete key acc) (store m) keys |}, rt).

Fixpoint MemorySessionStore_Exists_loop (keys : list string)
    (m : MemorySessionStore) (rt : Runtime) : bool * Runtime :=
  match keys with
  | [] => (false, rt)
  | key :: rest =>
      match store m !! key with
      | Some item =>
          let '(now, rt1) := time_Now rt in
          if After now (expiresAt item)
          then MemorySessionStore_Exists_loop rest m rt1
          else (true, rt1)
      | None => MemorySessionStore_Exists_loop rest m rt
      end
  end.

Definition MemorySessionStore_Exists (keys : list string)
    (m : MemorySessionStore) (rt : Runtime)
    : result bool * MemorySessionStore * Runtime :=
  let '(b, rt1) := MemorySessionStore_Exists_loop keys m rt in (Ok b, m, rt1).


Global Instance MemorySessionStore_SessionStore : SessionStore MemorySessionStore := {
  store_Set := @MemorySessionStore_Set;
  store_Get := @MemorySessionStore_Get;
  store_Delete := MemorySessionStore_Delete;
  store_Exists := MemorySessionStore_Exists
}.

(** ** [RedisSessionStore]: every call goes to a Redis client, which is
    an outside service: [redis_Get] answers [Ok None] for [redis.Nil]. *)
Class RedisClient (R : Type) := {
  redis_Set : string -> gmap string JVal -> Duration -> R -> result unit * R;
  redis_Get : string -> R -> result (option (gmap string JVal)) * R;
  redis_Del : list string -> R -> result unit * R;
  redis_Exists : list string -> R -> result Z * R
}.

Record RedisSessionStore (R : Type) := mkRedis { client : R }.
Arguments mkRedis {R} client.
Arguments client {R} r.

Section Redis.
Context {R : Type} `{RedisClient R}.

Definition RedisSessionStore_Set {A} `{Marshal A} (key : string) (v : A)
    (expiration : Duration) (r : RedisSessionStore R) (rt : Runtime)
    : result unit * RedisSessionStore R * Runtime :=
  match json_Marshal v with
  | Err e => (Err ("failed to marshal value: " +:+ e), r, rt)
  | Ok data =>
      let '(res, c) := redis_Set key data expiration (client r) in
      (res, mkRedis c, rt)
  end.

Definition RedisSessionStore_Get {A} `{Unmarshal A} (key : string)
    (r : RedisSessionStore R) (rt : Runtime)
    : result A * RedisSessionStore R * Runtime :=
  match redis_Get key (client r) with
  | (Ok None, c) => (Err "key not found", mkRedis c, rt)
  | (Err e, c) => (Err e, mkRedis c, rt)
  | (Ok (Some data), c) => (json_Unmarshal data, mkRedis c, rt)
  end.

Definition RedisSessionStore_Delete (keys : list string)
    (r : RedisSessionStore R) (rt : Runtime)
    : result unit * RedisSessionStore R * Runtime :=
  let '(res, c) := redis_Del keys (client r) in (res, mkRedis c, rt).

Definition RedisSessionStore_Exists (keys : list string)
    (r : RedisSessionStore R) (rt : Runtime)
    : result bool * RedisSessionStore R * Runtime :=
  match redis_Exists keys (client r) with
  | (Err e, c) => (Err e, mkRedis c, rt)
  | (Ok count, c) => (Ok (0 <? count), mkRedis c, rt)
  end.

Global Instance RedisSessionStore_SessionStore : SessionStore (RedisSessionStore R) := {
  store_Set := @RedisSessionStore_Set;
  store_Get := @RedisSessionStore_Get;
  store_Delete := RedisSessionStore_Delete;
  store_Exists := RedisSessionStore_Exists
}.
End Redis.

(** * The JWT manager *)

Record JWTManager := mkJWTManager {
  secret : string;
  issuer : string;
  expiresIn : Duration
}.

Definition NewJWTManager (secret issuer : string) (expiresIn : Duration) : JWTManager :=
  {| secret := secret; issuer := issuer; expiresIn := expiresIn |}.

Definition GenerateToken `{Hash} (j : JWTManager) (claims : TokenClaims) (rt : Runtime)
    : result TokenString * Runtime :=
  let '(now, rt1) := time_Now rt in
  let jwtClaims : MapClaims :=
    <["user_id" := VString (UserID claims)]>
    (<["email" := VString (Email claims)]>
    (<["name" := VString (Name claims)]>
    (<["provider" := VString (Provider claims)]>
    (<["iss" := VString (issuer j)]>
    (<["sub" := VString (UserID claims)]>
    (<["iat" := VNumber (Unix now)]>
    (<["exp" := VNumber (Unix (Add now (expiresIn j)))]>
    (<["nbf" := VNumber (Unix now)]> ∅)))))))) in
  let token := jwt_NewWithClaims SigningMethodHS256 jwtClaims in
  (SignedString token (secret j), rt1).

(** The key function both validators pass to [jwt.Parse]. *)
Definition keyFunc (j : JWTManager) (token : Token) : result string :=
  match Method token with
  | SigningMethodHMAC _ => Ok (secret j)
  | SigningMethodOther alg => Err ("unexpected signing method: " +:+ alg)
  end.

Definition ValidateToken `{Hash} (j : JWTManager) (tokenString : TokenString) (rt : Runtime)
    : result TokenClaims * Runtime :=
  match jwt_Parse tokenString (keyFunc j) rt with
  | (Err e, rt1) => (Err ("failed to parse token: " +:+ e), rt1)
  | (Ok token, rt1) =>
      if negb (Valid token) then (Err "invalid token", rt1)
      else
        let claims := Claims token in
        let userID := claim_string claims "user_id" in
        let email := claim_string claims "email" in
        let name := claim_string claims "name" in
        let provider := claim_string claims "provider" in
        if String.eqb userID "" then (Err "user_id not found in token", rt1)
        else (Ok {| UserID := userID; Email := email; Name := name; Provider := provider |},
              rt1)
  end.

Definition GenerateRefreshToken `{Hash} (j : JWTManager) (userID : string) (rt : Runtime)
    : result TokenString * Runtime :=
  let '(now, rt1) := time_Now rt in
  let claims : MapClaims :=
    <["user_id" := VString userID]>
    (<["type" := VString "refresh"]>
    (<["iss" := VString (issuer j)]>
    (<["sub" := VString userID]>
    (<["iat" := VNumber (Unix now)]>
    (<["exp" := VNumber (Unix (Add now (30 * 24 * Hour)))]> ∅))))) in
  let token := jwt_NewWithClaims SigningMethodHS256 claims in
  (SignedString token (secret j), rt1).

Definition ValidateRefreshToken `{Hash} (j : JWTManager) (tokenString : TokenString) (rt : Runtime)
    : result string * Runtime :=
  match jwt_Parse tokenString (keyFunc j) rt with
  | (Err e, rt1) => (Err ("failed to parse refresh token: " +:+ e), rt1)
  | (Ok token, rt1) =>
      if negb (Valid token) then (Err "invalid refresh token", rt1)
      else
        let claims := Claims token in
        let tokenType := claim_string claims "type" in
        if negb (String.eqb tokenType "refresh") then (Err "not a refresh token", rt1)
        else
          let userID := claim_string claims "user_id" in
          if String.eqb userID "" then (Err "user_id not found in refresh token", rt1)
          else (Ok userID, rt1)
  end.

(** * Collaborators outside the package *)

(** The caller-supplied [UserStore]. *)
Class UserStore (U : Type) := {
  CreateUser : User -> string -> U -> result unit * U;
  GetUserByEmail : string -> U -> result (User * string) * U;
  GetUserByID : string -> U -> result User * U;
  UpdateUser : User -> U -> result unit * U;
  UserExists : string -> U -> result bool * U
}.

(** [golang.org/x/crypto/bcrypt]: hashing draws a salt from the entropy
    source; comparing is a pure function of hash and password. *)
Class BCrypt := {
  GenerateFromPassword : string -> Z -> Runtime -> result string * Runtime;
  CompareHashAndPassword : string -> string -> result unit
}.

(** The two provider exchanges of the OAuth manager
    ([handleGoogleCallback], [handleGitHubCallback]) do nothing but talk
    to the provider's HTTP endpoints with the configured credentials and
    the authorization code: they are functions of the state of the
    network, which they may change (a code is spent by its first use). *)
Class OAuthNetwork (Net : Type) := {
  handleGoogleCallback : Config -> string -> Net -> result OAuthUserInfo * Net;
  handleGitHubCallback : Config -> string -> Net -> result OAuthUserInfo * Net
}.

(** * The world a service runs in, and computations over it *)

Record World (S U Net : Type) := mkWorld {
  w_rt : Runtime;
  w_store : S;
  w_users : U;
  w_net : Net
}.
Arguments mkWorld {S U Net} w_rt w_store w_users w_net.
Arguments w_rt {S U Net} w.
Arguments w_store {S U Net} w.
Arguments w_users {S U Net} w.
Arguments w_net {S U Net} w.

Definition M (S U Net : Type) (A : Type) : Type := World S U Net -> A * World S U Net.

Definition ret {S U Net A} (a : A) : M S U Net A := fun w => (a, w).

Definition bind {S U Net A B} (c : M S U Net A) (k : A -> M S U Net B) : M S U Net B :=
  fun w => let '(a, w1) := c w in k a w1.

Notation "'let*' x ':=' c 'in' k" := (bind c (fun x => k))
  (at level 10, x name, c at level 100, k at level 200, only parsing).

Definition liftRT {S U Net A} (f : Runtime -> A * Runtime) : M S U Net A :=
  fun w => let '(a, rt) := f (w_rt w) in
           (a, mkWorld rt (w_store w) (w_users w) (w_net w)).

Definition liftStore {S U Net A} (f : S -> Runtime -> A * S * Runtime) : M S U Net A :=
  fun w => let '(a, s, rt) := f (w_store w) (w_rt w) in
           (a, mkWorld rt s (w_users w) (w_net w)).

Definition liftUsers {S U Net A} (f : U -> A * U) : M S U Net A :=
  fun w => let '(a, u) := f (w_users w) in
           (a, mkWorld (w_rt w) (w_store w) u (w_net w)).

Definition liftNet {S U Net A} (f : Net -> A * Net) : M S U Net A :=
  fun w => let '(a, n) := f (w_net w) in
           (a, mkWorld (w_rt w) (w_store w) (w_users w) n).

Definition printf {S U Net} (line : string) : M S U Net unit :=
  liftRT (fun rt => (tt, fmt_Printf line rt)).

Definition newline : string := String "010"%char EmptyString.

(** [fmt.Sprintf("%s:%s", prefix, id)] *)
Definition key_of (prefix id : string) : string := prefix +:+ ":" +:+ id.

Section Service.
Context {S U Net : Type}.
Context `{SessionStore S} `{UserStore U} `{OAuthNetwork Net} `{BCrypt} `{Hash}.

Local Abbreviation M := (M S U Net).

(** ** The session manager (session.go) *)

Record SessionManager := mkSessionManager { prefix : string }.

Definition NewSessionManager (prefix : string) : SessionManager :=
  {| prefix := if String.eqb prefix "" then "session" else prefix |}.

Definition CreateSession (s : SessionManager) (userID email : string)
    (duration : Duration) : M (result string) :=
  let* sessionID := liftRT (generateRandomString 32) in
  let* createdAt := liftRT time_Now in
  let* now := liftRT time_Now in
  let sessionData :=
    {| Session_UserID := userID; Session_Email := email;
       Session_CreatedAt := createdAt; Session_ExpiresAt := Add now duration |} in
  let key := key_of (prefix s) sessionID in
  let* r := liftStore (store_Set key sessionData duration) in
  match r with
  | Err e => ret (Err ("failed to create session: " +:+ e))
  | Ok _ => ret (Ok sessionID)
  end.

Definition GetSession (s : SessionManager) (sessionID : string)
    : M (result SessionData) :=
  let key := key_of (prefix s) sessionID in
  let* r := liftStore (store_Get key) in
  match r with
  | Err e => ret (Err ("session not found: " +:+ e))
  | Ok sessionData =>
      let* now := liftRT time_Now in
      if After now (Session_ExpiresAt sessionData)
      then
        let* _ := liftStore (store_Delete [key]) in
        ret (Err "session expired")
      else ret (Ok sessionData)
  end.

Definition InvalidateSession (s : SessionManager) (sessionID : string)
    : M (result unit) :=
  let key := key_of (prefix s) sessionID in
  liftStore (store_Delete [key]).

(** ** The OAuth manager *)

Record OAuthManager := mkOAuthManager {
  oauth_config : Config;
  statePrefix : string
}.

Definition NewOAuthManager (config : Config) : OAuthManager :=
  {| oauth_config := config; statePrefix := "oauth:state" |}.

(** An authorization URL: the endpoint and the query parameters in the
    order they are added, before percent-encoding. *)
Record AuthURL := mkAuthURL {
  endpoint : string;
  params : list (string * string)
}.

Definition getGoogleAuthURL (o : OAuthManager) (state : string) : result AuthURL :=
  if String.eqb (GoogleClientID (oauth_config o)) ""
  then Err "Google OAuth not configured"
  else
    Ok {| endpoint := "https://accounts.google.com/o/oauth2/auth";
          params :=
            [("client_id", GoogleClientID (oauth_config o));
             ("redirect_uri", GoogleRedirectURI (oauth_config o));
             ("scope", String.concat " " (GoogleScopes (oauth_config o)));
             ("response_type", "code");
             ("state", state);
             ("access_type", "offline")] |}.

Definition getGitHubAuthURL (o : OAuthManager) (state : string) : result AuthURL :=
  if String.eqb (GitHubClientID (oauth_config o)) ""
  then Err "GitHub OAuth not configured"
  else
    Ok {| endpoint := "https://github.com/login/oauth/authorize";
          params :=
            [("client_id", GitHubClientID (oauth_config o));
             ("redirect_uri", GitHubRedirectURI (oauth_config o));
             ("scope", String.concat " " (GitHubScopes (oauth_config o)));
             ("state", state)] |}.

Definition GetAuthURL (o : OAuthManager) (provider : OAuthProvider)
    (redirectURI : string) : M (result AuthURL) :=
  let* state := liftRT (generateRandomString 32) in
  let* now := liftRT time_Now in
  let stateData :=
    {| State := state; RedirectURI := redirectURI;
       State_ExpiresAt := Add now (OAuthStateExpiration (oauth_config o)) |} in
  let stateKey := key_of (statePrefix o) state in
  let* r := liftStore (store_Set stateKey stateData
                         (OAuthStateExpiration (oauth_config o))) in
  match r with
  | Err e => ret (Err ("failed to store oauth state: " +:+ e))
  | Ok _ =>
      if String.eqb provider ProviderGoogle then ret (getGoogleAuthURL o state)
      else if String.eqb provider ProviderGitHub then ret (getGitHubAuthURL o state)
      else ret (Err ("unsupported provider: " +:+ provider))
  end.

Definition validateState (o : OAuthManager) (state : string) : M (result string) :=
  let stateKey := key_of (statePrefix o) state in
  let* r := liftStore (store_Get stateKey) in
  match r with
  | Err _ => ret (Err "state not found or expired")
  | Ok stateData =>
      let* _ := liftStore (store_Delete [stateKey]) in
      let* now := liftRT time_Now in
      if After now (State_ExpiresAt stateData)
      then ret (Err "state expired")
      else ret (Ok (RedirectURI stateData))
  end.

(** [ValidateCallback] returns three values: the user info (nil on
    failure), the redirect target and the error (nil on success). *)
Definition ValidateCallback (o : OAuthManager) (provider : OAuthProvider)
    (state code : string) : M (option OAuthUserInfo * string * option string) :=
  let* r := validateState o state in
  match r with
  | Err e => ret (None, "", Some ("invalid state: " +:+ e))
  | Ok redirectURI =>
      if String.eqb provider ProviderGoogle then
        let* cb := liftNet (handleGoogleCallback (oauth_config o) code) in
        match cb with
        | Ok userInfo => ret (Some userInfo, redirectURI, None)
        | Err e => ret (None, redirectURI, Some e)
        end
      else if String.eqb provider ProviderGitHub then
        let* cb := liftNet (handleGitHubCallback (oauth_config o) code) in
        match cb with
        | Ok userInfo => ret (Some userInfo, redirectURI, None)
        | Err e => ret (None, redirectURI, Some e)
        end
      else ret (None, "", Some ("unsupported provider: " +:+ provider))
  end.

(** ** The authentication service *)

Record AuthService := mkAuthService {
  auth_config : Config;
  sessionManager : SessionManager;
  jwtManager : JWTManager;
  oauthManager : OAuthManager
}.

Definition NewAuthService (config : Config) : AuthService :=
  {| auth_config := config;
     sessionManager := NewSessionManager "session";
     jwtManager := NewJWTManager (JWTSecret config) (JWTIssuer config)
                                 (JWTExpiration config);
     oauthManager := NewOAuthManager config |}.

Definition generateAuthResponse (a : AuthService) (user : User)
    : M (result AuthResponse) :=
  let claims :=
    {| UserID := User_ID user; Email := User_Email user;
       Name := User_Name user; Provider := User_Provider user |} in
  let* access := liftRT (GenerateToken (jwtManager a) claims) in
  match access with
  | Err e => ret (Err ("failed to generate access token: " +:+ e))
  | Ok accessToken =>
      let* refresh := liftRT (GenerateRefreshToken (jwtManager a) (User_ID user)) in
      match refresh with
      | Err e => ret (Err ("failed to generate refresh token: " +:+ e))
      | Ok refreshToken =>
          let* session := CreateSession (sessionManager a) (User_ID user)
                            (User_Email user) (JWTExpiration (auth_config a)) in
          let* _ := match session with
                    | Err e => printf ("Failed to create session: " +:+ e +:+ newline)
                    | Ok _ => ret tt
                    end in
          ret (Ok {| AuthResponse_User := user;
                     AuthResponse_AccessToken := accessToken;
                     AuthResponse_RefreshToken := refreshToken;
                     AuthResponse_ExpiresIn := Seconds_int64 (JWTExpiration (auth_config a)) |})
      end
  end.

Definition SignUp (a : AuthService) (req : SignUpRequest) : M (result AuthResponse) :=
  if negb (AllowSignup (auth_config a)) then ret (Err "signup is disabled")
  else
    let* ex := liftUsers (UserExists (SignUp_Email req)) in
    match ex with
    | Err e => ret (Err ("failed to check user existence: " +:+ e))
    | Ok true => ret (Err "user already exists")
    | Ok false =>
        let* hashed := liftRT (GenerateFromPassword (SignUp_Password req)
                                 (BCryptCost (auth_config a))) in
        match hashed with
        | Err e => ret (Err ("failed to hash password: " +:+ e))
        | Ok hashedPassword =>
            let* id := liftRT (generateRandomString 16) in
            let* createdAt := liftRT time_Now in
            let* updatedAt := liftRT time_Now in
            let user :=
              {| User_ID := id; User_Email := SignUp_Email req;
                 User_Name := SignUp_Name req; User_AvatarURL := "";
                 User_Provider := ProviderLocal;
                 User_CreatedAt := createdAt; User_UpdatedAt := updatedAt |} in
            let* created := liftUsers (CreateUser user hashedPassword) in
            match created with
            | Err e => ret (Err ("failed to create user: " +:+ e))
            | Ok _ => generateAuthResponse a user
            end
        end
    end.

Definition SignIn (a : AuthService) (req : SignInRequest) : M (result AuthResponse) :=
  let* found := liftUsers (GetUserByEmail (SignIn_Email req)) in
  match found with
  | Err _ => ret (Err "invalid credentials")
  | Ok (user, hashedPassword) =>
      match CompareHashAndPassword hashedPassword (SignIn_Password req) with
      | Err _ => ret (Err "invalid credentials")
      | Ok _ => generateAuthResponse a user
      end
  end.

Definition OAuthSignIn (a : AuthService) (provider : OAuthProvider)
    (state code : string) : M (result AuthResponse) :=
  let* cb := ValidateCallback (oauthManager a) provider state code in
  match cb with
  | (_, _, Some e) => ret (Err ("oauth validation failed: " +:+ e))
  | (None, _, None) => ret (Err "panic: nil pointer dereference")
  | (Some oauthUser, _, None) =>
      if String.eqb (OAuth_Email oauthUser) ""
      then ret (Err "email is required from OAuth provider")
      else
        let* found := liftUsers (GetUserByEmail (OAuth_Email oauthUser)) in
        match found with
        | Err _ =>
            let* createdAt := liftRT time_Now in
            let* updatedAt := liftRT time_Now in
            let user :=
              {| User_ID := provider +:+ "_" +:+ OAuth_ID oauthUser;
                 User_Email := OAuth_Email oauthUser;
                 User_Name := OAuth_Name oauthUser;
                 User_AvatarURL := OAuth_AvatarURL oauthUser;
                 User_Provider := OAuth_Provider oauthUser;
                 User_CreatedAt := createdAt; User_UpdatedAt := updatedAt |} in
            let* created := liftUsers (CreateUser user "") in
            match created with
            | Err e => ret (Err ("failed to create OAuth user: " +:+ e))
            | Ok _ => generateAuthResponse a user
            end
        | Ok (existing, _) =>
            let* updatedAt := liftRT time_Now in
            let user :=
              {| User_ID := User_ID existing; User_Email := User_Email existing;
                 User_Name := OAuth_Name oauthUser;
                 User_AvatarURL := OAuth_AvatarURL oauthUser;
                 User_Provider := User_Provider existing;
                 User_CreatedAt := User_CreatedAt existing;
                 User_UpdatedAt := updatedAt |} in
            let* updated := liftUsers (UpdateUser user) in
            let* _ := match updated with
                      | Err e => printf ("Failed to update user: " +:+ e +:+ newline)
                      | Ok _ => ret tt
                      end in
            generateAuthResponse a user
        end
  end.

Definition RefreshToken (a : AuthService) (refreshToken : TokenString)
    : M (result AuthResponse) :=
  let* validated := liftRT (ValidateRefreshToken (jwtManager a) refreshToken) in
  match validated with
  | Err e => ret (Err ("invalid refresh token: " +:+ e))
  | Ok userID =>
      let* found := liftUsers (GetUserByID userID) in
      match found with
      | Err e => ret (Err ("user not found: " +:+ e))
      | Ok user => generateAuthResponse a user
      end
  end.

Definition AuthService_ValidateToken (a : AuthService) (token : TokenString)
    : M (result TokenClaims) :=
  liftRT (ValidateToken (jwtManager a) token).

Definition GetOAuthURL (a : AuthService) (provider : OAuthProvider)
    (redirectURI : string) : M (result AuthURL) :=
  let redirectURI :=
    if String.eqb redirectURI "" then FrontendSuccessURL (auth_config a)
    else redirectURI in
  GetAuthURL (oauthManager a) provider redirectURI.

Definition Logout (a : AuthService) (sessionID : string) : M (result unit) :=
  if negb (String.eqb sessionID "")
  then InvalidateSession (sessionManager a) sessionID
  else ret (Ok tt).

Definition AuthService_GetSession (a : AuthService) (sessionID : string)
    : M (result SessionData) :=
  GetSession (sessionManager a) sessionID.
End Service.

(** * Configuration from the environment (config.go) *)

(** The process environment: the variables that are set.  [os.Getenv]
    answers the empty string for a variable that is not set. *)
Definition os_Getenv (env : gmap string string) (key : string) : string :=
  match env !! key with
  | Some v => v
  | None => ""
  end.

Definition getEnv (env : gmap string string) (key defaultValue : string) : string :=
  let value := os_Getenv env key in
  if negb (String.eqb value "") then value else defaultValue.

Definition NewConfig (env : gmap string string) : Config := {|
  JWTSecret := getEnv env "JWT_SECRET" "";
  JWTExpiration := 24 * Hour;
  JWTIssuer := getEnv env "JWT_ISSUER" "gotrust";
  GoogleClientID := getEnv env "GOOGLE_CLIENT_ID" "";
  GoogleClientSecret := getEnv env "GOOGLE_CLIENT_SECRET" "";
  GoogleRedirectURI :=
    getEnv env "GOOGLE_REDIRECT_URI" "http://localhost:4000/auth/google/callback";
  GoogleScopes := ["email"; "profile"];
  GitHubClientID := getEnv env "GITHUB_CLIENT_ID" "";
  GitHubClientSecret := getEnv env "GITHUB_CLIENT_SECRET" "";
  GitHubRedirectURI :=
    getEnv env "GITHUB_REDIRECT_URI" "http://localhost:4000/auth/github/callback";
  GitHubScopes := ["user:email"];
  OAuthStateExpiration := 10 * Minute;
  FrontendSuccessURL := getEnv env "FRONTEND_SUCCESS_URL" "http://localhost:3000/auth/success";
  FrontendErrorURL := getEnv env "FRONTEND_ERROR_URL" "http://localhost:3000/auth/error";
  RedisURL := getEnv env "REDIS_URL" "";
  EnableRedisCache := String.eqb (getEnv env "ENABLE_REDIS_CACHE" "true") "true";
  BCryptCost := 10;
  AllowSignup := String.eqb (getEnv env "ALLOW_SIGNUP" "true") "true";
  RequireEmailVerification :=
    String.eqb (getEnv env "REQUIRE_EMAIL_VERIFICATION" "false") "true"
|}.

(** * The provider exchanges of the OAuth manager over HTTP

    [net/http] and the decoding of the providers' answers are outside the
    package: a client sends a request and answers with a transport error
    or a response (status code and body), and a body decodes, or not,
    into each of the structs the manager reads.  The requests are the
    ones the manager builds ([http.NewRequest] cannot fail on them: the
    methods and URLs are constants). *)
Record Request := mkRequest {
  req_Method : string;
  req_URL : string;
  req_Header : list (string * string);
  req_Form : list (string * string)
}.

Record Response (B : Type) := mkResponse {
  StatusCode : Z;
  Body : B
}.
Arguments mkResponse {B} StatusCode Body.
Arguments StatusCode {B} r.
Arguments Body {B} r.

Definition StatusOK : Z := 200.

Record GoogleUser := mkGoogleUser {
  Google_ID : string;
  Google_Email : string;
  Google_Name : string;
  Google_Picture : string
}.

Record GitHubUser := mkGitHubUser {
  GitHub_ID : Z;
  GitHub_Login : string;
  GitHub_Email : string;
  GitHub_Name : string;
  GitHub_AvatarURL : string
}.

Record GitHubEmail := mkGitHubEmail {
  GitHubEmail_Email : string;
  Primary : bool;
  Verified : bool
}.

Class HTTPClient (Net B : Type) := {
  client_Do : Request -> Net -> result (Response B) * Net;
  Decode_tokenResp : B -> result string;
  Decode_googleUser : B -> result GoogleUser;
  Decode_githubUser : B -> result GitHubUser;
  Unmarshal_emails : B -> result (list GitHubEmail)
}.

Section ProviderExchange.
Context {Net B : Type} `{HTTPClient Net B}.

Definition getGitHubEmail (accessToken : string) (n : Net) : result string * Net :=
  let emailURL := "https://api.github.com/user/emails" in
  let req :=
    {| req_Method := "GET"; req_URL := emailURL;
       req_Header := [("Authorization", "Bearer " +:+ accessToken);
                      ("Accept", "application/vnd.github.v3+json")];
       req_Form := [] |} in
  match client_Do req n with
  | (Err e, n1) => (Err e, n1)
  | (Ok resp, n1) =>
      if negb (StatusCode resp =? StatusOK) then (Err "email request failed", n1)
      else
        match Unmarshal_emails (Body resp) with
        | Err e => (Err e, n1)
        | Ok emails =>
            match List.find (fun email => Primary email && Verified email) emails with
            | Some email => (Ok (GitHubEmail_Email email), n1)
            | None =>
                match List.find (fun email => Verified email) emails with
                | Some email => (Ok (GitHubEmail_Email email), n1)
                | None => (Err "no verified email found", n1)
                end
            end
        end
  end.

Definition OAuthManager_handleGoogleCallback (config : Config) (code : string) (n : Net)
    : result OAuthUserInfo * Net :=
  let tokenURL := "https://oauth2.googleapis.com/token" in
  let data :=
    [("client_id", GoogleClientID config);
     ("client_secret", GoogleClientSecret config);
     ("code", code);
     ("grant_type", "authorization_code");
     ("redirect_uri", GoogleRedirectURI config)] in
  match client_Do {| req_Method := "POST"; req_URL := tokenURL;
                     req_Header := [("Content-Type", "application/x-www-form-urlencoded")];
                     req_Form := data |} n with
  | (Err e, n1) => (Err ("failed to exchange code: " +:+ e), n1)
  | (Ok resp, n1) =>
      if negb (StatusCode resp =? StatusOK)
      then (Err ("token exchange failed with status: " +:+ pretty (StatusCode resp)), n1)
      else
        match Decode_tokenResp (Body resp) with
        | Err e => (Err ("failed to parse token response: " +:+ e), n1)
        | Ok accessToken =>
            let userInfoURL := "https://www.googleapis.com/oauth2/v2/userinfo" in
            match client_Do {| req_Method := "GET"; req_URL := userInfoURL;
                               req_Header := [("Authorization", "Bearer " +:+ accessToken)];
                               req_Form := [] |} n1 with
            | (Err e, n2) => (Err ("failed to get user info: " +:+ e), n2)
            | (Ok userResp, n2) =>
                if negb (StatusCode userResp =? StatusOK)
                then (Err ("user info request failed with status: "
                           +:+ pretty (StatusCode userResp)), n2)
                else
                  match Decode_googleUser (Body userResp) with
                  | Err e => (Err ("failed to parse user info: " +:+ e), n2)
                  | Ok googleUser =>
                      (Ok {| OAuth_ID := Google_ID googleUser;
                             OAuth_Email := Google_Email googleUser;
                             OAuth_Name := Google_Name googleUser;
                             OAuth_AvatarURL := Google_Picture googleUser;
                             OAuth_Provider := ProviderGoogle |}, n2)
                  end
            end
        end
  end.

Definition OAuthManager_handleGitHubCallback (config : Config) (code : string) (n : Net)
    : result OAuthUserInfo * Net :=
  let tokenURL := "https://github.com/login/oauth/access_token" in
  let data :=
    [("client_id", GitHubClientID config);
     ("client_secret", GitHubClientSecret config);
     ("code", code)] in
  match client_Do {| req_Method := "POST"; req_URL := tokenURL;
                     req_Header := [("Content-Type", "application/x-www-form-urlencoded");
                                    ("Accept", "application/json")];
                     req_Form := data |} n with
  | (Err e, n1) => (Err ("failed to exchange code: " +:+ e), n1)
  | (Ok resp, n1) =>
      if negb (StatusCode resp =? StatusOK)
      then (Err ("token exchange failed with status: " +:+ pretty (StatusCode resp)), n1)
      else
        match Decode_tokenResp (Body resp) with
        | Err e => (Err ("failed to parse token response: " +:+ e), n1)
        | Ok accessToken =>
            let userInfoURL := "https://api.github.com/user" in
            match client_Do {| req_Method := "GET"; req_URL := userInfoURL;
                               req_Header := [("Authorization", "Bearer " +:+ accessToken);
                                              ("Accept", "application/vnd.github.v3+json")];
                               req_Form := [] |} n1 with
            | (Err e, n2) => (Err ("failed to get user info: " +:+ e), n2)
            | (Ok userResp, n2) =>
                if negb (StatusCode userResp =? StatusOK)
                then (Err ("user info request failed with status: "
                           +:+ pretty (StatusCode userResp)), n2)
                else
                  match Decode_githubUser (Body userResp) with
                  | Err e => (Err ("failed to parse user info: " +:+ e), n2)
                  | Ok githubUser =>
                      let '(email, n3) :=
                        if String.eqb (GitHub_Email githubUser) ""
                        then
                          match getGitHubEmail accessToken n2 with
                          | (Ok email, n3) => (email, n3)
                          | (Err _, n3) => (GitHub_Email githubUser, n3)
                          end
                        else (GitHub_Email githubUser, n2) in
                      let displayName :=
                        if String.eqb (GitHub_Name githubUser) ""
                        then GitHub_Login githubUser
                        else GitHub_Name githubUser in
                      (Ok {| OAuth_ID := pretty (GitHub_ID githubUser);
                             OAuth_Email := email;
                             OAuth_Name := displayName;
                             OAuth_AvatarURL := GitHub_AvatarURL githubUser;
                             OAuth_Provider := ProviderGitHub |}, n3)
                  end
            end
        end
  end.

(** The OAuth manager's exchanges as the collaborator the services use. *)
Definition HTTP_OAuthNetwork : OAuthNetwork Net := {|
  handleGoogleCallback := OAuthManager_handleGoogleCallback;
  handleGitHubCallback := OAuthManager_handleGitHubCallback
|}.
End ProviderExchange.

(** * Specification vocabulary *)

(** The claims a token string carries. *)
Definition token_claims (t : TokenString) : gmap string Claim :=
  match t with
  | CompactJWS _ claims _ => claims
  | NotAToken _ => ∅
  end.

(** A string that is well-formed UTF-8: its JSON encoding reads back as
    the string itself. *)
Definition valid_utf8 (s : string) : Prop := json_string s = s.

(** The claims the token of [GenerateToken] carries when made at instant
    [now]: the JSON document of the claim set that was signed. *)
Definition accessClaims (j : JWTManager) (claims : TokenClaims) (now : Time)
    : gmap string Claim :=
  <["user_id" := VString (json_string (UserID claims))]>
  (<["email" := VString (json_string (Email claims))]>
  (<["name" := VString (json_string (Name claims))]>
  (<["provider" := VString (json_string (Provider claims))]>
  (<["iss" := VString (json_string (issuer j))]>
  (<["sub" := VString (json_string (UserID claims))]>
  (<["iat" := VNumber (Unix now)]>
  (<["exp" := VNumber (Unix (Add now (expiresIn j)))]>
  (<["nbf" := VNumber (Unix now)]> ∅)))))))).

(** The claims the token of [GenerateRefreshToken] carries when made at
    instant [now]. *)
Definition refreshClaims (j : JWTManager) (userID : string) (now : Time)
    : gmap string Claim :=
  <["user_id" := VString (json_string userID)]>
  (<["type" := VString "refresh"]>
  (<["iss" := VString (json_string (issuer j))]>
  (<["sub" := VString (json_string userID)]>
  (<["iat" := VNumber (Unix now)]>
  (<["exp" := VNumber (Unix (Add now (30 * 24 * Hour)))]> ∅))))).

(** The fields of a [TokenClaims] as they come back from a token. *)
Definition json_TokenClaims (claims : TokenClaims) : TokenClaims :=
  {| UserID := json_string (UserID claims); Email := json_string (Email claims);
     Name := json_string (Name claims); Provider := json_string (Provider claims) |}.

(** The claims [generateAuthResponse] draws from a user, and the
    response it builds from a user and a pair of tokens. *)
Definition userClaims (user : User) : TokenClaims :=
  {| UserID := User_ID user; Email := User_Email user;
     Name := User_Name user; Provider := User_Provider user |}.

Definition authResponse (config : Config) (user : User)
    (accessToken refreshToken : TokenString) : AuthResponse :=
  {| AuthResponse_User := user;
     AuthResponse_AccessToken := accessToken;
     AuthResponse_RefreshToken := refreshToken;
     AuthResponse_ExpiresIn := Seconds_int64 (JWTExpiration config) |}.

(** A key with no entry, or with an entry that is not a stored value of
    type [A]: nothing a [Get] into an [A] can return. *)
Definition nothing_at (A : Type) `{Unmarshal A} (m : MemorySessionStore) (key : string) : Prop :=
  match store m !! key with
  | None => True
  | Some item => is_Err (json_Unmarshal (A:=A) (value item)) = true
  end.

(** * Sample collaborators, for running the services on concrete inputs *)

(** ** [InMemoryUserStore] (examples/basic/main.go); its log lines go to
    the standard logger and are left out. *)
Record InMemoryUserStore := mkUsers {
  users : gmap string User;
  passwords : gmap string string
}.

Definition NewInMemoryUserStore : InMemoryUserStore :=
  {| users := ∅; passwords := ∅ |}.

Definition InMemoryUserStore_CreateUser (user : User) (hashedPassword : string)
    (s : InMemoryUserStore) : result unit * InMemoryUserStore :=
  match users s !! User_Email user with
  | Some _ => (Err ("user with email " +:+ User_Email user +:+ " already exists"), s)
  | None =>
      (Ok tt,
       {| users := <[User_Email user := user]> (users s);
          passwords := if String.eqb hashedPassword "" then passwords s
                       else <[User_Email user := hashedPassword]> (passwords s) |})
  end.

Definition InMemoryUserStore_GetUserByEmail (email : string) (s : InMemoryUserStore)
    : result (User * string) * InMemoryUserStore :=
  match users s !! email with
  | None => (Err "user not found", s)
  | Some user =>
      (Ok (user, match passwords s !! email with Some p => p | None => "" end), s)
  end.

Definition InMemoryUserStore_GetUserByID (userID : string) (s : InMemoryUserStore)
    : result User * InMemoryUserStore :=
  match List.find (fun kv => String.eqb (User_ID (snd kv)) userID) (map_to_list (users s)) with
  | Some kv => (Ok (snd kv), s)
  | None => (Err "user not found", s)
  end.

Definition InMemoryUserStore_UpdateUser (user : User) (s : InMemoryUserStore)
    : result unit * InMemoryUserStore :=
  match users s !! User_Email user with
  | None => (Err "user not found", s)
  | Some _ =>
      (Ok tt, {| users := <[User_Email user := user]> (users s); passwords := passwords s |})
  end.

Definition InMemoryUserStore_UserExists (email : string) (s : InMemoryUserStore)
    : result bool * InMemoryUserStore :=
  (Ok (match users s !! email with Some _ => true | None => false end), s).

Global Instance InMemoryUserStore_UserStore : UserStore InMemoryUserStore := {
  CreateUser := InMemoryUserStore_CreateUser;
  GetUserByEmail := InMemoryUserStore_GetUserByEmail;
  GetUserByID := InMemoryUserStore_GetUserByID;
  UpdateUser := InMemoryUserStore_UpdateUser;
  UserExists := InMemoryUserStore_UserExists
}.

(** ** A Redis client whose server cannot be reached. *)
Inductive UnreachableRedis := unreachable.

Global Instance UnreachableRedis_RedisClient : RedisClient UnreachableRedis := {
  redis_Set := fun _ _ _ c => (Err "dial tcp: connection refused", c);
  redis_Get := fun _ c => (Err "dial tcp: connection refused", c);
  redis_Del := fun _ c => (Err "dial tcp: connection refused", c);
  redis_Exists := fun _ c => (Err "dial tcp: connection refused", c)
}.

(** ** A Redis server that has become a read-only replica: it answers
    reads from the data it holds and refuses every write. *)
Record ReadOnlyRedis := mkReplica { held : gmap string (gmap string JVal) }.

Definition READONLY : string := "READONLY You can't write against a read only replica.".

Global Instance ReadOnlyRedis_RedisClient : RedisClient ReadOnlyRedis := {
  redis_Set := fun _ _ _ c => (Err READONLY, c);
  redis_Get := fun key c => (Ok (held c !! key), c);
  redis_Del := fun _ c => (Err READONLY, c);
  redis_Exists := fun keys c =>
    (Ok (Z.of_nat (length (filter (fun key => is_Some (held c !! key)) keys))), c)
}.

(** ** A network that answers the provider exchanges from a script. *)
Record ScriptedNetwork := mkScript { answers : list (result OAuthUserInfo) }.

Definition scripted_exchange (_ : Config) (_ : string) (n : ScriptedNetwork)
    : result OAuthUserInfo * ScriptedNetwork :=
  match answers n with
  | [] => (Err "failed to exchange code: no route to host", n)
  | r :: rest => (r, {| answers := rest |})
  end.

Global Instance ScriptedNetwork_OAuthNetwork : OAuthNetwork ScriptedNetwork := {
  handleGoogleCallback := scripted_exchange;
  handleGitHubCallback := scripted_exchange
}.

(** ** A stand-in for the digests, of the right lengths.  The secrets of
    the samples are shorter than a block, so it is never asked. *)
Definition short_hash : Hash := fun alg data =>
  String.substring 0
    (if String.eqb alg "HS256" then 32 else if String.eqb alg "HS384" then 48 else 64)
    data.

(** ** A stand-in for bcrypt that keeps the password readable. *)
Definition plain_bcrypt : BCrypt := {|
  GenerateFromPassword := fun password _ rt => (Ok ("$2a$" +:+ password), rt);
  CompareHashAndPassword := fun hashed password =>
    if String.eqb hashed ("$2a$" +:+ password) then Ok tt
    else Err "crypto/bcrypt: hashedPassword is not the hash of the given password"
|}.

Definition demo_config : Config := {|
  JWTSecret := "0123456789abcdef0123456789abcdef";
  JWTExpiration := 24 * Hour;
  JWTIssuer := "gotrust";
  GoogleClientID := "google-client";
  GoogleClientSecret := "google-secret";
  GoogleRedirectURI := "http://localhost:4000/auth/google/callback";
  GoogleScopes := ["email"; "profile"];
  GitHubClientID := "";
  GitHubClientSecret := "";
  GitHubRedirectURI := "http://localhost:4000/auth/github/callback";
  GitHubScopes := ["user:email"];
  OAuthStateExpiration := 10 * Minute;
  FrontendSuccessURL := "http://localhost:3000/auth/success";
  FrontendErrorURL := "http://localhost:3000/auth/error";
  RedisURL := "";
  EnableRedisCache := false;
  BCryptCost := 10;
  AllowSignup := true;
  RequireEmailVerification := false
|}.

Definition demo_service : AuthService := NewAuthService demo_config.

Definition demo_user : User := {|
  User_ID := "u1"; User_Email := "a@b.com"; User_Name := "Ann";
  User_AvatarURL := ""; User_Provider := "local";
  User_CreatedAt := 1690000000000000000; User_UpdatedAt := 1690000000000000000
|}.

Definition demo_users : InMemoryUserStore :=
  {| users := {[ "a@b.com" := demo_user ]};
     passwords := {[ "a@b.com" := "$2a$pw123456" ]} |}.

(** A runtime at instant [now] with 64 bytes of entropy and the given
    gaps between the next readings of the clock. *)
Definition demo_runtime (now : Time) (elapse : list N) : Runtime :=
  {| rt_now := now; rt_elapse := elapse;
     rt_entropy := map N.of_nat (seq 0 64); rt_stdout := [] |}.

Definition demo_jwt : JWTManager :=
  NewJWTManager "0123456789abcdef0123456789abcdef" "gotrust" (24 * Hour).

Definition demo_claims : TokenClaims :=
  {| UserID := "u1"; Email := "a@b.com"; Name := "Ann"; Provider := "local" |}.

(** A clock stopped at [now], with no entropy left and nothing printed. *)
Definition runtime_at (now : Time) : Runtime :=
  {| rt_now := now; rt_elapse := []; rt_entropy := []; rt_stdout := [] |}.

(** ** Sample worlds *)

Definition T0 : Time := 1700000000000000000.

Definition demo_oauth : OAuthManager := oauthManager demo_service.
Definition demo_sessions : SessionManager := sessionManager demo_service.

Definition demo_info : OAuthUserInfo := {|
  OAuth_ID := "1001"; OAuth_Email := "a@b.com"; OAuth_Name := "Ann";
  OAuth_AvatarURL := "https://example.org/ann.png"; OAuth_Provider := "google"
|}.

(** An empty in-memory store, the sample users and a provider that
    answers the next exchange with the sample profile. *)
Definition demo_world (rt : Runtime)
    : World MemorySessionStore InMemoryUserStore ScriptedNetwork :=
  mkWorld rt NewMemorySessionStore demo_users {| answers := [Ok demo_info] |}.

(** The same with a Redis store whose server is down. *)
Definition redis_down_world (rt : Runtime)
    : World (RedisSessionStore UnreachableRedis) InMemoryUserStore ScriptedNetwork :=
  mkWorld rt (mkRedis unreachable) demo_users {| answers := [Ok demo_info] |}.

(** The world [w] seen again when the clock shows [t]. *)
Definition later {S U Net : Type} (w : World S U Net) (t : Time) : World S U Net :=
  mkWorld (runtime_at t) (w_store w) (w_users w) (w_net w).

(** The state value and the session id the sample entropy yields. *)
Definition demo_state : string := "abcdefghijklmnopqrstuvwxyzABCDEF".

(** After [GetAuthURL] for Google; the store writes its entry one
    microsecond after the manager computed the state's expiry. *)
Definition world_with_state
    : World MemorySessionStore InMemoryUserStore ScriptedNetwork :=
  snd (GetAuthURL demo_oauth ProviderGoogle "/welcome"
         (demo_world (demo_runtime T0 [0; 1000]%N))).

(** After [CreateSession]; again the store writes one microsecond after
    the manager computed the session's expiry. *)
Definition world_with_session
    : World MemorySessionStore InMemoryUserStore ScriptedNetwork :=
  snd (CreateSession demo_sessions "u1" "a@b.com" (24 * Hour)
         (demo_world (demo_runtime T0 [0; 0; 1000]%N))).

(** The two worlds half a microsecond after the expiry the managers
    computed: the store's own expiry has not been reached yet. *)
Definition world_state_just_expired
    : World MemorySessionStore InMemoryUserStore ScriptedNetwork :=
  later world_with_state (T0 + 10 * Minute + 500).

Definition world_session_just_expired
    : World MemorySessionStore InMemoryUserStore ScriptedNetwork :=
  later world_with_session (T0 + 24 * Hour + 500).

(** One minute later on a read-only replica that holds what the sample
    store holds, with a provider that answers two exchanges; the second
    reading of the clock comes a second after the first. *)
Definition replica_world_with_state
    : World (RedisSessionStore ReadOnlyRedis) InMemoryUserStore ScriptedNetwork :=
  mkWorld (demo_runtime (T0 + Minute) [0; 1000000000]%N)
    (mkRedis {| held := value <$> store (w_store world_with_state) |})
    demo_users {| answers := [Ok demo_info; Ok demo_info] |}.

(** The tokens the sample manager issues for the sample user at [T0]. *)
Definition demo_access_token : TokenString :=
  let c := accessClaims demo_jwt (userClaims demo_user) T0 in
  CompactJWS "HS256" c (HMAC "HS256" (@hmac_key short_hash "HS256" (secret demo_jwt)) c).

Definition demo_refresh_token : TokenString :=
  let c := refreshClaims demo_jwt (User_ID demo_user) T0 in
  CompactJWS "HS256" c (HMAC "HS256" (@hmac_key short_hash "HS256" (secret demo_jwt)) c).

(** ** The requests of the provider exchanges, by name *)

Definition google_token_request (config : Config) (code : string) : Request :=
  {| req_Method := "POST"; req_URL := "https://oauth2.googleapis.com/token";
     req_Header := [("Content-Type", "application/x-www-form-urlencoded")];
     req_Form := [("client_id", GoogleClientID config);
                  ("client_secret", GoogleClientSecret config);
                  ("code", code);
                  ("grant_type", "authorization_code");
                  ("redirect_uri", GoogleRedirectURI config)] |}.

Definition google_userinfo_request (accessToken : string) : Request :=
  {| req_Method := "GET"; req_URL := "https://www.googleapis.com/oauth2/v2/userinfo";
     req_Header := [("Authorization", "Bearer " +:+ accessToken)];
     req_Form := [] |}.

Definition github_token_request (config : Config) (code : string) : Request :=
  {| req_Method := "POST"; req_URL := "https://github.com/login/oauth/access_token";
     req_Header := [("Content-Type", "application/x-www-form-urlencoded");
                    ("Accept", "application/json")];
     req_Form := [("client_id", GitHubClientID config);
                  ("client_secret", GitHubClientSecret config);
                  ("code", code)] |}.

Definition github_user_request (accessToken : string) : Request :=
  {| req_Method := "GET"; req_URL := "https://api.github.com/user";
     req_Header := [("Authorization", "Bearer " +:+ accessToken);
                    ("Accept", "application/vnd.github.v3+json")];
     req_Form := [] |}.

Definition github_emails_request (accessToken : string) : Request :=
  {| req_Method := "GET"; req_URL := "https://api.github.com/user/emails";
     req_Header := [("Authorization", "Bearer " +:+ accessToken);
                    ("Accept", "application/vnd.github.v3+json")];
     req_Form := [] |}.

(** ** An HTTP client that answers from a script and keeps what it sent *)
Inductive SampleBody :=
  | TokenBody (accessToken : string)
  | GoogleBody (u : GoogleUser)
  | GitHubBody (u : GitHubUser)
  | EmailsBody (emails : list GitHubEmail)
  | GarbageBody.

Record ScriptedHTTP := mkScriptedHTTP {
  replies : list (result (Response SampleBody));
  sent : list Request
}.

Global Instance ScriptedHTTP_HTTPClient : HTTPClient ScriptedHTTP SampleBody := {
  client_Do := fun req n =>
    match replies n with
    | [] => (Err "dial tcp: no route to host", {| replies := []; sent := sent n ++ [req] |})
    | r :: rest => (r, {| replies := rest; sent := sent n ++ [req] |})
    end;
  Decode_tokenResp := fun b =>
    match b with TokenBody t => Ok t | _ => Err "invalid character" end;
  Decode_googleUser := fun b =>
    match b with GoogleBody u => Ok u | _ => Err "invalid character" end;
  Decode_githubUser := fun b =>
    match b with GitHubBody u => Ok u | _ => Err "invalid character" end;
  Unmarshal_emails := fun b =>
    match b with EmailsBody l => Ok l | _ => Err "invalid character" end
}.

(** GitHub answers a code with a token, a profile without public email
    and name, and two addresses of which the second is primary. *)
Definition github_script : ScriptedHTTP := {|
  replies :=
    [Ok (mkResponse 200 (TokenBody "gho_token"));
     Ok (mkResponse 200 (GitHubBody {| GitHub_ID := 583231; GitHub_Login := "octocat";
                                       GitHub_Email := ""; GitHub_Name := "";
                                       GitHub_AvatarURL := "https://example.org/o.png" |}));
     Ok (mkResponse 200 (EmailsBody
           [ {| GitHubEmail_Email := "old@b.com"; Primary := false; Verified := true |};
             {| GitHubEmail_Email := "spam@b.com"; Primary := false; Verified := false |};
             {| GitHubEmail_Email := "octo@b.com"; Primary := true; Verified := true |} ]))];
  sent := []
|}.

Definition google_script : ScriptedHTTP := {|
  replies :=
    [Ok (mkResponse 200 (TokenBody "ya29.token"));
     Ok (mkResponse 200 (GoogleBody {| Google_ID := "1001"; Google_Email := "a@b.com";
                                       Google_Name := "Ann";
                                       Google_Picture := "https://example.org/ann.png" |}))];
  sent := []
|}.

Definition new_user_request : SignUpRequest :=
  {| SignUp_Email := "new@b.com"; SignUp_Password := "pw123456"; SignUp_Name := "New" |}.

(** * The framework-agnostic HTTP handlers

    [HTTPContext] is the interface the handlers are written against.  A
    request body is a JSON object of string members or does not decode;
    an answer is recorded as the Go value handed to [JSON], one of the
    four shapes the handlers build, or as the plain text of
    [http.Error].  Values kept in the context are strings or the claims
    struct.
    A bearer token arrives as text: [compact] below is the reading of
    such a text as a compact token. *)
Inductive CtxValue :=
  | CtxString (s : string)
  | CtxClaims (claims : TokenClaims).

Inductive Payload :=
  | ErrorBody (error : string)
  | MessageBody (message : string)
  | AuthBody (response : AuthResponse)
  | UserBody (user_id email name provider : string)
  | PlainText (text : string).

Class Bindable (A : Type) := bind_fields : gmap string string -> A.

Definition member (object : gmap string string) (name : string) : string :=
  match object !! name with Some v => v | None => "" end.

Global Instance SignUpRequest_Bindable : Bindable SignUpRequest := fun object =>
  {| SignUp_Email := member object "email";
     SignUp_Password := member object "password";
     SignUp_Name := member object "name" |}.

Global Instance SignInRequest_Bindable : Bindable SignInRequest := fun object =>
  {| SignIn_Email := member object "email";
     SignIn_Password := member object "password" |}.

Record RefreshRequest := mkRefreshRequest { Refresh_RefreshToken : string }.

Global Instance RefreshRequest_Bindable : Bindable RefreshRequest := fun object =>
  {| Refresh_RefreshToken := member object "refresh_token" |}.

Class HTTPContext (C : Type) := {
  ctx_GetHeader : string -> C -> string;
  ctx_Bind : forall {A} `{Bindable A}, C -> result A * C;
  ctx_JSON : Z -> Payload -> C -> result unit * C;
  ctx_Set : string -> CtxValue -> C -> C;
  ctx_Get : string -> C -> option CtxValue
}.

Definition StatusCreated : Z := 201.
Definition StatusBadRequest : Z := 400.
Definition StatusUnauthorized : Z := 401.
Definition StatusInternalServerError : Z := 500.

(** [strings.TrimPrefix] *)
Definition TrimPrefix (s prefix : string) : string :=
  if String.prefix prefix s
  then String.substring (String.length prefix) (String.length s - String.length prefix) s
  else s.

(** Type assertion [ctx.Get(key).(string)]: the string and whether the
    value is one. *)
Definition ctx_string {C} `{HTTPContext C} (key : string) (ctx : C) : string * bool :=
  match ctx_Get key ctx with
  | Some (CtxString s) => (s, true)
  | _ => ("", false)
  end.

Section Handlers.
Context {S U Net C : Type}.
Context `{SessionStore S} `{UserStore U} `{BCrypt} `{Hash} `{HTTPContext C}.
Variable compact : string -> TokenString.

Definition HTTPHandler : Type := C -> World S U Net -> result unit * C * World S U Net.

Record GenericAuthHandlers := mkHandlers {
  authService : AuthService;
  handlers_config : Config
}.

Definition NewGenericAuthHandlers (authService : AuthService) (config : Config)
    : GenericAuthHandlers :=
  {| authService := authService; handlers_config := config |}.

(** [return ctx.JSON(code, data)] *)
Definition respond (code : Z) (data : Payload) (ctx : C) (w : World S U Net)
    : result unit * C * World S U Net :=
  let '(r, ctx1) := ctx_JSON code data ctx in (r, ctx1, w).

Definition SignUpHandler (h : GenericAuthHandlers) : HTTPHandler := fun ctx w =>
  match ctx_Bind ctx with
  | (Err _, ctx1) => respond StatusBadRequest (ErrorBody "Invalid request body") ctx1 w
  | (Ok req, ctx1) =>
      if String.eqb (SignUp_Email req) "" || String.eqb (SignUp_Password req) ""
      then respond StatusBadRequest (ErrorBody "Email and password are required") ctx1 w
      else if (String.length (SignUp_Password req) <? 6)%nat
      then respond StatusBadRequest (ErrorBody "Password must be at least 6 characters") ctx1 w
      else
        match SignUp (authService h) req w with
        | (Err e, w1) => respond StatusBadRequest (ErrorBody e) ctx1 w1
        | (Ok response, w1) => respond StatusCreated (AuthBody response) ctx1 w1
        end
  end.

Definition SignInHandler (h : GenericAuthHandlers) : HTTPHandler := fun ctx w =>
  match ctx_Bind ctx with
  | (Err _, ctx1) => respond StatusBadRequest (ErrorBody "Invalid request body") ctx1 w
  | (Ok req, ctx1) =>
      if String.eqb (SignIn_Email req) "" || String.eqb (SignIn_Password req) ""
      then respond StatusBadRequest (ErrorBody "Email and password are required") ctx1 w
      else
        match SignIn (authService h) req w with
        | (Err e, w1) => respond StatusUnauthorized (ErrorBody e) ctx1 w1
        | (Ok response, w1) => respond StatusOK (AuthBody response) ctx1 w1
        end
  end.

Definition RefreshTokenHandler (h : GenericAuthHandlers) : HTTPHandler := fun ctx w =>
  match ctx_Bind ctx with
  | (Err _, ctx1) => respond StatusBadRequest (ErrorBody "Invalid request body") ctx1 w
  | (Ok req, ctx1) =>
      if String.eqb (Refresh_RefreshToken req) ""
      then respond StatusBadRequest (ErrorBody "Refresh token is required") ctx1 w
      else
        match RefreshToken (authService h) (compact (Refresh_RefreshToken req)) w with
        | (Err e, w1) => respond StatusUnauthorized (ErrorBody e) ctx1 w1
        | (Ok response, w1) => respond StatusOK (AuthBody response) ctx1 w1
        end
  end.

Definition LogoutHandler (h : GenericAuthHandlers) : HTTPHandler := fun ctx w =>
  let sessionID := fst (ctx_string "session_id" ctx) in
  let '(r, w1) := Logout (authService h) sessionID w in
  let w2 :=
    match r with
    | Err e => snd (printf ("Failed to logout: " +:+ e +:+ newline) w1)
    | Ok _ => w1
    end in
  respond StatusOK (MessageBody "Successfully logged out") ctx w2.

Definition GetUserHandler (h : GenericAuthHandlers) : HTTPHandler := fun ctx w =>
  let '(userID, ok) := ctx_string "user_id" ctx in
  if negb ok
  then respond StatusUnauthorized (ErrorBody "User not authenticated") ctx w
  else
    let email := fst (ctx_string "user_email" ctx) in
    let name := fst (ctx_string "user_name" ctx) in
    let provider := fst (ctx_string "user_provider" ctx) in
    respond StatusOK (UserBody userID email name provider) ctx w.

(** The five values both middlewares set once a token is validated. *)
Definition set_user_context (claims : TokenClaims) (ctx : C) : C :=
  ctx_Set "claims" (CtxClaims claims)
    (ctx_Set "user_provider" (CtxString (Provider claims))
       (ctx_Set "user_name" (CtxString (Name claims))
          (ctx_Set "user_email" (CtxString (Email claims))
             (ctx_Set "user_id" (CtxString (UserID claims)) ctx)))).

Definition AuthMiddleware (h : GenericAuthHandlers) (next : HTTPHandler) : HTTPHandler :=
  fun ctx w =>
    let authHeader := ctx_GetHeader "Authorization" ctx in
    if String.eqb authHeader ""
    then respond StatusUnauthorized (ErrorBody "Authorization header is required") ctx w
    else
      let tokenString := TrimPrefix authHeader "Bearer " in
      if String.eqb tokenString authHeader
      then respond StatusUnauthorized (ErrorBody "Bearer token is required") ctx w
      else
        match AuthService_ValidateToken (authService h) (compact tokenString) w with
        | (Err e, w1) =>
            respond StatusUnauthorized (ErrorBody ("Invalid token: " +:+ e)) ctx w1
        | (Ok claims, w1) => next (set_user_context claims ctx) w1
        end.

Definition OptionalAuthMiddleware (h : GenericAuthHandlers) (next : HTTPHandler)
    : HTTPHandler :=
  fun ctx w =>
    let authHeader := ctx_GetHeader "Authorization" ctx in
    if String.eqb authHeader "" then next ctx w
    else
      let tokenString := TrimPrefix authHeader "Bearer " in
      if String.eqb tokenString authHeader then next ctx w
      else
        match AuthService_ValidateToken (authService h) (compact tokenString) w with
        | (Err _, w1) => next ctx w1
        | (Ok claims, w1) => next (set_user_context claims ctx) w1
        end.

Definition GetUserFromContext (ctx : C) : result string :=
  let '(userID, ok) := ctx_string "user_id" ctx in
  if negb ok then Err "user not authenticated" else Ok userID.
End Handlers.

(** ** [StdContext] (adapters/stdlib/adapter.go): the context over
    [net/http].  The request is seen through its headers (the first value
    under each canonical name) and its body; the response writer through
    what was written to it, whose delivery is taken to succeed.

    A body is a stream: [BodyObject object] is a JSON object not yet
    read, [object] giving under each field tag the string member the
    decoder matches to it; [BodyMalformed] is anything the decoder
    refuses; [BodyRead] is a body already consumed.  The handlers drop
    the text of a decoding error. *)
Inductive RequestBody :=
  | BodyObject (object : gmap string string)
  | BodyMalformed
  | BodyRead.

Record HTTPRequest := mkHTTPRequest {
  Header : gmap string string;
  http_Body : RequestBody
}.

Record StdContext := mkStdContext {
  std_Request : HTTPRequest;
  std_Response : list (Z * Payload);
  values : gmap string CtxValue;
  status : Z
}.

Definition NewStdContext (written : list (Z * Payload)) (r : HTTPRequest) : StdContext :=
  {| std_Request := r; std_Response := written; values := ∅; status := StatusOK |}.

Definition StdContext_GetHeader (key : string) (c : StdContext) : string :=
  match Header (std_Request c) !! key with Some v => v | None => "" end.

Definition StdContext_Bind {A} `{Bindable A} (c : StdContext) : result A * StdContext :=
  let consumed :=
    {| std_Request := {| Header := Header (std_Request c); http_Body := BodyRead |};
       std_Response := std_Response c; values := values c; status := status c |} in
  match http_Body (std_Request c) with
  | BodyObject object => (Ok (bind_fields object), consumed)
  | BodyMalformed => (Err "invalid character", consumed)
  | BodyRead => (Err "EOF", c)
  end.

Definition StdContext_JSON (code : Z) (data : Payload) (c : StdContext)
    : result unit * StdContext :=
  (Ok tt,
   {| std_Request := std_Request c; std_Response := std_Response c ++ [(code, data)];
      values := values c; status := status c |}).

Definition StdContext_Set (key : string) (v : CtxValue) (c : StdContext) : StdContext :=
  {| std_Request := std_Request c; std_Response := std_Response c;
     values := <[key := v]> (values c); status := status c |}.

Definition StdContext_Get (key : string) (c : StdContext) : option CtxValue :=
  values c !! key.

Global Instance StdContext_HTTPContext : HTTPContext StdContext := {
  ctx_GetHeader := StdContext_GetHeader;
  ctx_Bind := @StdContext_Bind;
  ctx_JSON := StdContext_JSON;
  ctx_Set := StdContext_Set;
  ctx_Get := StdContext_Get
}.

(** The chain the stdlib router builds for a route and runs on a fresh
    context ([Router.handle]): the middlewares wrap the handler, the
    first outermost. *)
Definition chain {S U Net C : Type} (handler : @HTTPHandler S U Net C)
    (middleware : list (@HTTPHandler S U Net C -> @HTTPHandler S U Net C))
    : @HTTPHandler S U Net C :=
  foldr (fun m finalHandler => m finalHandler) handler middleware.

(** [http.HandlerFunc]: a function of the response writer and the
    request, both shared with the caller; here it returns what they have
    become. *)
Definition HandlerFunc (S U Net : Type) : Type :=
  list (Z * Payload) -> HTTPRequest -> World S U Net ->
  list (Z * Payload) * HTTPRequest * World S U Net.

(** [http.Error] *)
Definition http_Error (written : list (Z * Payload)) (error : string) (code : Z)
    : list (Z * Payload) :=
  written ++ [(code, PlainText (error +:+ newline))].

(** In both wrappers the writer and the request are the caller's own
    objects, shared with the context made of them: what [next] finds in
    them is what the context holds when it is called. *)
Definition WrapHandler {S U Net : Type} (handler : @HTTPHandler S U Net StdContext)
    : HandlerFunc S U Net :=
  fun written r w =>
    let ctx := NewStdContext written r in
    match handler ctx w with
    | (Err e, ctx1, w1) =>
        (http_Error (std_Response ctx1) e StatusInternalServerError, std_Request ctx1, w1)
    | (Ok _, ctx1, w1) => (std_Response ctx1, std_Request ctx1, w1)
    end.

Definition WrapMiddleware {S U Net : Type}
    (middleware : @HTTPHandler S U Net StdContext -> @HTTPHandler S U Net StdContext)
    (next : HandlerFunc S U Net) : HandlerFunc S U Net :=
  fun written r w =>
    let ctx := NewStdContext written r in
    let nextHandler : @HTTPHandler S U Net StdContext := fun httpCtx w1 =>
      let '(written1, r1, w2) := next (std_Response httpCtx) (std_Request httpCtx) w1 in
      (Ok tt,
       {| std_Request := r1; std_Response := written1;
          values := values httpCtx; status := status httpCtx |}, w2) in
    let wrappedNext := middleware nextHandler in
    match wrappedNext ctx w with
    | (Err e, ctx1, w1) =>
        (http_Error (std_Response ctx1) e StatusInternalServerError, std_Request ctx1, w1)
    | (Ok _, ctx1, w1) => (std_Response ctx1, std_Request ctx1, w1)
    end.

(** A reading of bearer texts for the samples: the two sample tokens
    under short names. *)
Definition sample_compact (text : string) : TokenString :=
  if String.eqb text "access.u1" then demo_access_token
  else if String.eqb text "refresh.u1" then demo_refresh_token
  else NotAToken text.

(** Claims whose user id is the single byte 0xFF, which is not UTF-8. *)
Definition raw_byte_claims : TokenClaims :=
  {| UserID := String "255"%char EmptyString; Email := "a@b.com";
     Name := "Ann"; Provider := "local" |}.

(** ** Sample requests for the handlers *)
Definition demo_handlers : GenericAuthHandlers :=
  NewGenericAuthHandlers demo_service demo_config.

Definition short_password_request : HTTPRequest :=
  {| Header := ∅;
     http_Body := BodyObject (<["email" := "new@b.com"]> (<["password" := "12345"]> ∅)) |}.

Definition malformed_request : HTTPRequest :=
  {| Header := ∅; http_Body := BodyMalformed |}.

(** * Theorems *)

(** * Properties of the runtime *)

Lemma time_Now_le (rt : Runtime) : rt_now rt <= fst (time_Now rt).
Proof.
  unfold time_Now. destruct (rt_elapse rt); simpl; lia.
Qed.

Lemma time_Now_now (rt : Runtime) : rt_now (snd (time_Now rt)) = fst (time_Now rt).
Proof.
  unfold time_Now. destruct (rt_elapse rt); reflexivity.
Qed.

Lemma time_after_1 (rt : Runtime) : time_after 1 rt = fst (time_Now rt).
Proof. simpl. apply time_Now_now. Qed.

Lemma time_after_S (k : nat) (rt : Runtime) :
  time_after (S k) rt = time_after k (snd (time_Now rt)).
Proof. reflexivity. Qed.

Lemma time_after_mono (k : nat) : forall rt, time_after k rt <= time_after (S k) rt.
Proof.
  induction k as [|k IH]; intros rt.
  - rewrite time_after_1. apply time_Now_le.
  - rewrite (time_after_S (S k)), (time_after_S k). apply IH.
Qed.

Lemma Unix_floor (t : Time) : time_Unix (Unix t) <= t < time_Unix (Unix t) + Second.
Proof.
  unfold time_Unix, Unix, Second.
  pose proof (Z.div_mod t 1000000000 ltac:(lia)) as E.
  pose proof (Z.mod_pos_bound t 1000000000 ltac:(lia)). lia.
Qed.

Lemma Unix_Add_seconds (t k : Z) : Unix (Add t (k * Second)) = Unix t + k.
Proof.
  unfold Unix, Add, Second. apply Z.div_add. lia.
Qed.

Lemma Unix_Add (t : Time) (d : Duration) :
  Unix (Add t d) = Unix t + (t mod Second + d) / Second.
Proof.
  unfold Unix, Add, Second.
  rewrite (Z.div_mod t 1000000000) at 1 by lia.
  rewrite <- Z.add_assoc, Z.mul_comm, Z.add_comm, Z.div_add by lia. lia.
Qed.

(** * Properties of the serialisation *)

Lemma json_string_nonempty (s : string) : s <> "" -> json_string s <> "".
Proof.
  destruct s as [|c rest]; [congruence|]. intros _.
  unfold json_string. cbn [json_string_from].
  destruct (utf8_following (String c rest)); discriminate.
Qed.

Lemma json_string_eqb_empty (s : string) :
  String.eqb (json_string s) "" = String.eqb s "".
Proof.
  destruct s as [|c rest]; [reflexivity|].
  apply String.eqb_neq, json_string_nonempty. discriminate.
Qed.

(** What was stored comes back with its strings as JSON carries them,
    and unchanged when they are well-formed UTF-8. *)
Lemma json_roundtrip_SessionData (d : SessionData) :
  exists doc,
    json_Marshal d = Ok doc /\
    json_Unmarshal doc =
      Ok {| Session_UserID := json_string (Session_UserID d);
            Session_Email := json_string (Session_Email d);
            Session_CreatedAt := Session_CreatedAt d;
            Session_ExpiresAt := Session_ExpiresAt d |}.
Proof.
  eexists; split; [reflexivity|].
  destruct d as [u e c x]. cbn [Session_UserID Session_Email Session_CreatedAt Session_ExpiresAt].
  generalize (json_string u) (json_string e). intros u' e'.
  vm_compute. reflexivity.
Qed.

Lemma json_roundtrip_OAuthState (s : OAuthState) :
  exists doc,
    json_Marshal s = Ok doc /\
    json_Unmarshal doc =
      Ok {| State := json_string (State s);
            RedirectURI := json_string (RedirectURI s);
            State_ExpiresAt := State_ExpiresAt s |}.
Proof.
  eexists; split; [reflexivity|].
  destruct s as [st r x]. cbn [State RedirectURI State_ExpiresAt].
  generalize (json_string st) (json_string r). intros st' r'.
  vm_compute. reflexivity.
Qed.

(** * Properties of the token engine *)

Ltac claim_lookup :=
  repeat (rewrite lookup_insert_ne by discriminate);
  first [ apply lookup_insert_eq | apply lookup_empty ].

Section TokenEngine.
Context `{Hash}.

Lemma GenerateToken_eq (j : JWTManager) (claims : TokenClaims) (rt : Runtime) :
  GenerateToken j claims rt =
  (Ok (CompactJWS "HS256" (accessClaims j claims (fst (time_Now rt)))
         (HMAC "HS256" (hmac_key "HS256" (secret j))
            (accessClaims j claims (fst (time_Now rt))))),
   snd (time_Now rt)).
Proof.
  unfold GenerateToken. destruct (time_Now rt) as [now rt1].
  unfold SignedString, jwt_NewWithClaims, SigningMethodHS256, json_claims.
  cbn [Method Claims fst snd]. rewrite !fmap_insert, fmap_empty. reflexivity.
Qed.

Lemma GenerateRefreshToken_eq (j : JWTManager) (userID : string) (rt : Runtime) :
  GenerateRefreshToken j userID rt =
  (Ok (CompactJWS "HS256" (refreshClaims j userID (fst (time_Now rt)))
         (HMAC "HS256" (hmac_key "HS256" (secret j))
            (refreshClaims j userID (fst (time_Now rt))))),
   snd (time_Now rt)).
Proof.
  unfold GenerateRefreshToken. destruct (time_Now rt) as [now rt1].
  unfold SignedString, jwt_NewWithClaims, SigningMethodHS256, json_claims.
  cbn [Method Claims fst snd]. rewrite !fmap_insert, fmap_empty. reflexivity.
Qed.

Lemma accessClaims_user_id j c now : accessClaims j c now !! "user_id" =
  Some (VString (json_string (UserID c))).
Proof. unfold accessClaims. claim_lookup. Qed.
Lemma accessClaims_email j c now : accessClaims j c now !! "email" =
  Some (VString (json_string (Email c))).
Proof. unfold accessClaims. claim_lookup. Qed.
Lemma accessClaims_name j c now : accessClaims j c now !! "name" =
  Some (VString (json_string (Name c))).
Proof. unfold accessClaims. claim_lookup. Qed.
Lemma accessClaims_provider j c now :
  accessClaims j c now !! "provider" = Some (VString (json_string (Provider c))).
Proof. unfold accessClaims. claim_lookup. Qed.
Lemma accessClaims_iat j c now : accessClaims j c now !! "iat" = Some (VNumber (Unix now)).
Proof. unfold accessClaims. claim_lookup. Qed.
Lemma accessClaims_nbf j c now : accessClaims j c now !! "nbf" = Some (VNumber (Unix now)).
Proof. unfold accessClaims. claim_lookup. Qed.
Lemma accessClaims_exp j c now :
  accessClaims j c now !! "exp" = Some (VNumber (Unix (Add now (expiresIn j)))).
Proof. unfold accessClaims. claim_lookup. Qed.
Lemma accessClaims_type j c now : accessClaims j c now !! "type" = None.
Proof. unfold accessClaims. claim_lookup. Qed.

Lemma refreshClaims_user_id j u now : refreshClaims j u now !! "user_id" =
  Some (VString (json_string u)).
Proof. unfold refreshClaims. claim_lookup. Qed.
Lemma refreshClaims_type j u now : refreshClaims j u now !! "type" = Some (VString "refresh").
Proof. unfold refreshClaims. claim_lookup. Qed.
Lemma refreshClaims_email j u now : refreshClaims j u now !! "email" = None.
Proof. unfold refreshClaims. claim_lookup. Qed.
Lemma refreshClaims_name j u now : refreshClaims j u now !! "name" = None.
Proof. unfold refreshClaims. claim_lookup. Qed.
Lemma refreshClaims_provider j u now : refreshClaims j u now !! "provider" = None.
Proof. unfold refreshClaims. claim_lookup. Qed.
Lemma refreshClaims_iat j u now : refreshClaims j u now !! "iat" = Some (VNumber (Unix now)).
Proof. unfold refreshClaims. claim_lookup. Qed.
Lemma refreshClaims_nbf j u now : refreshClaims j u now !! "nbf" = None.
Proof. unfold refreshClaims. claim_lookup. Qed.
Lemma refreshClaims_exp j u now :
  refreshClaims j u now !! "exp" = Some (VNumber (Unix (Add now (30 * 24 * Hour)))).
Proof. unfold refreshClaims. claim_lookup. Qed.

(** Parsing a token this manager signed with HS256 comes down to the
    validation of its claims. *)
Lemma jwt_Parse_signed (j : JWTManager) (c : gmap string Claim) (rt : Runtime) :
  jwt_Parse (CompactJWS "HS256" c (HMAC "HS256" (hmac_key "HS256" (secret j)) c))
    (keyFunc j) rt =
  match Validate c rt with
  | (Err e, rt1) => (Err ("token has invalid claims: " +:+ e), rt1)
  | (Ok _, rt1) =>
      (Ok {| Method := SigningMethodHMAC "HS256"; Claims := c; Valid := true |}, rt1)
  end.
Proof.
  unfold jwt_Parse.
  change (GetSigningMethod "HS256") with (Some (SigningMethodHMAC "HS256")).
  cbn [keyFunc Method Verify].
  rewrite bool_decide_eq_true_2 by reflexivity.
  reflexivity.
Qed.

Lemma Validate_ok (c : gmap string Claim) (rt : Runtime) :
  verifyExpiresAt c (fst (time_Now rt)) = [] ->
  verifyNotBefore c (fst (time_Now rt)) = [] ->
  Validate c rt = (Ok tt, snd (time_Now rt)).
Proof.
  intros He Hn. unfold Validate.
  destruct (time_Now rt) as [now rt1]; simpl in *.
  rewrite He, Hn. reflexivity.
Qed.

(** Whatever [jwt.Parse] accepts carries the claims of the token string. *)
Lemma jwt_Parse_Ok (tok : TokenString) (kf : Token -> result string)
    (rt rt1 : Runtime) (token : Token) :
  jwt_Parse tok kf rt = (Ok token, rt1) ->
  Claims token = token_claims tok /\ Valid token = true.
Proof.
  unfold jwt_Parse. destruct tok as [alg c sig | text]; [|discriminate].
  destruct (GetSigningMethod alg) as [method|]; [|discriminate].
  destruct (kf _) as [key|e]; [|discriminate].
  destruct (Verify method c sig key); [|discriminate].
  destruct (Validate c rt) as [[[]|e] rt2]; [|discriminate].
  intros [= <- <-]. split; reflexivity.
Qed.

Lemma verifyExpiresAt_before (c : gmap string Claim) (n : Z) (cmp : Time) :
  c !! "exp" = Some (VNumber n) ->
  Before cmp (time_Unix n) = true ->
  verifyExpiresAt c cmp = [].
Proof.
  intros Hl Hb. unfold verifyExpiresAt, parseNumericDate. rewrite Hl.
  destruct (n =? 0); [reflexivity|]. rewrite Hb. reflexivity.
Qed.

Lemma verifyNotBefore_unset (c : gmap string Claim) (cmp : Time) :
  c !! "nbf" = None -> verifyNotBefore c cmp = [].
Proof.
  intros Hl. unfold verifyNotBefore, parseNumericDate. rewrite Hl. reflexivity.
Qed.

Lemma verifyNotBefore_after (c : gmap string Claim) (t cmp : Time) :
  c !! "nbf" = Some (VNumber (Unix t)) ->
  t <= cmp ->
  verifyNotBefore c cmp = [].
Proof.
  intros Hl Hle. unfold verifyNotBefore, parseNumericDate. rewrite Hl.
  destruct (Unix t =? 0); [reflexivity|].
  assert (Before cmp (time_Unix (Unix t)) = false) as ->; [|reflexivity].
  unfold Before. apply Z.ltb_ge. pose proof (Unix_floor t). lia.
Qed.

Lemma eqb_empty_false (s : string) : s <> "" -> String.eqb s "" = false.
Proof. intros Hs. apply String.eqb_neq. exact Hs. Qed.

(** C3.  Round trip of the access token: for claims with a non-empty
    user id, the token [GenerateToken] issues is accepted by
    [ValidateToken] of the same manager at any later instant before the
    expiry written in the token.  The claims returned are the claims
    given as JSON carries them, every byte that is not well-formed UTF-8
    replaced by U+FFFD: they are the claims given, same user id, email,
    name and provider, when these four are well-formed UTF-8. *)
Theorem ValidateToken_GenerateToken_roundtrip
    (j : JWTManager) (claims : TokenClaims) (rt rt' : Runtime) :
  UserID claims <> "" ->
  fst (time_Now rt) <= fst (time_Now rt') ->
  Before (fst (time_Now rt'))
         (time_Unix (Unix (Add (fst (time_Now rt)) (expiresIn j)))) = true ->
  exists tok,
    fst (GenerateToken j claims rt) = Ok tok /\
    fst (ValidateToken j tok rt') = Ok (json_TokenClaims claims) /\
    (valid_utf8 (UserID claims) -> valid_utf8 (Email claims) ->
     valid_utf8 (Name claims) -> valid_utf8 (Provider claims) ->
     fst (ValidateToken j tok rt') = Ok claims).
Proof.
  intros Hid Hle Hexp. rewrite GenerateToken_eq. eexists; split; [reflexivity|].
  assert (Hval : fst (ValidateToken j
            (CompactJWS "HS256" (accessClaims j claims (fst (time_Now rt)))
               (HMAC "HS256" (hmac_key "HS256" (secret j))
                  (accessClaims j claims (fst (time_Now rt))))) rt') =
          Ok (json_TokenClaims claims)).
  { unfold ValidateToken. rewrite jwt_Parse_signed.
    rewrite Validate_ok.
    - cbn [negb Valid Claims fst]. unfold claim_string.
      rewrite accessClaims_user_id, accessClaims_email, accessClaims_name,
        accessClaims_provider.
      rewrite json_string_eqb_empty, eqb_empty_false by exact Hid.
      reflexivity.
    - eapply verifyExpiresAt_before; [apply accessClaims_exp | exact Hexp].
    - eapply verifyNotBefore_after; [apply accessClaims_nbf | exact Hle]. }
  split; [exact Hval|].
  intros Hu He Hn Hp. rewrite Hval. unfold json_TokenClaims.
  rewrite Hu, He, Hn, Hp. destruct claims; reflexivity.
Qed.

(** C1 (the half the code breaks).  [ValidateToken] never looks at the
    type discriminator: a refresh token issued for a non-empty user id is
    accepted as an access token by the same manager at any instant before
    its expiry, with that user id (as the token's JSON carries it) and
    empty email, name and provider. *)
Theorem ValidateToken_accepts_refresh_token
    (j : JWTManager) (userID : string) (rt rt' : Runtime) :
  userID <> "" ->
  Before (fst (time_Now rt'))
         (time_Unix (Unix (Add (fst (time_Now rt)) (30 * 24 * Hour)))) = true ->
  exists tok,
    fst (GenerateRefreshToken j userID rt) = Ok tok /\
    fst (ValidateToken j tok rt') =
      Ok {| UserID := json_string userID; Email := ""; Name := ""; Provider := "" |}.
Proof.
  intros Hid Hexp. rewrite GenerateRefreshToken_eq. eexists; split; [reflexivity|].
  unfold ValidateToken. rewrite jwt_Parse_signed.
  rewrite Validate_ok.
  - cbn [negb Valid Claims fst]. unfold claim_string.
    rewrite refreshClaims_user_id, refreshClaims_email, refreshClaims_name,
      refreshClaims_provider.
    rewrite json_string_eqb_empty, eqb_empty_false by exact Hid. reflexivity.
  - eapply verifyExpiresAt_before; [apply refreshClaims_exp | exact Hexp].
  - apply verifyNotBefore_unset, refreshClaims_nbf.
Qed.

(** The other half of C1 holds: an access token has no ["type"] claim, so
    [ValidateRefreshToken] of any manager rejects it at any time. *)
Lemma ValidateRefreshToken_rejects_access_token
    (j j' : JWTManager) (claims : TokenClaims) (rt rt' : Runtime) :
  exists tok msg,
    fst (GenerateToken j claims rt) = Ok tok /\
    fst (ValidateRefreshToken j' tok rt') = Err msg.
Proof.
  rewrite GenerateToken_eq. cbn [fst].
  set (c := accessClaims j claims (fst (time_Now rt))).
  exists (CompactJWS "HS256" c (HMAC "HS256" (hmac_key "HS256" (secret j)) c)).
  unfold ValidateRefreshToken.
  destruct (jwt_Parse _ (keyFunc j') rt') as [[token|e] rt1] eqn:Hp.
  - apply jwt_Parse_Ok in Hp as [Hc Hv]. rewrite Hv, Hc. cbn [negb token_claims].
    unfold claim_string at 1. subst c. rewrite accessClaims_type.
    cbn. eexists; split; reflexivity.
  - eexists; split; reflexivity.
Qed.

(** C8.  Validity windows.  The refresh token's expiry claim is its
    issued-at claim plus exactly 30 days (2592000 seconds), and the whole
    refresh token is the same whatever access lifetime the manager is
    configured with.  The access token's expiry claim is the Unix time of
    the issue instant plus the configured lifetime, its issued-at claim
    the Unix time of the issue instant: issued-at plus the lifetime, for
    a lifetime of whole seconds to the second. *)
Theorem refresh_expiry_fixed_access_expiry_configured
    (j : JWTManager) (claims : TokenClaims) (userID : string) (rt : Runtime) :
  let now := fst (time_Now rt) in
  (exists tok,
     fst (GenerateRefreshToken j userID rt) = Ok tok /\
     token_claims tok !! "iat" = Some (VNumber (Unix now)) /\
     token_claims tok !! "exp" = Some (VNumber (Unix now + 30 * 24 * 3600))) /\
  (forall e1 e2 : Duration,
     fst (GenerateRefreshToken (NewJWTManager (secret j) (issuer j) e1) userID rt) =
     fst (GenerateRefreshToken (NewJWTManager (secret j) (issuer j) e2) userID rt)) /\
  (exists tok,
     fst (GenerateToken j claims rt) = Ok tok /\
     token_claims tok !! "iat" = Some (VNumber (Unix now)) /\
     token_claims tok !! "exp" = Some (VNumber (Unix (Add now (expiresIn j)))) /\
     Unix (Add now (expiresIn j)) = Unix now + (now mod Second + expiresIn j) / Second) /\
  (forall k : Z,
     exists tok,
       fst (GenerateToken (NewJWTManager (secret j) (issuer j) (k * Second)) claims rt)
         = Ok tok /\
       token_claims tok !! "iat" = Some (VNumber (Unix now)) /\
       token_claims tok !! "exp" = Some (VNumber (Unix now + k))).
Proof.
  intros now. split; [|split; [|split]].
  - rewrite GenerateRefreshToken_eq. eexists; split; [reflexivity|].
    cbn [token_claims]. split; [apply refreshClaims_iat|].
    rewrite refreshClaims_exp. fold now.
    change (30 * 24 * Hour) with ((30 * 24 * 3600) * Second).
    rewrite Unix_Add_seconds. reflexivity.
  - intros e1 e2. rewrite !GenerateRefreshToken_eq. reflexivity.
  - rewrite GenerateToken_eq. eexists; split; [reflexivity|].
    cbn [token_claims]. split; [apply accessClaims_iat|].
    split; [apply accessClaims_exp|]. apply Unix_Add.
  - intros k. rewrite GenerateToken_eq. eexists; split; [reflexivity|].
    cbn [token_claims]. split; [apply accessClaims_iat|].
    rewrite accessClaims_exp. cbn [expiresIn NewJWTManager].
    rewrite Unix_Add_seconds. reflexivity.
Qed.
End TokenEngine.

Section TokenExamples.
#[local] Existing Instance short_hash.

Lemma ValidateToken_GenerateToken_roundtrip_witness :
  exists tok,
    fst (GenerateToken demo_jwt demo_claims (runtime_at 1700000000500000000)) = Ok tok /\
    fst (ValidateToken demo_jwt tok (runtime_at (1700000000500000000 + Hour))) =
      Ok (json_TokenClaims demo_claims) /\
    (valid_utf8 (UserID demo_claims) -> valid_utf8 (Email demo_claims) ->
     valid_utf8 (Name demo_claims) -> valid_utf8 (Provider demo_claims) ->
     fst (ValidateToken demo_jwt tok (runtime_at (1700000000500000000 + Hour))) =
       Ok demo_claims).
Proof.
  apply (ValidateToken_GenerateToken_roundtrip demo_jwt demo_claims
           (runtime_at 1700000000500000000) (runtime_at (1700000000500000000 + Hour))).
  - discriminate.
  - vm_compute. discriminate.
  - vm_compute. reflexivity.
Defined.

(** The round trip is not the identity on every string: a user id of
    the single byte 0xFF comes back as U+FFFD. *)
Lemma invalid_utf8_user_id_comes_back_changed :
  exists tok claims',
    fst (GenerateToken demo_jwt raw_byte_claims (runtime_at T0)) = Ok tok /\
    fst (ValidateToken demo_jwt tok (runtime_at (T0 + Hour))) = Ok claims' /\
    UserID raw_byte_claims <> "" /\
    UserID claims' = RuneError /\
    claims' <> raw_byte_claims.
Proof.
  eexists _, _. split; [vm_compute; reflexivity|].
  split; [vm_compute; reflexivity|].
  split; [discriminate|]. split; [reflexivity|]. discriminate.
Qed.

Lemma ValidateToken_accepts_refresh_token_witness :
  exists tok,
    fst (GenerateRefreshToken demo_jwt "u1" (runtime_at 1700000000500000000)) = Ok tok /\
    fst (ValidateToken demo_jwt tok (runtime_at (1700000000500000000 + Hour))) =
      Ok {| UserID := "u1"; Email := ""; Name := ""; Provider := "" |}.
Proof.
  apply (ValidateToken_accepts_refresh_token demo_jwt "u1"
           (runtime_at 1700000000500000000) (runtime_at (1700000000500000000 + Hour))).
  - discriminate.
  - vm_compute. reflexivity.
Defined.
End TokenExamples.

(** * Properties of the in-memory store *)

Section MemoryStore.
Context {A : Type} `{Unmarshal A}.

Lemma MemorySessionStore_Get_absent (key : string) (m : MemorySessionStore) (rt : Runtime) :
  store m !! key = None ->
  MemorySessionStore_Get (A:=A) key m rt = (Err "key not found", m, rt).
Proof. intros Hk. unfold MemorySessionStore_Get. rewrite Hk. reflexivity. Qed.

Lemma MemorySessionStore_Get_expired (key : string) (m : MemorySessionStore)
    (rt : Runtime) (item : memoryItem) :
  store m !! key = Some item ->
  After (fst (time_Now rt)) (expiresAt item) = true ->
  MemorySessionStore_Get (A:=A) key m rt =
    (Err "key expired", {| store := delete key (store m) |}, snd (time_Now rt)).
Proof.
  intros Hk Ha. unfold MemorySessionStore_Get. rewrite Hk.
  destruct (time_Now rt) as [now rt1]; simpl in *. rewrite Ha. reflexivity.
Qed.

Lemma MemorySessionStore_Get_live (key : string) (m : MemorySessionStore)
    (rt : Runtime) (item : memoryItem) :
  store m !! key = Some item ->
  After (fst (time_Now rt)) (expiresAt item) = false ->
  MemorySessionStore_Get (A:=A) key m rt =
    (json_Unmarshal (value item), m, snd (time_Now rt)).
Proof.
  intros Hk Ha. unfold MemorySessionStore_Get. rewrite Hk.
  destruct (time_Now rt) as [now rt1]; simpl in *. rewrite Ha. reflexivity.
Qed.

(** A successful [Get] leaves the map as it was and returns the decoded
    value of an entry the map holds. *)
Lemma MemorySessionStore_Get_Ok (key : string) (m m1 : MemorySessionStore)
    (rt rt1 : Runtime) (a : A) :
  MemorySessionStore_Get key m rt = (Ok a, m1, rt1) ->
  m1 = m /\ rt1 = snd (time_Now rt) /\
  exists item, store m !! key = Some item /\
               After (fst (time_Now rt)) (expiresAt item) = false /\
               json_Unmarshal (value item) = Ok a.
Proof.
  unfold MemorySessionStore_Get.
  destruct (store m !! key) as [item|] eqn:Hk; [|discriminate].
  destruct (time_Now rt) as [now rt2]; simpl.
  destruct (After now (expiresAt item)) eqn:Ha; [discriminate|].
  intros [= Hu <- <-]. repeat split; try reflexivity.
  exists item. auto.
Qed.

(** A failed [Get] leaves the key absent, or leaves the map as it was
    with an entry at the key that does not decode. *)
Lemma MemorySessionStore_Get_Err (key : string) (m m1 : MemorySessionStore)
    (rt rt1 : Runtime) (e : string) :
  MemorySessionStore_Get (A:=A) key m rt = (Err e, m1, rt1) ->
  store m1 !! key = None \/
  (m1 = m /\ exists item, store m !! key = Some item /\
                          json_Unmarshal (A:=A) (value item) = Err e).
Proof.
  unfold MemorySessionStore_Get.
  destruct (store m !! key) as [item|] eqn:Hk.
  - destruct (time_Now rt) as [now rt2]; simpl.
    destruct (After now (expiresAt item)).
    + intros [= <- <- <-]. left. simpl. apply lookup_delete_eq.
    + intros [= Hu <- <-]. right. split; [reflexivity|]. exists item. auto.
  - intros [= <- <- <-]. left. exact Hk.
Qed.
End MemoryStore.

Lemma MemorySessionStore_Set_lookup {A : Type} `{Marshal A} (key : string) (v : A)
    (expiration : Duration) (m : MemorySessionStore) (rt : Runtime) (doc : gmap string JVal) :
  json_Marshal v = Ok doc ->
  MemorySessionStore_Set key v expiration m rt =
    (Ok tt,
     {| store := <[key := {| value := doc;
                             expiresAt := Add (fst (time_Now rt)) expiration |}]> (store m) |},
     snd (time_Now rt)).
Proof.
  intros Hm. unfold MemorySessionStore_Set. rewrite Hm.
  destruct (time_Now rt) as [now rt1]. reflexivity.
Qed.

Lemma nothing_at_Get {A : Type} `{Unmarshal A} (m : MemorySessionStore) (key : string)
    (rt : Runtime) :
  nothing_at A m key ->
  is_Err (fst (fst (MemorySessionStore_Get (A:=A) key m rt))) = true.
Proof.
  unfold nothing_at, MemorySessionStore_Get.
  destruct (store m !! key) as [item|]; [|reflexivity].
  intros Hn. destruct (time_Now rt) as [now rt1].
  destruct (After now (expiresAt item)); [reflexivity|exact Hn].
Qed.

(** * The services over the in-memory store *)

Section MemoryWorld.
Context {U Net : Type} `{OAuthNetwork Net}.

Local Abbreviation W := (World MemorySessionStore U Net).

(** [validateState] over the in-memory store, call by call. *)
Lemma validateState_memory (o : OAuthManager) (state : string) (w : W) :
  validateState o state w =
  let key := key_of (statePrefix o) state in
  match MemorySessionStore_Get (A:=OAuthState) key (w_store w) (w_rt w) with
  | (Err _, m, rt1) =>
      (Err "state not found or expired", mkWorld rt1 m (w_users w) (w_net w))
  | (Ok stateData, m, rt1) =>
      ((if After (fst (time_Now rt1)) (State_ExpiresAt stateData)
        then Err "state expired" else Ok (RedirectURI stateData)),
       mkWorld (snd (time_Now rt1)) {| store := delete key (store m) |}
               (w_users w) (w_net w))
  end.
Proof.
  unfold validateState, bind, liftStore, liftRT, ret. cbn [store_Get MemorySessionStore_SessionStore].
  cbv zeta.
  destruct (MemorySessionStore_Get _ (w_store w) (w_rt w)) as [[[sd|e] m] rt1];
    [|reflexivity].
  cbn. destruct (time_Now rt1) as [now rt2]. cbn.
  destruct (After now (State_ExpiresAt sd)); reflexivity.
Qed.

(** The state half of [ValidateCallback]: the store it leaves and
    whether it fails are those of [validateState]. *)
Lemma ValidateCallback_store (o : OAuthManager) (provider state code : string) (w : W) :
  w_store (snd (ValidateCallback o provider state code w)) =
  w_store (snd (validateState o state w)).
Proof.
  unfold ValidateCallback, bind, ret, liftNet.
  destruct (validateState o state w) as [[redirectURI|e] w1]; [|reflexivity].
  destruct (String.eqb provider ProviderGoogle).
  - destruct (handleGoogleCallback _ code (w_net w1)) as [[u|e] n]; reflexivity.
  - destruct (String.eqb provider ProviderGitHub); [|reflexivity].
    destruct (handleGitHubCallback _ code (w_net w1)) as [[u|e] n]; reflexivity.
Qed.

Lemma ValidateCallback_invalid_state (o : OAuthManager) (provider state code : string)
    (w : W) (e : string) :
  fst (validateState o state w) = Err e ->
  ValidateCallback o provider state code w =
    ((None, "", Some ("invalid state: " +:+ e)), snd (validateState o state w)).
Proof.
  unfold ValidateCallback, bind, ret.
  destruct (validateState o state w) as [[redirectURI|e'] w1]; [discriminate|].
  intros [= ->]. reflexivity.
Qed.

(** After [validateState] nothing a later validation could accept is
    left at the key. *)
Lemma validateState_consumes (o : OAuthManager) (state : string) (w : W) :
  nothing_at OAuthState (w_store (snd (validateState o state w)))
             (key_of (statePrefix o) state).
Proof.
  rewrite validateState_memory. cbv zeta.
  destruct (MemorySessionStore_Get _ (w_store w) (w_rt w)) as [[[sd|e] m] rt1] eqn:Hg.
  - unfold nothing_at. cbn. rewrite lookup_delete_eq. exact I.
  - apply MemorySessionStore_Get_Err in Hg as [Hg|[-> (item & Hk & Hu)]];
      unfold nothing_at; cbn.
    + rewrite Hg. exact I.
    + rewrite Hk, Hu. reflexivity.
Qed.

Lemma validateState_nothing (o : OAuthManager) (state : string) (w : W) :
  nothing_at OAuthState (w_store w) (key_of (statePrefix o) state) ->
  fst (validateState o state w) = Err "state not found or expired".
Proof.
  intros Hn. rewrite validateState_memory. cbv zeta.
  pose proof (nothing_at_Get (w_store w) _ (w_rt w) Hn) as Hg.
  destruct (MemorySessionStore_Get _ (w_store w) (w_rt w)) as [[[sd|e] m] rt1];
    [discriminate|reflexivity].
Qed.

(** Single use of an OAuth state over the in-memory store, whose
    [Delete] cannot fail, with calls one after another.  Whatever the
    first [ValidateCallback] for a state value did, every later
    [ValidateCallback] for that value fails as not found, for any
    provider and code and at any time; and when the first call finds a
    stored [OAuthState] record it deletes it, whether the call then
    succeeds, finds the record expired or fails at the provider. *)
Theorem ValidateCallback_at_most_once
    (o : OAuthManager) (provider state code : string) (w : W) :
  let key := key_of (statePrefix o) state in
  let w1 := snd (ValidateCallback o provider state code w) in
  (forall (provider' code' : string) (rt2 : Runtime) (u2 : U) (n2 : Net),
     fst (ValidateCallback o provider' state code' (mkWorld rt2 (w_store w1) u2 n2)) =
       (None, "", Some "invalid state: state not found or expired")) /\
  (forall (item : memoryItem) (stateData : OAuthState),
     store (w_store w) !! key = Some item ->
     json_Unmarshal (value item) = Ok stateData ->
     w_store w1 = {| store := delete key (store (w_store w)) |}).
Proof.
  intros key w1. split.
  - intros provider' code' rt2 u2 n2.
    erewrite ValidateCallback_invalid_state; [reflexivity|].
    apply validateState_nothing. cbn [w_store]. subst w1.
    rewrite ValidateCallback_store. apply validateState_consumes.
  - intros item sd Hk Hu. subst w1. rewrite ValidateCallback_store.
    rewrite validateState_memory. cbv zeta. fold key.
    destruct (After (fst (time_Now (w_rt w))) (expiresAt item)) eqn:Ha.
    + rewrite (MemorySessionStore_Get_expired key _ _ item Hk Ha). reflexivity.
    + rewrite (MemorySessionStore_Get_live key _ _ item Hk Ha), Hu. reflexivity.
Qed.

Lemma world_eta (w : W) : mkWorld (w_rt w) (w_store w) (w_users w) (w_net w) = w.
Proof. destruct w; reflexivity. Qed.

Lemma validateState_absent (o : OAuthManager) (state : string) (w : W) :
  store (w_store w) !! key_of (statePrefix o) state = None ->
  validateState o state w = (Err "state not found or expired", w).
Proof.
  intros Hk. rewrite validateState_memory. cbv zeta.
  rewrite (MemorySessionStore_Get_absent _ _ _ Hk). rewrite world_eta. reflexivity.
Qed.

Lemma validateState_pending (o : OAuthManager) (state : string) (w : W)
    (item : memoryItem) (stateData : OAuthState) :
  store (w_store w) !! key_of (statePrefix o) state = Some item ->
  json_Unmarshal (value item) = Ok stateData ->
  time_after 1 (w_rt w) <= expiresAt item ->
  time_after 2 (w_rt w) <= State_ExpiresAt stateData ->
  fst (validateState o state w) = Ok (RedirectURI stateData).
Proof.
  intros Hk Hu H1 H2. rewrite validateState_memory. cbv zeta.
  rewrite time_after_1 in H1.
  rewrite (MemorySessionStore_Get_live _ _ _ item Hk), Hu.
  - cbn [fst]. change (time_after 2 (w_rt w)) with (time_after 1 (snd (time_Now (w_rt w)))) in H2.
    rewrite time_after_1 in H2.
    assert (After (fst (time_Now (snd (time_Now (w_rt w))))) (State_ExpiresAt stateData)
            = false) as ->; [|reflexivity].
    unfold After. apply Z.ltb_ge. exact H2.
  - unfold After. apply Z.ltb_ge. exact H1.
Qed.

(** C7.  A callback with a state value that has no stored record fails
    as state-not-found and changes nothing: the world, and so the store,
    is returned as it was, and a pending state that has not expired is
    still accepted by the next callback, whose outcome is then that of
    the provider exchange. *)
Theorem ValidateCallback_unknown_state_frame
    (o : OAuthManager) (provider state code : string) (w : W) :
  store (w_store w) !! key_of (statePrefix o) state = None ->
  ValidateCallback o provider state code w =
    ((None, "", Some "invalid state: state not found or expired"), w) /\
  (forall (state2 code2 : string) (item : memoryItem) (stateData : OAuthState),
     store (w_store w) !! key_of (statePrefix o) state2 = Some item ->
     json_Unmarshal (value item) = Ok stateData ->
     time_after 1 (w_rt w) <= expiresAt item ->
     time_after 2 (w_rt w) <= State_ExpiresAt stateData ->
     let w1 := snd (ValidateCallback o provider state code w) in
     fst (validateState o state2 w1) = Ok (RedirectURI stateData) /\
     fst (ValidateCallback o ProviderGoogle state2 code2 w1) =
       match fst (handleGoogleCallback (oauth_config o) code2 (w_net w)) with
       | Ok userInfo => (Some userInfo, RedirectURI stateData, None)
       | Err e => (None, RedirectURI stateData, Some e)
       end).
Proof.
  intros Hk.
  assert (ValidateCallback o provider state code w =
          ((None, "", Some "invalid state: state not found or expired"), w)) as Hcb.
  { rewrite (ValidateCallback_invalid_state o provider state code w
               "state not found or expired");
      rewrite (validateState_absent _ _ _ Hk); reflexivity. }
  split; [exact Hcb|].
  intros state2 code2 item sd Hk2 Hu H1 H2. rewrite Hcb. cbn [snd].
  pose proof (validateState_pending o state2 w item sd Hk2 Hu H1 H2) as Hv.
  split; [exact Hv|].
  unfold ValidateCallback, bind, ret, liftNet.
  rewrite validateState_memory in *. cbv zeta in *.
  destruct (MemorySessionStore_Get _ (w_store w) (w_rt w)) as [[[sd'|e] m] rt1];
    cbn [fst] in Hv; [|discriminate].
  rewrite Hv. rewrite String.eqb_refl. cbn [w_net].
  destruct (handleGoogleCallback (oauth_config o) code2 (w_net w)) as [[u|e] n];
    reflexivity.
Qed.

Lemma GetAuthURL_memory (o : OAuthManager) (provider redirectURI : string) (w : W) :
  let state := fst (generateRandomString 32 (w_rt w)) in
  let rt1 := snd (generateRandomString 32 (w_rt w)) in
  let ttl := OAuthStateExpiration (oauth_config o) in
  let stateData :=
    {| State := state; RedirectURI := redirectURI;
       State_ExpiresAt := Add (time_after 1 rt1) ttl |} in
  let doc : gmap string JVal :=
    <["state" := JString (json_string state)]>
    (<["redirect_uri" := JString (json_string redirectURI)]>
    (<["expires_at" := JTime (Add (time_after 1 rt1) ttl)]> ∅)) in
  GetAuthURL o provider redirectURI w =
    ((if String.eqb provider ProviderGoogle then getGoogleAuthURL o state
      else if String.eqb provider ProviderGitHub then getGitHubAuthURL o state
      else Err ("unsupported provider: " +:+ provider)),
     mkWorld (snd (time_Now (snd (time_Now rt1))))
       {| store := <[key_of (statePrefix o) state :=
                      {| value := doc; expiresAt := Add (time_after 2 rt1) ttl |}]>
                   (store (w_store w)) |}
       (w_users w) (w_net w)).
Proof.
  cbv zeta.
  unfold GetAuthURL, bind, liftRT, liftStore, ret.
  destruct (generateRandomString 32 (w_rt w)) as [state rt1]. cbn [fst snd w_rt w_store].
  change (time_after 2 rt1) with (time_after 1 (snd (time_Now rt1))).
  rewrite !time_after_1.
  destruct (time_Now rt1) as [now rt2]. cbn [fst snd w_rt w_store w_users w_net].
  cbn [store_Set MemorySessionStore_SessionStore].
  unfold MemorySessionStore_Set. cbn [json_Marshal OAuthState_Marshal State RedirectURI
                                      State_ExpiresAt].
  unfold json_Marshal, OAuthState_Marshal. cbn [State RedirectURI State_ExpiresAt].
  destruct (time_Now rt2) as [now2 rt3]. cbn [fst snd].
  destruct (String.eqb provider ProviderGoogle); [reflexivity|].
  destruct (String.eqb provider ProviderGitHub); reflexivity.
Qed.

(** C10.  [GetAuthURL] stores the state before it looks at the provider:
    the store it leaves is the same for every provider, and when the call
    fails because the provider is unsupported or its client id is not
    configured, the store holds the new state record, with the redirect
    target (as JSON carries it) and the expiry of a pending state, under
    the key of the state value that was generated. *)
Theorem GetAuthURL_error_keeps_state
    (o : OAuthManager) (provider redirectURI : string) (w : W) :
  let state := fst (generateRandomString 32 (w_rt w)) in
  let rt1 := snd (generateRandomString 32 (w_rt w)) in
  let ttl := OAuthStateExpiration (oauth_config o) in
  let w1 := snd (GetAuthURL o provider redirectURI w) in
  (forall provider2 : string,
     w_store (snd (GetAuthURL o provider2 redirectURI w)) = w_store w1) /\
  ((provider <> ProviderGoogle /\ provider <> ProviderGitHub) \/
   (provider = ProviderGoogle /\ GoogleClientID (oauth_config o) = "") \/
   (provider = ProviderGitHub /\ GitHubClientID (oauth_config o) = "") ->
   fst (GetAuthURL o provider redirectURI w) =
     Err (if String.eqb provider ProviderGoogle then "Google OAuth not configured"
          else if String.eqb provider ProviderGitHub then "GitHub OAuth not configured"
          else "unsupported provider: " +:+ provider) /\
   exists item,
     store (w_store w1) !! key_of (statePrefix o) state = Some item /\
     json_Unmarshal (value item) =
       Ok {| State := json_string state; RedirectURI := json_string redirectURI;
             State_ExpiresAt := Add (time_after 1 rt1) ttl |} /\
     expiresAt item = Add (time_after 2 rt1) ttl).
Proof.
  intros state rt1 ttl w1. subst w1. split.
  - intros provider2. rewrite !GetAuthURL_memory. reflexivity.
  - intros Hp. rewrite GetAuthURL_memory. cbv zeta. cbn [fst snd w_store store]. split.
    + destruct Hp as [[Hg Hh] | [[-> Hc] | [-> Hc]]].
      * apply String.eqb_neq in Hg, Hh. rewrite Hg, Hh. reflexivity.
      * rewrite String.eqb_refl. unfold getGoogleAuthURL. rewrite Hc. reflexivity.
      * unfold getGitHubAuthURL. rewrite Hc. reflexivity.
    + eexists. split; [apply lookup_insert_eq|]. split; [|reflexivity].
      cbn [value]. fold state rt1 ttl.
      unfold json_Unmarshal, OAuthState_Unmarshal, field_string, field_time.
      rewrite lookup_insert_eq.
      rewrite lookup_insert_ne by discriminate. rewrite lookup_insert_eq.
      do 2 (rewrite lookup_insert_ne by discriminate). rewrite lookup_insert_eq.
      reflexivity.
Qed.

Lemma expired_After (rt : Runtime) (t : Time) :
  t < rt_now rt -> After (fst (time_Now (snd (time_Now rt)))) t = true.
Proof.
  intros Ht. unfold After. apply Z.ltb_lt.
  pose proof (time_Now_le rt). pose proof (time_Now_le (snd (time_Now rt))).
  rewrite time_Now_now in *. lia.
Qed.

Lemma validateState_expired (o : OAuthManager) (state : string) (w : W)
    (item : memoryItem) (stateData : OAuthState) :
  store (w_store w) !! key_of (statePrefix o) state = Some item ->
  json_Unmarshal (value item) = Ok stateData ->
  State_ExpiresAt stateData < rt_now (w_rt w) ->
  fst (validateState o state w) =
    Err (if After (time_after 1 (w_rt w)) (expiresAt item)
         then "state not found or expired" else "state expired").
Proof.
  intros Hk Hu He. rewrite validateState_memory, time_after_1. cbv zeta.
  destruct (After (fst (time_Now (w_rt w))) (expiresAt item)) eqn:Ha.
  - rewrite (MemorySessionStore_Get_expired _ _ _ item Hk Ha). reflexivity.
  - rewrite (MemorySessionStore_Get_live _ _ _ item Hk Ha), Hu. cbn [fst].
    rewrite expired_After by exact He. reflexivity.
Qed.

(** [GetSession] over the in-memory store, call by call. *)
Lemma GetSession_memory (s : SessionManager) (sessionID : string) (w : W) :
  GetSession s sessionID w =
  let key := key_of (prefix s) sessionID in
  match MemorySessionStore_Get (A:=SessionData) key (w_store w) (w_rt w) with
  | (Err e, m, rt1) =>
      (Err ("session not found: " +:+ e), mkWorld rt1 m (w_users w) (w_net w))
  | (Ok sessionData, m, rt1) =>
      if After (fst (time_Now rt1)) (Session_ExpiresAt sessionData)
      then (Err "session expired",
            mkWorld (snd (time_Now rt1)) {| store := delete key (store m) |}
                    (w_users w) (w_net w))
      else (Ok sessionData, mkWorld (snd (time_Now rt1)) m (w_users w) (w_net w))
  end.
Proof.
  unfold GetSession, bind, liftStore, liftRT, ret.
  cbn [store_Get MemorySessionStore_SessionStore]. cbv zeta.
  destruct (MemorySessionStore_Get _ (w_store w) (w_rt w)) as [[[d|e] m] rt1];
    [|reflexivity].
  cbn. destruct (time_Now rt1) as [now rt2]. cbn.
  destruct (After now (Session_ExpiresAt d)); reflexivity.
Qed.

Lemma GetSession_absent (s : SessionManager) (sessionID : string) (w : W) :
  store (w_store w) !! key_of (prefix s) sessionID = None ->
  fst (GetSession s sessionID w) = Err "session not found: key not found".
Proof.
  intros Hk. rewrite GetSession_memory. cbv zeta.
  rewrite (MemorySessionStore_Get_absent _ _ _ Hk). reflexivity.
Qed.

Lemma GetSession_expired (s : SessionManager) (sessionID : string) (w : W)
    (item : memoryItem) (sessionData : SessionData) :
  store (w_store w) !! key_of (prefix s) sessionID = Some item ->
  json_Unmarshal (value item) = Ok sessionData ->
  Session_ExpiresAt sessionData < rt_now (w_rt w) ->
  fst (GetSession s sessionID w) =
    Err (if After (time_after 1 (w_rt w)) (expiresAt item)
         then "session not found: key expired" else "session expired") /\
  w_store (snd (GetSession s sessionID w)) =
    {| store := delete (key_of (prefix s) sessionID) (store (w_store w)) |}.
Proof.
  intros Hk Hu He. rewrite GetSession_memory, time_after_1. cbv zeta.
  destruct (After (fst (time_Now (w_rt w))) (expiresAt item)) eqn:Ha.
  - rewrite (MemorySessionStore_Get_expired _ _ _ item Hk Ha). split; reflexivity.
  - rewrite (MemorySessionStore_Get_live _ _ _ item Hk Ha), Hu.
    rewrite expired_After by exact He. split; reflexivity.
Qed.

(** C6, as the code has it.  A session whose stored [ExpiresAt] has
    passed while its entry is still in the store is not returned:
    [GetSession] fails, with "session expired" when the store still hands
    the entry out and with "session not found: key expired" when the
    store's own expiry check rejects it, and either way the entry is
    deleted, so that every later [GetSession] for the id fails as not
    found. *)
Theorem GetSession_expired_fails_and_deletes
    (s : SessionManager) (sessionID : string) (w : W)
    (item : memoryItem) (sessionData : SessionData) :
  let key := key_of (prefix s) sessionID in
  let w1 := snd (GetSession s sessionID w) in
  store (w_store w) !! key = Some item ->
  json_Unmarshal (value item) = Ok sessionData ->
  Session_ExpiresAt sessionData < rt_now (w_rt w) ->
  fst (GetSession s sessionID w) =
    Err (if After (time_after 1 (w_rt w)) (expiresAt item)
         then "session not found: key expired" else "session expired") /\
  store (w_store w1) !! key = None /\
  (forall (rt2 : Runtime) (u2 : U) (n2 : Net),
     fst (GetSession s sessionID (mkWorld rt2 (w_store w1) u2 n2)) =
       Err "session not found: key not found").
Proof.
  intros key w1 Hk Hu He.
  destruct (GetSession_expired s sessionID w item sessionData Hk Hu He) as [Hr Hs].
  split; [exact Hr|].
  assert (store (w_store w1) !! key = None) as Hnone.
  { subst w1. rewrite Hs. cbn [store]. apply lookup_delete_eq. }
  split; [exact Hnone|].
  intros rt2 u2 n2. apply GetSession_absent. exact Hnone.
Qed.

(** C4, as the code has it.  An expired OAuth state and an expired
    session are refused like unknown ones, with no payload, but the error
    says so: a state the store still returns fails with "invalid state:
    state expired" and a session with "session expired"; only when the
    in-memory store's own expiry check rejects the entry does an expired
    state read "invalid state: state not found or expired" like an
    unknown one, and an expired session "session not found: key expired"
    where an absent one reads "session not found: key not found". *)
Theorem expiry_reported_apart_from_not_found (o : OAuthManager) (s : SessionManager) :
  (forall (provider state code : string) (w : W),
     store (w_store w) !! key_of (statePrefix o) state = None ->
     fst (ValidateCallback o provider state code w) =
       (None, "", Some "invalid state: state not found or expired")) /\
  (forall (provider state code : string) (w : W) (item : memoryItem) (stateData : OAuthState),
     store (w_store w) !! key_of (statePrefix o) state = Some item ->
     json_Unmarshal (value item) = Ok stateData ->
     State_ExpiresAt stateData < rt_now (w_rt w) ->
     fst (ValidateCallback o provider state code w) =
       (None, "",
        Some (if After (time_after 1 (w_rt w)) (expiresAt item)
              then "invalid state: state not found or expired"
              else "invalid state: state expired"))) /\
  (forall (sessionID : string) (w : W),
     store (w_store w) !! key_of (prefix s) sessionID = None ->
     fst (GetSession s sessionID w) = Err "session not found: key not found") /\
  (forall (sessionID : string) (w : W) (item : memoryItem) (sessionData : SessionData),
     store (w_store w) !! key_of (prefix s) sessionID = Some item ->
     json_Unmarshal (value item) = Ok sessionData ->
     Session_ExpiresAt sessionData < rt_now (w_rt w) ->
     fst (GetSession s sessionID w) =
       Err (if After (time_after 1 (w_rt w)) (expiresAt item)
            then "session not found: key expired" else "session expired")).
Proof.
  split; [|split; [|split]].
  - intros provider state code w Hk.
    erewrite ValidateCallback_invalid_state; [reflexivity|].
    rewrite (validateState_absent _ _ _ Hk). reflexivity.
  - intros provider state code w item sd Hk Hu He.
    pose proof (validateState_expired o state w item sd Hk Hu He) as Hv.
    rewrite (ValidateCallback_invalid_state o provider state code w _ Hv).
    cbn [fst]. destruct (After _ (expiresAt item)); reflexivity.
  - intros sessionID w Hk. apply GetSession_absent. exact Hk.
  - intros sessionID w item d Hk Hu He.
    apply (GetSession_expired s sessionID w item d Hk Hu He).
Qed.

End MemoryWorld.

(** * The OAuth manager over the Redis store *)

Section RedisWorld.
Context {R U Net : Type} `{RedisClient R} `{OAuthNetwork Net}.

Local Abbreviation W := (World (RedisSessionStore R) U Net).

(** [validateState] over the Redis store, call by call: what [Delete]
    answers is dropped. *)
Lemma validateState_redis (o : OAuthManager) (state : string) (w : W) :
  validateState o state w =
  let key := key_of (statePrefix o) state in
  match redis_Get key (client (w_store w)) with
  | (Ok (Some doc), c) =>
      match json_Unmarshal (A:=OAuthState) doc with
      | Err _ =>
          (Err "state not found or expired",
           mkWorld (w_rt w) (mkRedis c) (w_users w) (w_net w))
      | Ok stateData =>
          let c1 := snd (redis_Del [key] c) in
          let '(now, rt1) := time_Now (w_rt w) in
          (if After now (State_ExpiresAt stateData) then Err "state expired"
           else Ok (RedirectURI stateData),
           mkWorld rt1 (mkRedis c1) (w_users w) (w_net w))
      end
  | (_, c) =>
      (Err "state not found or expired",
       mkWorld (w_rt w) (mkRedis c) (w_users w) (w_net w))
  end.
Proof.
  unfold validateState, bind, liftStore, liftRT, ret. cbv zeta.
  cbn [store_Get store_Delete RedisSessionStore_SessionStore].
  unfold RedisSessionStore_Get, RedisSessionStore_Delete.
  destruct (redis_Get _ (client (w_store w))) as [[[doc|]|e] c];
    cbn [fst snd w_rt w_store w_users w_net]; try reflexivity.
  destruct (json_Unmarshal doc) as [stateData|e];
    cbn [fst snd w_rt w_store w_users w_net client]; [|reflexivity].
  destruct (redis_Del _ c) as [r c1]. cbn [fst snd w_rt w_store w_users w_net].
  destruct (time_Now (w_rt w)) as [now rt1]. cbn [fst snd].
  destruct (After now (State_ExpiresAt stateData)); reflexivity.
Qed.

(** C2 (where the code breaks it).  [validateState] drops the error of
    the store's [Delete].  Over the Redis store, when the server answers
    the lookup of a pending state and refuses to delete it, the state is
    not consumed: [ValidateCallback] succeeds for it, the store is as it
    was, and a second [ValidateCallback] for the same state value
    succeeds again. *)
Theorem ValidateCallback_twice_when_Delete_fails
    (o : OAuthManager) (state code code' : string) (w : W)
    (doc : gmap string JVal) (stateData : OAuthState) (e : string)
    (info info' : OAuthUserInfo) (n1 n2 : Net) :
  let key := key_of (statePrefix o) state in
  let r1 := ValidateCallback o ProviderGoogle state code w in
  let r2 := ValidateCallback o ProviderGoogle state code' (snd r1) in
  redis_Get key (client (w_store w)) = (Ok (Some doc), client (w_store w)) ->
  json_Unmarshal doc = Ok stateData ->
  redis_Del [key] (client (w_store w)) = (Err e, client (w_store w)) ->
  time_after 2 (w_rt w) <= State_ExpiresAt stateData ->
  handleGoogleCallback (oauth_config o) code (w_net w) = (Ok info, n1) ->
  handleGoogleCallback (oauth_config o) code' n1 = (Ok info', n2) ->
  fst r1 = (Some info, RedirectURI stateData, None) /\
  w_store (snd r1) = w_store w /\
  fst r2 = (Some info', RedirectURI stateData, None).
Proof.
  intros key r1 r2 Hget Hdoc Hdel Hlive Hcb1 Hcb2.
  assert (Hstep : forall (rt : Runtime) (u : U) (n n' : Net) (c : string)
                         (i : OAuthUserInfo),
             time_after 1 rt <= State_ExpiresAt stateData ->
             handleGoogleCallback (oauth_config o) c n = (Ok i, n') ->
             ValidateCallback o ProviderGoogle state c (mkWorld rt (w_store w) u n) =
             ((Some i, RedirectURI stateData, None),
              mkWorld (snd (time_Now rt)) (w_store w) u n')).
  { intros rt u n n' c i Hle Hcb. unfold ValidateCallback, bind, ret, liftNet.
    rewrite validateState_redis. cbv zeta. cbn [w_store w_rt w_users w_net]. fold key.
    rewrite Hget, Hdoc, Hdel. cbn [snd]. rewrite time_after_1 in Hle.
    destruct (time_Now rt) as [now rt1]. cbn [fst snd] in *.
    assert (After now (State_ExpiresAt stateData) = false) as ->
      by (unfold After; apply Z.ltb_ge; exact Hle).
    rewrite String.eqb_refl. cbn [w_net]. rewrite Hcb.
    destruct (w_store w). reflexivity. }
  assert (Hr1 : r1 = ((Some info, RedirectURI stateData, None),
                      mkWorld (snd (time_Now (w_rt w))) (w_store w) (w_users w) n1)).
  { subst r1. destruct w as [rt s u n]. cbn [w_rt w_store w_users w_net] in *.
    apply Hstep; [|exact Hcb1]. pose proof (time_after_mono 1 rt). lia. }
  subst r2. rewrite Hr1. cbn [fst snd w_store].
  split; [reflexivity|]. split; [reflexivity|].
  rewrite (Hstep _ _ _ n2 code' info'); [reflexivity| |exact Hcb2].
  change (time_after 2 (w_rt w)) with (time_after 1 (snd (time_Now (w_rt w)))) in Hlive.
  exact Hlive.
Qed.
End RedisWorld.

(** * The authentication service over any collaborators *)

Section Orchestrator.
Context {S U Net : Type}.
Context `{SessionStore S} `{UserStore U} `{OAuthNetwork Net} `{BCrypt} `{Hash}.

Local Abbreviation W := (World S U Net).

(** C5.  A sign-in for an email the user store does not know and a
    sign-in with a wrong password for a known email return the same
    error, "invalid credentials", and neither touches the clock, the
    entropy, the output or the session store. *)
Theorem SignIn_failures_indistinguishable
    (a : AuthService) (req1 req2 : SignInRequest) (w1 w2 : W)
    (e1 e2 hashedPassword : string) (user : User) (u1 u2 : U) :
  GetUserByEmail (SignIn_Email req1) (w_users w1) = (Err e1, u1) ->
  GetUserByEmail (SignIn_Email req2) (w_users w2) = (Ok (user, hashedPassword), u2) ->
  CompareHashAndPassword hashedPassword (SignIn_Password req2) = Err e2 ->
  fst (SignIn a req1 w1) = Err "invalid credentials" /\
  fst (SignIn a req2 w2) = Err "invalid credentials" /\
  fst (SignIn a req1 w1) = fst (SignIn a req2 w2) /\
  w_rt (snd (SignIn a req1 w1)) = w_rt w1 /\
  w_store (snd (SignIn a req1 w1)) = w_store w1 /\
  w_rt (snd (SignIn a req2 w2)) = w_rt w2 /\
  w_store (snd (SignIn a req2 w2)) = w_store w2.
Proof.
  intros Hu1 Hu2 Hc.
  unfold SignIn, bind, liftUsers, ret. rewrite Hu1, Hu2, Hc. cbn.
  repeat split; reflexivity.
Qed.

(** The response of [generateAuthResponse] is made of the two tokens;
    the outcome of [CreateSession] only decides whether a line is
    printed. *)
Lemma generateAuthResponse_tokens (a : AuthService) (user : User) (w : W)
    (accessToken refreshToken : TokenString) (rt1 rt2 : Runtime) :
  GenerateToken (jwtManager a)
    {| UserID := User_ID user; Email := User_Email user;
       Name := User_Name user; Provider := User_Provider user |} (w_rt w)
    = (Ok accessToken, rt1) ->
  GenerateRefreshToken (jwtManager a) (User_ID user) rt1 = (Ok refreshToken, rt2) ->
  let session :=
    CreateSession (sessionManager a) (User_ID user) (User_Email user)
      (JWTExpiration (auth_config a)) (mkWorld rt2 (w_store w) (w_users w) (w_net w)) in
  generateAuthResponse a user w =
    (Ok {| AuthResponse_User := user;
           AuthResponse_AccessToken := accessToken;
           AuthResponse_RefreshToken := refreshToken;
           AuthResponse_ExpiresIn := Seconds_int64 (JWTExpiration (auth_config a)) |},
     match fst session with
     | Err e => snd (printf ("Failed to create session: " +:+ e +:+ newline) (snd session))
     | Ok _ => snd session
     end).
Proof.
  intros Ha Hr session. subst session.
  unfold generateAuthResponse, bind, ret.
  unfold liftRT at 1. rewrite Ha. cbn [w_store w_users w_net].
  unfold liftRT at 1. cbn [w_rt w_store w_users w_net]. rewrite Hr.
  destruct (CreateSession _ _ _ _ _) as [[sid|e] w3]; cbn [fst snd].
  - reflexivity.
  - destruct (printf _ w3) as [[] w4]. reflexivity.
Qed.

Lemma SignIn_reaches_tokens (a : AuthService) (req : SignInRequest) (w : W)
    (user : User) (hashedPassword : string) (u1 : U) :
  GetUserByEmail (SignIn_Email req) (w_users w) = (Ok (user, hashedPassword), u1) ->
  CompareHashAndPassword hashedPassword (SignIn_Password req) = Ok tt ->
  SignIn a req w = generateAuthResponse a user (mkWorld (w_rt w) (w_store w) u1 (w_net w)).
Proof.
  intros Hu Hc. unfold SignIn, bind, liftUsers. rewrite Hu, Hc. reflexivity.
Qed.

Lemma RefreshToken_reaches_tokens (a : AuthService) (refreshToken : TokenString) (w : W)
    (userID : string) (rt1 : Runtime) (user : User) (u1 : U) :
  ValidateRefreshToken (jwtManager a) refreshToken (w_rt w) = (Ok userID, rt1) ->
  GetUserByID userID (w_users w) = (Ok user, u1) ->
  RefreshToken a refreshToken w =
    generateAuthResponse a user (mkWorld rt1 (w_store w) u1 (w_net w)).
Proof.
  intros Hv Hu. unfold RefreshToken, bind, liftRT, liftUsers. rewrite Hv.
  cbn [w_users w_rt w_store w_net]. rewrite Hu. reflexivity.
Qed.

Lemma SignUp_reaches_tokens (a : AuthService) (req : SignUpRequest) (w : W)
    (u1 u2 : U) (hashedPassword : string) (rt1 : Runtime) :
  AllowSignup (auth_config a) = true ->
  UserExists (SignUp_Email req) (w_users w) = (Ok false, u1) ->
  GenerateFromPassword (SignUp_Password req) (BCryptCost (auth_config a)) (w_rt w)
    = (Ok hashedPassword, rt1) ->
  let rt2 := snd (generateRandomString 16 rt1) in
  let rt3 := snd (time_Now rt2) in
  let user :=
    {| User_ID := fst (generateRandomString 16 rt1); User_Email := SignUp_Email req;
       User_Name := SignUp_Name req; User_AvatarURL := "";
       User_Provider := ProviderLocal;
       User_CreatedAt := fst (time_Now rt2); User_UpdatedAt := fst (time_Now rt3) |} in
  CreateUser user hashedPassword u1 = (Ok tt, u2) ->
  SignUp a req w =
    generateAuthResponse a user (mkWorld (snd (time_Now rt3)) (w_store w) u2 (w_net w)).
Proof.
  intros Hs Hx Hh rt2 rt3 user Hc. subst rt2 rt3 user.
  unfold SignUp, bind, liftRT, liftUsers. rewrite Hs. cbn [negb].
  rewrite Hx. cbn [w_users w_rt w_store w_net]. rewrite Hh.
  cbn [w_users w_rt w_store w_net].
  destruct (generateRandomString 16 rt1) as [id rt2]. cbn [fst snd w_rt w_store w_users w_net] in *.
  destruct (time_Now rt2) as [createdAt rt3]. cbn [fst snd w_rt w_store w_users w_net] in *.
  destruct (time_Now rt3) as [updatedAt rt4]. cbn [fst snd w_rt w_store w_users w_net] in *.
  rewrite Hc. reflexivity.
Qed.

Lemma OAuthSignIn_reaches_tokens (a : AuthService) (provider state code : string) (w w1 : W)
    (oauthUser : OAuthUserInfo) (redirectURI : string) :
  ValidateCallback (oauthManager a) provider state code w
    = ((Some oauthUser, redirectURI, None), w1) ->
  OAuth_Email oauthUser <> "" ->
  (forall (e : string) (u1 u2 : U),
     GetUserByEmail (OAuth_Email oauthUser) (w_users w1) = (Err e, u1) ->
     let rt2 := snd (time_Now (w_rt w1)) in
     let user :=
       {| User_ID := provider +:+ "_" +:+ OAuth_ID oauthUser;
          User_Email := OAuth_Email oauthUser;
          User_Name := OAuth_Name oauthUser;
          User_AvatarURL := OAuth_AvatarURL oauthUser;
          User_Provider := OAuth_Provider oauthUser;
          User_CreatedAt := fst (time_Now (w_rt w1));
          User_UpdatedAt := fst (time_Now rt2) |} in
     CreateUser user "" u1 = (Ok tt, u2) ->
     OAuthSignIn a provider state code w =
       generateAuthResponse a user
         (mkWorld (snd (time_Now rt2)) (w_store w1) u2 (w_net w1))) /\
  (forall (existing : User) (hashedPassword : string) (u1 : U),
     GetUserByEmail (OAuth_Email oauthUser) (w_users w1)
       = (Ok (existing, hashedPassword), u1) ->
     let rt2 := snd (time_Now (w_rt w1)) in
     let user :=
       {| User_ID := User_ID existing; User_Email := User_Email existing;
          User_Name := OAuth_Name oauthUser;
          User_AvatarURL := OAuth_AvatarURL oauthUser;
          User_Provider := User_Provider existing;
          User_CreatedAt := User_CreatedAt existing;
          User_UpdatedAt := fst (time_Now (w_rt w1)) |} in
     OAuthSignIn a provider state code w =
       generateAuthResponse a user
         (mkWorld
            match fst (UpdateUser user u1) with
            | Ok _ => rt2
            | Err e => fmt_Printf ("Failed to update user: " +:+ e +:+ newline) rt2
            end
            (w_store w1) (snd (UpdateUser user u1)) (w_net w1))).
Proof.
  intros Hcb He. apply eqb_empty_false in He. split.
  - intros e u1 u2 Hu rt2 user Hc. subst rt2 user.
    unfold OAuthSignIn, bind, liftRT, liftUsers. rewrite Hcb, He, Hu.
    cbn [w_users w_rt w_store w_net].
    destruct (time_Now (w_rt w1)) as [createdAt rt2]. cbn [fst snd w_rt w_store w_users w_net] in *.
    destruct (time_Now rt2) as [updatedAt rt3]. cbn [fst snd w_rt w_store w_users w_net] in *.
    rewrite Hc. reflexivity.
  - intros existing hashedPassword u1 Hu rt2 user. subst rt2 user.
    unfold OAuthSignIn, bind, liftRT, liftUsers. rewrite Hcb, He, Hu.
    cbn [w_users w_rt w_store w_net].
    destruct (time_Now (w_rt w1)) as [updatedAt rt2]. cbn [fst snd w_rt w_store w_users w_net] in *.
    destruct (UpdateUser _ u1) as [[[]|e] u2]; cbn [fst snd w_rt w_store w_users w_net];
      reflexivity.
Qed.

(** C9.  A session that cannot be created does not fail authentication.
    When the two tokens are generated, [generateAuthResponse] returns the
    response made of the user and these tokens whatever [CreateSession]
    returns; when [CreateSession] fails the only trace is a line on the
    standard output.  Sign-up, sign-in, OAuth sign-in and refresh all end
    in [generateAuthResponse]: once their own checks have passed and the
    tokens are generated, each returns that response. *)
Theorem session_failure_is_not_fatal (a : AuthService) :
  let j := jwtManager a in
  (forall (user : User) (w : W) (accessToken refreshToken : TokenString)
          (rt1 rt2 : Runtime),
     GenerateToken j (userClaims user) (w_rt w) = (Ok accessToken, rt1) ->
     GenerateRefreshToken j (User_ID user) rt1 = (Ok refreshToken, rt2) ->
     let session :=
       CreateSession (sessionManager a) (User_ID user) (User_Email user)
         (JWTExpiration (auth_config a)) (mkWorld rt2 (w_store w) (w_users w) (w_net w)) in
     fst (generateAuthResponse a user w) =
       Ok (authResponse (auth_config a) user accessToken refreshToken) /\
     (forall e : string,
        fst session = Err e ->
        rt_stdout (w_rt (snd (generateAuthResponse a user w))) =
          rt_stdout (w_rt (snd session)) ++
          ["Failed to create session: " +:+ e +:+ newline])) /\
  (forall (req : SignInRequest) (w : W) (user : User) (hashedPassword : string) (u1 : U)
          (accessToken refreshToken : TokenString) (rt1 rt2 : Runtime),
     GetUserByEmail (SignIn_Email req) (w_users w) = (Ok (user, hashedPassword), u1) ->
     CompareHashAndPassword hashedPassword (SignIn_Password req) = Ok tt ->
     GenerateToken j (userClaims user) (w_rt w) = (Ok accessToken, rt1) ->
     GenerateRefreshToken j (User_ID user) rt1 = (Ok refreshToken, rt2) ->
     fst (SignIn a req w) =
       Ok (authResponse (auth_config a) user accessToken refreshToken)) /\
  (forall (token : TokenString) (w : W) (userID : string) (rt0 : Runtime) (user : User)
          (u1 : U) (accessToken refreshToken : TokenString) (rt1 rt2 : Runtime),
     ValidateRefreshToken j token (w_rt w) = (Ok userID, rt0) ->
     GetUserByID userID (w_users w) = (Ok user, u1) ->
     GenerateToken j (userClaims user) rt0 = (Ok accessToken, rt1) ->
     GenerateRefreshToken j (User_ID user) rt1 = (Ok refreshToken, rt2) ->
     fst (RefreshToken a token w) =
       Ok (authResponse (auth_config a) user accessToken refreshToken)) /\
  (forall (req : SignUpRequest) (w : W) (u1 u2 : U) (hashedPassword : string)
          (rt0 : Runtime) (accessToken refreshToken : TokenString) (rt1 rt2 : Runtime),
     AllowSignup (auth_config a) = true ->
     UserExists (SignUp_Email req) (w_users w) = (Ok false, u1) ->
     GenerateFromPassword (SignUp_Password req) (BCryptCost (auth_config a)) (w_rt w)
       = (Ok hashedPassword, rt0) ->
     let rt' := snd (generateRandomString 16 rt0) in
     let rt'' := snd (time_Now rt') in
     let user :=
       {| User_ID := fst (generateRandomString 16 rt0); User_Email := SignUp_Email req;
          User_Name := SignUp_Name req; User_AvatarURL := "";
          User_Provider := ProviderLocal;
          User_CreatedAt := fst (time_Now rt'); User_UpdatedAt := fst (time_Now rt'') |} in
     CreateUser user hashedPassword u1 = (Ok tt, u2) ->
     GenerateToken j (userClaims user) (snd (time_Now rt'')) = (Ok accessToken, rt1) ->
     GenerateRefreshToken j (User_ID user) rt1 = (Ok refreshToken, rt2) ->
     fst (SignUp a req w) =
       Ok (authResponse (auth_config a) user accessToken refreshToken)) /\
  (forall (provider state code : string) (w w1 : W) (oauthUser : OAuthUserInfo)
          (redirectURI e : string) (u1 u2 : U)
          (accessToken refreshToken : TokenString) (rt1 rt2 : Runtime),
     ValidateCallback (oauthManager a) provider state code w
       = ((Some oauthUser, redirectURI, None), w1) ->
     OAuth_Email oauthUser <> "" ->
     GetUserByEmail (OAuth_Email oauthUser) (w_users w1) = (Err e, u1) ->
     let rt' := snd (time_Now (w_rt w1)) in
     let user :=
       {| User_ID := provider +:+ "_" +:+ OAuth_ID oauthUser;
          User_Email := OAuth_Email oauthUser;
          User_Name := OAuth_Name oauthUser;
          User_AvatarURL := OAuth_AvatarURL oauthUser;
          User_Provider := OAuth_Provider oauthUser;
          User_CreatedAt := fst (time_Now (w_rt w1));
          User_UpdatedAt := fst (time_Now rt') |} in
     CreateUser user "" u1 = (Ok tt, u2) ->
     GenerateToken j (userClaims user) (snd (time_Now rt')) = (Ok accessToken, rt1) ->
     GenerateRefreshToken j (User_ID user) rt1 = (Ok refreshToken, rt2) ->
     fst (OAuthSignIn a provider state code w) =
       Ok (authResponse (auth_config a) user accessToken refreshToken)) /\
  (forall (provider state code : string) (w w1 : W) (oauthUser : OAuthUserInfo)
          (redirectURI hashedPassword : string) (existing : User) (u1 : U)
          (accessToken refreshToken : TokenString) (rt1 rt2 : Runtime),
     ValidateCallback (oauthManager a) provider state code w
       = ((Some oauthUser, redirectURI, None), w1) ->
     OAuth_Email oauthUser <> "" ->
     GetUserByEmail (OAuth_Email oauthUser) (w_users w1)
       = (Ok (existing, hashedPassword), u1) ->
     let rt' := snd (time_Now (w_rt w1)) in
     let user :=
       {| User_ID := User_ID existing; User_Email := User_Email existing;
          User_Name := OAuth_Name oauthUser;
          User_AvatarURL := OAuth_AvatarURL oauthUser;
          User_Provider := User_Provider existing;
          User_CreatedAt := User_CreatedAt existing;
          User_UpdatedAt := fst (time_Now (w_rt w1)) |} in
     GenerateToken j (userClaims user)
       match fst (UpdateUser user u1) with
       | Ok _ => rt'
       | Err e => fmt_Printf ("Failed to update user: " +:+ e +:+ newline) rt'
       end = (Ok accessToken, rt1) ->
     GenerateRefreshToken j (User_ID user) rt1 = (Ok refreshToken, rt2) ->
     fst (OAuthSignIn a provider state code w) =
       Ok (authResponse (auth_config a) user accessToken refreshToken)).
Proof.
  intros j. split; [|split; [|split; [|split; [|split]]]].
  - intros user w accessToken refreshToken rt1 rt2 Ha Hr session.
    rewrite (generateAuthResponse_tokens a user w accessToken refreshToken rt1 rt2 Ha Hr).
    fold session. split; [reflexivity|].
    intros e He. cbn [snd]. rewrite He. reflexivity.
  - intros req w user hashedPassword u1 accessToken refreshToken rt1 rt2 Hu Hc Ha Hr.
    rewrite (SignIn_reaches_tokens a req w user hashedPassword u1 Hu Hc).
    erewrite generateAuthResponse_tokens; [reflexivity|exact Ha|exact Hr].
  - intros token w userID rt0 user u1 accessToken refreshToken rt1 rt2 Hv Hu Ha Hr.
    rewrite (RefreshToken_reaches_tokens a token w userID rt0 user u1 Hv Hu).
    erewrite generateAuthResponse_tokens; [reflexivity|exact Ha|exact Hr].
  - intros req w u1 u2 hashedPassword rt0 accessToken refreshToken rt1 rt2
      Hs Hx Hh rt' rt'' user Hc Ha Hr.
    rewrite (SignUp_reaches_tokens a req w u1 u2 hashedPassword rt0 Hs Hx Hh Hc).
    erewrite generateAuthResponse_tokens; [reflexivity|exact Ha|exact Hr].
  - intros provider state code w w1 oauthUser redirectURI e u1 u2
      accessToken refreshToken rt1 rt2 Hcb He Hu rt' user Hc Ha Hr.
    destruct (OAuthSignIn_reaches_tokens a provider state code w w1 oauthUser
                redirectURI Hcb He) as [Hnew _].
    rewrite (Hnew e u1 u2 Hu Hc).
    erewrite generateAuthResponse_tokens; [reflexivity|exact Ha|exact Hr].
  - intros provider state code w w1 oauthUser redirectURI hashedPassword existing u1
      accessToken refreshToken rt1 rt2 Hcb He Hu rt' user Ha Hr.
    destruct (OAuthSignIn_reaches_tokens a provider state code w w1 oauthUser
                redirectURI Hcb He) as [_ Hold].
    rewrite (Hold existing hashedPassword u1 Hu).
    erewrite generateAuthResponse_tokens; [reflexivity|exact Ha|exact Hr].
Qed.

End Orchestrator.

(** * The services on the sample worlds *)

Section Examples.
#[local] Existing Instance plain_bcrypt.
#[local] Existing Instance short_hash.

Example GetAuthURL_demo :
  is_Ok (fst (GetAuthURL demo_oauth ProviderGoogle "/welcome"
                (demo_world (demo_runtime T0 [0; 1000]%N)))) = true /\
  store (w_store world_with_state) !! ("oauth:state:" +:+ demo_state) =
    Some {| value := <["state" := JString demo_state]>
                     (<["redirect_uri" := JString "/welcome"]>
                     (<["expires_at" := JTime (T0 + 10 * Minute)]> ∅));
            expiresAt := T0 + 1000 + 10 * Minute |}.
Proof. split; vm_compute; reflexivity. Qed.

Example CreateSession_demo :
  fst (CreateSession demo_sessions "u1" "a@b.com" (24 * Hour)
         (demo_world (demo_runtime T0 [0; 0; 1000]%N))) = Ok demo_state /\
  store (w_store world_with_session) !! ("session:" +:+ demo_state) =
    Some {| value := <["user_id" := JString "u1"]>
                     (<["email" := JString "a@b.com"]>
                     (<["created_at" := JTime T0]>
                     (<["expires_at" := JTime (T0 + 24 * Hour)]> ∅)));
            expiresAt := T0 + 1000 + 24 * Hour |}.
Proof. split; vm_compute; reflexivity. Qed.

Lemma ValidateCallback_at_most_once_witness :
  fst (ValidateCallback demo_oauth ProviderGoogle demo_state "code-2"
         (later (snd (ValidateCallback demo_oauth ProviderGoogle demo_state "code-1"
                        (later world_with_state (T0 + Minute))))
                (T0 + 2 * Minute))) =
    (None, "", Some "invalid state: state not found or expired") /\
  w_store (snd (ValidateCallback demo_oauth ProviderGoogle demo_state "code-1"
                  (later world_with_state (T0 + Minute)))) =
    {| store := delete (key_of (statePrefix demo_oauth) demo_state)
                       (store (w_store (later world_with_state (T0 + Minute)))) |}.
Proof.
  destruct (ValidateCallback_at_most_once demo_oauth ProviderGoogle demo_state "code-1"
              (later world_with_state (T0 + Minute))) as [Hagain Hdel].
  split.
  - apply Hagain.
  - eapply Hdel; vm_compute; reflexivity.
Defined.

Lemma ValidateCallback_twice_when_Delete_fails_witness :
  fst (ValidateCallback demo_oauth ProviderGoogle demo_state "code-1"
         replica_world_with_state) = (Some demo_info, "/welcome", None) /\
  w_store (snd (ValidateCallback demo_oauth ProviderGoogle demo_state "code-1"
                  replica_world_with_state)) = w_store replica_world_with_state /\
  fst (ValidateCallback demo_oauth ProviderGoogle demo_state "code-2"
         (snd (ValidateCallback demo_oauth ProviderGoogle demo_state "code-1"
                 replica_world_with_state))) = (Some demo_info, "/welcome", None).
Proof.
  apply (ValidateCallback_twice_when_Delete_fails demo_oauth demo_state "code-1" "code-2"
           replica_world_with_state
           (<["state" := JString demo_state]>
            (<["redirect_uri" := JString "/welcome"]>
            (<["expires_at" := JTime (T0 + 10 * Minute)]> ∅)))
           {| State := demo_state; RedirectURI := "/welcome";
              State_ExpiresAt := T0 + 10 * Minute |}
           READONLY demo_info demo_info
           {| answers := [Ok demo_info] |} {| answers := [] |}).
  - vm_compute. reflexivity.
  - vm_compute. reflexivity.
  - reflexivity.
  - vm_compute. discriminate.
  - reflexivity.
  - reflexivity.
Defined.

Lemma ValidateCallback_unknown_state_frame_witness :
  ValidateCallback demo_oauth ProviderGoogle "forged" "code"
    (later world_with_state (T0 + Minute)) =
    ((None, "", Some "invalid state: state not found or expired"),
     later world_with_state (T0 + Minute)) /\
  fst (ValidateCallback demo_oauth ProviderGoogle demo_state "code"
         (snd (ValidateCallback demo_oauth ProviderGoogle "forged" "code"
                 (later world_with_state (T0 + Minute))))) =
    (Some demo_info, "/welcome", None).
Proof.
  destruct (ValidateCallback_unknown_state_frame demo_oauth ProviderGoogle "forged" "code"
              (later world_with_state (T0 + Minute))) as [Hframe Hnext].
  - vm_compute. reflexivity.
  - split; [exact Hframe|].
    refine (proj2 (Hnext demo_state "code"
                     {| value := <["state" := JString demo_state]>
                                 (<["redirect_uri" := JString "/welcome"]>
                                 (<["expires_at" := JTime (T0 + 10 * Minute)]> ∅));
                        expiresAt := T0 + 1000 + 10 * Minute |}
                     {| State := demo_state; RedirectURI := "/welcome";
                        State_ExpiresAt := T0 + 10 * Minute |} _ _ _ _)).
    + vm_compute. reflexivity.
    + vm_compute. reflexivity.
    + vm_compute. discriminate.
    + vm_compute. discriminate.
Defined.

Lemma GetAuthURL_error_keeps_state_witness :
  fst (GetAuthURL demo_oauth ProviderGitHub "/welcome"
         (demo_world (demo_runtime T0 [0; 1000]%N))) = Err "GitHub OAuth not configured" /\
  exists item,
    store (w_store (snd (GetAuthURL demo_oauth ProviderGitHub "/welcome"
                           (demo_world (demo_runtime T0 [0; 1000]%N)))))
      !! key_of (statePrefix demo_oauth) demo_state = Some item /\
    json_Unmarshal (value item) =
      Ok {| State := demo_state; RedirectURI := "/welcome";
            State_ExpiresAt := T0 + 10 * Minute |} /\
    expiresAt item = T0 + 1000 + 10 * Minute.
Proof.
  destruct (GetAuthURL_error_keeps_state demo_oauth ProviderGitHub "/welcome"
              (demo_world (demo_runtime T0 [0; 1000]%N))) as [_ Herr].
  apply Herr. right. right. split; reflexivity.
Defined.

(** C4, counterexample.  Half a microsecond after its expiry the stored
    state is refused as "state expired", an unknown state as "state not
    found or expired"; the stored session as "session expired", an
    absent one as "session not found: key not found". *)
Lemma expired_is_told_apart_from_not_found :
  fst (ValidateCallback demo_oauth ProviderGoogle demo_state "code"
         world_state_just_expired) =
    (None, "", Some "invalid state: state expired") /\
  fst (ValidateCallback demo_oauth ProviderGoogle "forged" "code"
         world_state_just_expired) =
    (None, "", Some "invalid state: state not found or expired") /\
  fst (ValidateCallback demo_oauth ProviderGoogle demo_state "code"
         world_state_just_expired) <>
  fst (ValidateCallback demo_oauth ProviderGoogle "forged" "code"
         world_state_just_expired) /\
  fst (GetSession demo_sessions demo_state world_session_just_expired) =
    Err "session expired" /\
  fst (GetSession demo_sessions "forged" world_session_just_expired) =
    Err "session not found: key not found" /\
  fst (GetSession demo_sessions demo_state world_session_just_expired) <>
  fst (GetSession demo_sessions "forged" world_session_just_expired).
Proof.
  repeat split; try (vm_compute; reflexivity); vm_compute; discriminate.
Qed.

Lemma expiry_reported_apart_from_not_found_witness :
  fst (ValidateCallback demo_oauth ProviderGoogle demo_state "code"
         world_state_just_expired) =
    (None, "", Some "invalid state: state expired") /\
  fst (GetSession demo_sessions demo_state world_session_just_expired) =
    Err "session expired".
Proof.
  destruct (expiry_reported_apart_from_not_found
              (U := InMemoryUserStore) (Net := ScriptedNetwork) demo_oauth demo_sessions)
    as (_ & Hstate & _ & Hsession).
  split.
  - refine (Hstate ProviderGoogle demo_state "code" world_state_just_expired
              {| value := <["state" := JString demo_state]>
                          (<["redirect_uri" := JString "/welcome"]>
                          (<["expires_at" := JTime (T0 + 10 * Minute)]> ∅));
                 expiresAt := T0 + 1000 + 10 * Minute |}
              {| State := demo_state; RedirectURI := "/welcome";
                 State_ExpiresAt := T0 + 10 * Minute |} _ _ _);
      vm_compute; reflexivity.
  - refine (Hsession demo_state world_session_just_expired
              {| value := <["user_id" := JString "u1"]>
                          (<["email" := JString "a@b.com"]>
                          (<["created_at" := JTime T0]>
                          (<["expires_at" := JTime (T0 + 24 * Hour)]> ∅)));
                 expiresAt := T0 + 1000 + 24 * Hour |}
              {| Session_UserID := "u1"; Session_Email := "a@b.com";
                 Session_CreatedAt := T0; Session_ExpiresAt := T0 + 24 * Hour |} _ _ _);
      vm_compute; reflexivity.
Defined.

(** C6, counterexample.  The session's entry is still in the store and
    its [ExpiresAt] has passed; [GetSession] fails as "session expired",
    which is not the error of a session that is not found. *)
Lemma expired_session_is_not_reported_not_found :
  is_Some (store (w_store world_session_just_expired)
             !! key_of (prefix demo_sessions) demo_state) /\
  fst (GetSession demo_sessions demo_state world_session_just_expired) =
    Err "session expired" /\
  fst (GetSession demo_sessions demo_state world_session_just_expired) <>
    Err "session not found: key not found" /\
  fst (GetSession demo_sessions demo_state world_session_just_expired) <>
    fst (GetSession demo_sessions "forged" world_session_just_expired).
Proof.
  split; [eexists; vm_compute; reflexivity|].
  repeat split; try (vm_compute; reflexivity); vm_compute; discriminate.
Qed.

Lemma GetSession_expired_fails_and_deletes_witness :
  fst (GetSession demo_sessions demo_state world_session_just_expired) =
    Err "session expired" /\
  store (w_store (snd (GetSession demo_sessions demo_state world_session_just_expired)))
    !! key_of (prefix demo_sessions) demo_state = None /\
  fst (GetSession demo_sessions demo_state
         (later (snd (GetSession demo_sessions demo_state world_session_just_expired))
                (T0 + 25 * Hour))) =
    Err "session not found: key not found".
Proof.
  destruct (GetSession_expired_fails_and_deletes demo_sessions demo_state
              world_session_just_expired
              {| value := <["user_id" := JString "u1"]>
                          (<["email" := JString "a@b.com"]>
                          (<["created_at" := JTime T0]>
                          (<["expires_at" := JTime (T0 + 24 * Hour)]> ∅)));
                 expiresAt := T0 + 1000 + 24 * Hour |}
              {| Session_UserID := "u1"; Session_Email := "a@b.com";
                 Session_CreatedAt := T0; Session_ExpiresAt := T0 + 24 * Hour |})
    as (Hr & Hgone & Hagain); try (vm_compute; reflexivity).
  split; [exact Hr|]. split; [exact Hgone|]. apply Hagain.
Defined.

Lemma SignIn_failures_indistinguishable_witness :
  fst (SignIn demo_service {| SignIn_Email := "nobody@b.com"; SignIn_Password := "pw123456" |}
         (demo_world (demo_runtime T0 []))) = Err "invalid credentials" /\
  fst (SignIn demo_service {| SignIn_Email := "a@b.com"; SignIn_Password := "letmein" |}
         (demo_world (demo_runtime T0 []))) = Err "invalid credentials".
Proof.
  destruct (SignIn_failures_indistinguishable demo_service
              {| SignIn_Email := "nobody@b.com"; SignIn_Password := "pw123456" |}
              {| SignIn_Email := "a@b.com"; SignIn_Password := "letmein" |}
              (demo_world (demo_runtime T0 [])) (demo_world (demo_runtime T0 []))
              "user not found"
              "crypto/bcrypt: hashedPassword is not the hash of the given password"
              "$2a$pw123456" demo_user demo_users demo_users)
    as (H1 & H2 & _); try (vm_compute; reflexivity).
  split; [exact H1|exact H2].
Defined.

Lemma session_failure_is_not_fatal_witness :
  fst (CreateSession demo_sessions "u1" "a@b.com" (24 * Hour)
         (redis_down_world (demo_runtime T0 []))) =
    Err "failed to create session: dial tcp: connection refused" /\
  fst (generateAuthResponse demo_service demo_user (redis_down_world (demo_runtime T0 []))) =
    Ok (authResponse demo_config demo_user demo_access_token demo_refresh_token) /\
  fst (SignIn demo_service {| SignIn_Email := "a@b.com"; SignIn_Password := "pw123456" |}
         (redis_down_world (demo_runtime T0 []))) =
    Ok (authResponse demo_config demo_user demo_access_token demo_refresh_token).
Proof.
  split; [vm_compute; reflexivity|].
  destruct (session_failure_is_not_fatal
              (S := RedisSessionStore UnreachableRedis) (U := InMemoryUserStore)
              (Net := ScriptedNetwork) demo_service)
    as (Hgen & Hsignin & _).
  assert (GenerateToken (jwtManager demo_service) (userClaims demo_user) (demo_runtime T0 [])
          = (Ok demo_access_token, demo_runtime T0 [])) as Ha
    by (vm_compute; reflexivity).
  assert (GenerateRefreshToken (jwtManager demo_service) (User_ID demo_user)
            (demo_runtime T0 [])
          = (Ok demo_refresh_token, demo_runtime T0 [])) as Hr
    by (vm_compute; reflexivity).
  split.
  - exact (proj1 (Hgen demo_user (redis_down_world (demo_runtime T0 []))
                    demo_access_token demo_refresh_token
                    (demo_runtime T0 []) (demo_runtime T0 []) Ha Hr)).
  - refine (Hsignin {| SignIn_Email := "a@b.com"; SignIn_Password := "pw123456" |}
              (redis_down_world (demo_runtime T0 [])) demo_user "$2a$pw123456" demo_users
              demo_access_token demo_refresh_token
              (demo_runtime T0 []) (demo_runtime T0 []) _ _ Ha Hr);
      vm_compute; reflexivity.
Defined.

End Examples.

(** * Further properties of the token engine *)

Lemma length_app (p t : string) :
  String.length (p +:+ t) = (String.length p + String.length t)%nat.
Proof.
  induction p as [|a p IH]; [reflexivity|].
  change (String a p +:+ t) with (String a (p +:+ t)). cbn [String.length].
  by rewrite IH.
Qed.

Lemma trim_zeros_app_zero (s : string) :
  trim_zeros (s +:+ String zero EmptyString) = trim_zeros s.
Proof.
  induction s as [|a s IH]; [reflexivity|].
  change (String a s +:+ String zero EmptyString)
    with (String a (s +:+ String zero EmptyString)).
  cbn [trim_zeros]. rewrite IH. reflexivity.
Qed.

Section TokenEngineMore.
Context `{Hash}.

(** A secret shorter than a block and the same secret followed by a zero
    byte are one key. *)
Lemma hmac_key_zero_padded (alg key : string) :
  (String.length key < BlockSize alg)%nat ->
  hmac_key alg (key +:+ String zero EmptyString) = hmac_key alg key.
Proof.
  intros Hlen. unfold hmac_key. rewrite length_app. cbn [String.length].
  destruct (Nat.ltb_spec (BlockSize alg) (String.length key + 1)); [lia|].
  destruct (Nat.ltb_spec (BlockSize alg) (String.length key)); [lia|].
  apply trim_zeros_app_zero.
Qed.

Lemma GetSigningMethod_HMAC (alg name : string) :
  GetSigningMethod alg = Some (SigningMethodHMAC name) ->
  name = alg /\ alg ∈ ["HS256"; "HS384"; "HS512"].
Proof.
  unfold GetSigningMethod. intros Hm.
  repeat case_bool_decide; simplify_eq. auto.
Qed.

(** What [jwt.Parse] accepts under the managers' key function is a token
    of the HMAC family whose signature was made with the manager's
    secret (as the MAC uses it) over the very header and claims it
    carries, and the clock has been read once. *)
Lemma jwt_Parse_keyFunc_Ok (j : JWTManager) (tok : TokenString) (rt rt1 : Runtime)
    (token : Token) :
  jwt_Parse tok (keyFunc j) rt = (Ok token, rt1) ->
  exists alg claims,
    tok = CompactJWS alg claims (HMAC alg (hmac_key alg (secret j)) claims) /\
    alg ∈ ["HS256"; "HS384"; "HS512"] /\
    Claims token = claims /\ Valid token = true /\
    Validate claims rt = (Ok tt, rt1).
Proof.
  unfold jwt_Parse. destruct tok as [alg c sig | text]; [|discriminate].
  destruct (GetSigningMethod alg) as [[name|name]|] eqn:Hm; try discriminate.
  apply GetSigningMethod_HMAC in Hm as [-> Halg].
  cbn [keyFunc Method Verify].
  destruct (bool_decide (sig = HMAC alg (hmac_key alg (secret j)) c)) eqn:Hs; [|discriminate].
  apply bool_decide_eq_true in Hs as ->.
  destruct (Validate c rt) as [[[]|e] rt2] eqn:Hv; [|discriminate].
  intros [= <- <-]. exists alg, c. repeat split; auto.
Qed.

(** X1.  Round trip of the refresh token: for a non-empty user id, the
    token [GenerateRefreshToken] issues is accepted by
    [ValidateRefreshToken] of the same manager at any instant before the
    expiry written in it.  The user id comes back as JSON carries it,
    every byte that is not well-formed UTF-8 replaced by U+FFFD: it is
    the user id given when that is well-formed UTF-8. *)
Theorem ValidateRefreshToken_GenerateRefreshToken_roundtrip
    (j : JWTManager) (userID : string) (rt rt' : Runtime) :
  userID <> "" ->
  Before (fst (time_Now rt'))
         (time_Unix (Unix (Add (fst (time_Now rt)) (30 * 24 * Hour)))) = true ->
  exists tok,
    fst (GenerateRefreshToken j userID rt) = Ok tok /\
    fst (ValidateRefreshToken j tok rt') = Ok (json_string userID) /\
    (valid_utf8 userID -> fst (ValidateRefreshToken j tok rt') = Ok userID).
Proof.
  intros Hid Hexp. rewrite GenerateRefreshToken_eq. eexists; split; [reflexivity|].
  assert (Hval : fst (ValidateRefreshToken j
            (CompactJWS "HS256" (refreshClaims j userID (fst (time_Now rt)))
               (HMAC "HS256" (hmac_key "HS256" (secret j))
                  (refreshClaims j userID (fst (time_Now rt))))) rt') =
          Ok (json_string userID)).
  { unfold ValidateRefreshToken. rewrite jwt_Parse_signed.
    rewrite Validate_ok.
    - cbn [negb Valid Claims fst]. unfold claim_string.
      rewrite refreshClaims_type, refreshClaims_user_id.
      rewrite json_string_eqb_empty, eqb_empty_false by exact Hid. reflexivity.
    - eapply verifyExpiresAt_before; [apply refreshClaims_exp | exact Hexp].
    - apply verifyNotBefore_unset, refreshClaims_nbf. }
  split; [exact Hval|]. intros Hu. rewrite Hval, Hu. reflexivity.
Qed.

(** X2.  Authenticity.  Whatever [ValidateToken] or
    [ValidateRefreshToken] accepts is a token whose header names an HMAC
    method (HS256, HS384 or HS512) and whose signature is the one made
    with this manager's secret over that header and the claims the token
    carries: a token signed under another key, with claims altered
    after signing, or announcing another algorithm such as "none" is
    never accepted. *)
Theorem validators_accept_only_own_signature
    (j : JWTManager) (tok : TokenString) (rt : Runtime) :
  is_Ok (fst (ValidateToken j tok rt)) = true \/
  is_Ok (fst (ValidateRefreshToken j tok rt)) = true ->
  exists alg claims,
    tok = CompactJWS alg claims (HMAC alg (hmac_key alg (secret j)) claims) /\
    alg ∈ ["HS256"; "HS384"; "HS512"].
Proof.
  unfold ValidateToken, ValidateRefreshToken.
  destruct (jwt_Parse tok (keyFunc j) rt) as [[token|e] rt1] eqn:Hp.
  - intros _. apply jwt_Parse_keyFunc_Ok in Hp as (alg & c & -> & Halg & _).
    exists alg, c. auto.
  - cbn. intros [Hv|Hv]; discriminate.
Qed.

(** X3.  A token issued by a manager whose secret is another key to the
    MAC is rejected by both validators as a signature failure, before
    the clock is read.  Two secrets are one key when they agree once a
    secret longer than the 64-byte block is replaced by its digest and
    zero bytes at the end are left out. *)
Theorem token_of_another_secret_is_rejected
    (j j' : JWTManager) (claims : TokenClaims) (userID : string) (rt rt' : Runtime) :
  hmac_key "HS256" (secret j) <> hmac_key "HS256" (secret j') ->
  exists access refresh,
    fst (GenerateToken j claims rt) = Ok access /\
    fst (GenerateRefreshToken j userID rt) = Ok refresh /\
    ValidateToken j' access rt' =
      (Err "failed to parse token: token signature is invalid: signature is invalid", rt') /\
    ValidateRefreshToken j' refresh rt' =
      (Err "failed to parse refresh token: token signature is invalid: signature is invalid",
       rt').
Proof.
  intros Hk. rewrite GenerateToken_eq, GenerateRefreshToken_eq.
  eexists; eexists. split; [reflexivity|]. split; [reflexivity|].
  unfold ValidateToken, ValidateRefreshToken, jwt_Parse.
  change (GetSigningMethod "HS256") with (Some (SigningMethodHMAC "HS256")).
  cbn [keyFunc Method Verify].
  rewrite !bool_decide_eq_false_2 by (intros [= Hs]; congruence).
  split; reflexivity.
Qed.

(** X4.  The validity window of an access token.  For a non-empty user
    id (and issue and expiry seconds other than 0, which the library
    reads as "not set"), [ValidateToken] accepts the token exactly from
    the start of the second it was issued in until the start of the
    second its expiry falls in. *)
Theorem access_token_validity_window
    (j : JWTManager) (claims : TokenClaims) (rt rt' : Runtime) :
  let issued := fst (time_Now rt) in
  let now := fst (time_Now rt') in
  UserID claims <> "" ->
  Unix issued <> 0 ->
  Unix (Add issued (expiresIn j)) <> 0 ->
  exists tok,
    fst (GenerateToken j claims rt) = Ok tok /\
    (is_Ok (fst (ValidateToken j tok rt')) = true <->
     time_Unix (Unix issued) <= now < time_Unix (Unix (Add issued (expiresIn j)))).
Proof.
  intros issued now Hid Hi He. rewrite GenerateToken_eq. eexists; split; [reflexivity|].
  fold issued. unfold ValidateToken. rewrite jwt_Parse_signed.
  unfold Validate. destruct (time_Now rt') as [t rt1] eqn:Ht. cbn [fst] in now. subst now.
  unfold verifyExpiresAt, verifyNotBefore, parseNumericDate.
  rewrite accessClaims_exp, accessClaims_nbf.
  apply Z.eqb_neq in Hi, He. rewrite Hi, He. unfold Before.
  destruct (t <? time_Unix (Unix (Add issued (expiresIn j)))) eqn:H1;
    destruct (t <? time_Unix (Unix issued)) eqn:H2; cbn [negb app fst is_Ok];
    try (apply Z.ltb_lt in H1); try (apply Z.ltb_ge in H1);
    try (apply Z.ltb_lt in H2); try (apply Z.ltb_ge in H2).
  - split; [discriminate|lia].
  - cbn [Valid Claims negb]. unfold claim_string. rewrite accessClaims_user_id.
    rewrite json_string_eqb_empty, eqb_empty_false by exact Hid. cbn.
    split; [lia|reflexivity].
  - split; [discriminate|lia].
  - split; [discriminate|lia].
Qed.

(** X5.  Tokens for the empty user id.  Both generators sign a token for
    an empty user id without complaint, and neither validator ever
    accepts it. *)
Theorem empty_user_id_is_never_validated
    (j : JWTManager) (claims : TokenClaims) (rt rt' : Runtime) :
  UserID claims = "" ->
  exists access refresh,
    fst (GenerateToken j claims rt) = Ok access /\
    fst (GenerateRefreshToken j "" rt) = Ok refresh /\
    is_Err (fst (ValidateToken j access rt')) = true /\
    is_Err (fst (ValidateRefreshToken j refresh rt')) = true.
Proof.
  intros Hid. rewrite GenerateToken_eq, GenerateRefreshToken_eq.
  eexists; eexists. split; [reflexivity|]. split; [reflexivity|].
  unfold ValidateToken, ValidateRefreshToken. rewrite !jwt_Parse_signed.
  split.
  - destruct (Validate _ rt') as [[[]|e] rt1]; [|reflexivity].
    cbn [negb Valid Claims]. unfold claim_string at 1.
    rewrite accessClaims_user_id, Hid. reflexivity.
  - destruct (Validate _ rt') as [[[]|e] rt1]; [|reflexivity].
    cbn [negb Valid Claims]. unfold claim_string.
    rewrite refreshClaims_type, refreshClaims_user_id. reflexivity.
Qed.
End TokenEngineMore.

Section TokenExamplesMore.
#[local] Existing Instance short_hash.

Lemma ValidateRefreshToken_GenerateRefreshToken_roundtrip_witness :
  exists tok,
    fst (GenerateRefreshToken demo_jwt "u1" (runtime_at T0)) = Ok tok /\
    fst (ValidateRefreshToken demo_jwt tok (runtime_at (T0 + 29 * 24 * Hour))) =
      Ok (json_string "u1") /\
    (valid_utf8 "u1" ->
     fst (ValidateRefreshToken demo_jwt tok (runtime_at (T0 + 29 * 24 * Hour))) = Ok "u1").
Proof.
  apply (ValidateRefreshToken_GenerateRefreshToken_roundtrip demo_jwt "u1"
           (runtime_at T0) (runtime_at (T0 + 29 * 24 * Hour))).
  - discriminate.
  - vm_compute. reflexivity.
Defined.

Lemma validators_accept_only_own_signature_witness :
  exists alg claims,
    demo_access_token =
      CompactJWS alg claims (HMAC alg (hmac_key alg (secret demo_jwt)) claims) /\
    alg ∈ ["HS256"; "HS384"; "HS512"].
Proof.
  apply (validators_accept_only_own_signature demo_jwt demo_access_token
           (runtime_at (T0 + Hour))).
  left. vm_compute. reflexivity.
Defined.

Lemma token_of_another_secret_is_rejected_witness :
  exists access refresh,
    fst (GenerateToken demo_jwt demo_claims (runtime_at T0)) = Ok access /\
    fst (GenerateRefreshToken demo_jwt "u1" (runtime_at T0)) = Ok refresh /\
    ValidateToken (NewJWTManager "another secret" "gotrust" (24 * Hour)) access
      (runtime_at (T0 + Hour)) =
      (Err "failed to parse token: token signature is invalid: signature is invalid",
       runtime_at (T0 + Hour)) /\
    ValidateRefreshToken (NewJWTManager "another secret" "gotrust" (24 * Hour)) refresh
      (runtime_at (T0 + Hour)) =
      (Err "failed to parse refresh token: token signature is invalid: signature is invalid",
       runtime_at (T0 + Hour)).
Proof.
  apply (token_of_another_secret_is_rejected demo_jwt
           (NewJWTManager "another secret" "gotrust" (24 * Hour))).
  vm_compute. discriminate.
Defined.

Lemma access_token_validity_window_witness :
  exists tok,
    fst (GenerateToken demo_jwt demo_claims (runtime_at T0)) = Ok tok /\
    (is_Ok (fst (ValidateToken demo_jwt tok (runtime_at (T0 + 24 * Hour)))) = true <->
     time_Unix (Unix T0) <= T0 + 24 * Hour < time_Unix (Unix (Add T0 (24 * Hour)))).
Proof.
  apply (access_token_validity_window demo_jwt demo_claims (runtime_at T0)
           (runtime_at (T0 + 24 * Hour))); vm_compute; discriminate.
Defined.

Lemma empty_user_id_is_never_validated_witness :
  exists access refresh,
    fst (GenerateToken demo_jwt {| UserID := ""; Email := "a@b.com"; Name := "";
                                   Provider := "local" |} (runtime_at T0)) = Ok access /\
    fst (GenerateRefreshToken demo_jwt "" (runtime_at T0)) = Ok refresh /\
    is_Err (fst (ValidateToken demo_jwt access (runtime_at (T0 + Hour)))) = true /\
    is_Err (fst (ValidateRefreshToken demo_jwt refresh (runtime_at (T0 + Hour)))) = true.
Proof.
  apply (empty_user_id_is_never_validated demo_jwt). reflexivity.
Defined.
End TokenExamplesMore.

(** * Further properties of the in-memory store *)

Section MemoryStoreLifecycle.
Context {A : Type} `{Marshal A} `{Unmarshal A}.

(** X6.  Life of an entry.  A value whose encoding decodes back to it,
    written with [Set], is returned by every [Get] whose reading of the
    clock is not after the writing instant plus the time to live, and
    [Get] then leaves the store as it is; a [Get] after that instant
    fails with "key expired" and removes the entry. *)
Theorem MemorySessionStore_Set_then_Get
    (key : string) (v : A) (doc : gmap string JVal) (ttl : Duration)
    (m : MemorySessionStore) (rt rt' : Runtime) :
  json_Marshal v = Ok doc ->
  json_Unmarshal doc = Ok v ->
  let m1 := snd (fst (MemorySessionStore_Set key v ttl m rt)) in
  let written := fst (time_Now rt) in
  let read := fst (time_Now rt') in
  fst (fst (MemorySessionStore_Set key v ttl m rt)) = Ok tt /\
  (read <= written + ttl ->
   MemorySessionStore_Get key m1 rt' = (Ok v, m1, snd (time_Now rt'))) /\
  (written + ttl < read ->
   MemorySessionStore_Get (A:=A) key m1 rt' =
     (Err "key expired", {| store := delete key (store m1) |}, snd (time_Now rt')) /\
   store (snd (fst (MemorySessionStore_Get (A:=A) key m1 rt'))) !! key = None).
Proof.
  intros Hm Hu m1 written read. subst m1.
  rewrite (MemorySessionStore_Set_lookup key v ttl m rt doc Hm). cbn [fst snd].
  set (item := {| value := doc; expiresAt := Add (fst (time_Now rt)) ttl |}).
  set (m1 := {| store := <[key := item]> (store m) |}).
  assert (store m1 !! key = Some item) as Hk by apply lookup_insert_eq.
  split; [reflexivity|]. split.
  - intros Hle. rewrite (MemorySessionStore_Get_live key m1 rt' item Hk).
    + cbn [value item]. rewrite Hu. reflexivity.
    + unfold After. apply Z.ltb_ge. exact Hle.
  - intros Hlt.
    assert (After (fst (time_Now rt')) (expiresAt item) = true) as Ha.
    { unfold After. apply Z.ltb_lt. exact Hlt. }
    rewrite (MemorySessionStore_Get_expired key m1 rt' item Hk Ha).
    split; [reflexivity|]. cbn [fst snd store]. apply lookup_delete_eq.
Qed.
End MemoryStoreLifecycle.

Lemma MemorySessionStore_Set_then_Get_witness :
  MemorySessionStore_Get "session:s1"
    (snd (fst (MemorySessionStore_Set "session:s1"
                 {| Session_UserID := "u1"; Session_Email := "a@b.com";
                    Session_CreatedAt := T0; Session_ExpiresAt := T0 + Hour |}
                 Hour NewMemorySessionStore (runtime_at T0))))
    (runtime_at (T0 + Hour)) =
  (Ok {| Session_UserID := "u1"; Session_Email := "a@b.com";
         Session_CreatedAt := T0; Session_ExpiresAt := T0 + Hour |},
   snd (fst (MemorySessionStore_Set "session:s1"
               {| Session_UserID := "u1"; Session_Email := "a@b.com";
                  Session_CreatedAt := T0; Session_ExpiresAt := T0 + Hour |}
               Hour NewMemorySessionStore (runtime_at T0))),
   runtime_at (T0 + Hour)).
Proof.
  refine (proj1 (proj2 (MemorySessionStore_Set_then_Get "session:s1"
            {| Session_UserID := "u1"; Session_Email := "a@b.com";
               Session_CreatedAt := T0; Session_ExpiresAt := T0 + Hour |}
            (<["user_id" := JString "u1"]>
             (<["email" := JString "a@b.com"]>
             (<["created_at" := JTime T0]>
             (<["expires_at" := JTime (T0 + Hour)]> ∅))))
            Hour NewMemorySessionStore (runtime_at T0) (runtime_at (T0 + Hour)) _ _)) _).
  - reflexivity.
  - vm_compute. reflexivity.
  - vm_compute. discriminate.
Defined.

Lemma lookup_foldl_delete {V : Type} (keys : list string) :
  forall (m : gmap string V) (k : string),
    foldl (fun acc key => delete key acc) m keys !! k =
    if bool_decide (k ∈ keys) then None else m !! k.
Proof.
  induction keys as [|key keys IH]; intros m k; cbn [foldl].
  - rewrite bool_decide_eq_false_2 by apply not_elem_of_nil. reflexivity.
  - rewrite IH. destruct (decide (k = key)) as [->|Hne].
    + rewrite lookup_delete_eq.
      rewrite (bool_decide_eq_true_2 (key ∈ key :: keys)) by (left).
      destruct (bool_decide (key ∈ keys)); reflexivity.
    + rewrite lookup_delete_ne by congruence.
      destruct (decide (k ∈ keys)) as [Hin|Hnin].
      * rewrite !bool_decide_eq_true_2; [reflexivity| right; exact Hin | exact Hin].
      * rewrite !bool_decide_eq_false_2; [reflexivity| |exact Hnin].
        intros [?|?]%elem_of_cons; congruence.
Qed.

(** X7.  [Delete] never fails and never reads the clock; afterwards each
    of the given keys is absent, so a [Get] of it answers "key not
    found", every other key holds what it held, and deleting the same
    keys again changes nothing. *)
Theorem MemorySessionStore_Delete_spec
    (keys : list string) (m : MemorySessionStore) (rt : Runtime) :
  let m1 := snd (fst (MemorySessionStore_Delete keys m rt)) in
  MemorySessionStore_Delete keys m rt = (Ok tt, m1, rt) /\
  (forall k : string,
     store m1 !! k = if bool_decide (k ∈ keys) then None else store m !! k) /\
  (forall (A : Type) (HA : Unmarshal A) (k : string) (rt' : Runtime),
     k ∈ keys ->
     MemorySessionStore_Get (A:=A) k m1 rt' = (Err "key not found", m1, rt')) /\
  MemorySessionStore_Delete keys m1 rt = (Ok tt, m1, rt).
Proof.
  intros m1. subst m1. unfold MemorySessionStore_Delete. cbn [fst snd store].
  assert (forall k : string,
            foldl (fun acc key => delete key acc) (store m) keys !! k =
            if bool_decide (k ∈ keys) then None else store m !! k) as Hl
    by apply lookup_foldl_delete.
  split; [reflexivity|]. split; [exact Hl|]. split.
  - intros A HA k rt' Hin. apply MemorySessionStore_Get_absent. cbn [store].
    rewrite Hl, bool_decide_eq_true_2 by exact Hin. reflexivity.
  - f_equal. f_equal. f_equal. apply map_eq. intros k.
    rewrite lookup_foldl_delete, Hl. destruct (bool_decide (k ∈ keys)); reflexivity.
Qed.

(** X8.  Keys do not interfere: a [Set] or a [Get] on one key, even the
    [Get] that evicts its expired entry, leaves the entry of every other
    key as it was. *)
Theorem MemorySessionStore_frame {A : Type} `{Marshal A} `{Unmarshal A}
    (key other : string) (v : A) (ttl : Duration) (m : MemorySessionStore) (rt : Runtime) :
  key <> other ->
  store (snd (fst (MemorySessionStore_Set key v ttl m rt))) !! other = store m !! other /\
  store (snd (fst (MemorySessionStore_Get (A:=A) key m rt))) !! other = store m !! other.
Proof.
  intros Hne. split.
  - unfold MemorySessionStore_Set. destruct (json_Marshal v); [|reflexivity].
    destruct (time_Now rt) as [now rt1]. cbn [fst snd store].
    apply lookup_insert_ne. exact Hne.
  - unfold MemorySessionStore_Get. destruct (store m !! key) as [item|]; [|reflexivity].
    destruct (time_Now rt) as [now rt1].
    destruct (After now (expiresAt item)); cbn [fst snd store]; [|reflexivity].
    apply lookup_delete_ne. exact Hne.
Qed.

Lemma MemorySessionStore_frame_witness :
  store (snd (fst (MemorySessionStore_Get (A:=SessionData)
                     (key_of "session" demo_state) (w_store world_with_session)
                     (runtime_at (T0 + 48 * Hour)))))
    !! "oauth:state:pending" =
  store (w_store world_with_session) !! "oauth:state:pending".
Proof.
  refine (proj2 (MemorySessionStore_frame (A:=SessionData)
                   (key_of "session" demo_state) "oauth:state:pending"
                   {| Session_UserID := ""; Session_Email := "";
                      Session_CreatedAt := 0; Session_ExpiresAt := 0 |} 0
                   (w_store world_with_session) (runtime_at (T0 + 48 * Hour)) _)).
  vm_compute. discriminate.
Defined.

Lemma Exists_loop_spec (keys : list string) (m : MemorySessionStore) :
  forall rt : Runtime,
    let b := fst (MemorySessionStore_Exists_loop keys m rt) in
    let rt1 := snd (MemorySessionStore_Exists_loop keys m rt) in
    rt_now rt <= rt_now rt1 /\
    (b = true ->
     exists key item, key ∈ keys /\ store m !! key = Some item /\
                      rt_now rt1 <= expiresAt item) /\
    (b = false ->
     forall key item, key ∈ keys -> store m !! key = Some item ->
                      expiresAt item < rt_now rt1).
Proof.
  induction keys as [|key keys IH]; intros rt; cbn [MemorySessionStore_Exists_loop].
  - cbn. split; [lia|]. split; [discriminate|]. intros _ key item Hin.
    apply elem_of_nil in Hin. contradiction.
  - destruct (store m !! key) as [item|] eqn:Hk.
    + pose proof (time_Now_le rt) as Hle. pose proof (time_Now_now rt) as Hnow.
      destruct (time_Now rt) as [now rt1]. cbn [fst snd] in Hle, Hnow.
      destruct (After now (expiresAt item)) eqn:Ha.
      * specialize (IH rt1). cbv zeta in IH. destruct IH as (IH0 & IHt & IHf).
        split; [lia|]. split.
        -- intros Hb. destruct (IHt Hb) as (k & it & Hin & Hl & Hx).
           exists k, it. split; [right; exact Hin|]. auto.
        -- intros Hb k it Hin Hl. apply elem_of_cons in Hin as [->|Hin].
           ++ rewrite Hk in Hl. injection Hl as <-.
              unfold After in Ha. apply Z.ltb_lt in Ha. lia.
           ++ apply (IHf Hb k it Hin Hl).
      * cbn [fst snd]. split; [lia|]. split; [|discriminate].
        intros _. exists key, item. split; [left|]. split; [exact Hk|].
        unfold After in Ha. apply Z.ltb_ge in Ha. lia.
    + specialize (IH rt). cbv zeta in IH. destruct IH as (IH0 & IHt & IHf).
      split; [exact IH0|]. split.
      * intros Hb. destruct (IHt Hb) as (k & it & Hin & Hl & Hx).
        exists k, it. split; [right; exact Hin|]. auto.
      * intros Hb k it Hin Hl. apply elem_of_cons in Hin as [->|Hin].
        -- rewrite Hk in Hl. discriminate.
        -- apply (IHf Hb k it Hin Hl).
Qed.

(** X9.  [Exists] never fails and never changes the store, not even to
    evict what it finds expired.  When it answers true, one of the keys
    has an entry that had not expired when the call returned; when it
    answers false, every key that has an entry had expired by then. *)
Theorem MemorySessionStore_Exists_spec
    (keys : list string) (m : MemorySessionStore) (rt : Runtime) :
  exists (b : bool) (rt1 : Runtime),
    MemorySessionStore_Exists keys m rt = (Ok b, m, rt1) /\
    (b = true ->
     exists key item, key ∈ keys /\ store m !! key = Some item /\
                      rt_now rt1 <= expiresAt item) /\
    (b = false ->
     forall key item, key ∈ keys -> store m !! key = Some item ->
                      expiresAt item < rt_now rt1).
Proof.
  unfold MemorySessionStore_Exists.
  pose proof (Exists_loop_spec keys m rt) as Hs. cbv zeta in Hs.
  destruct (MemorySessionStore_Exists_loop keys m rt) as [b rt1]. cbn [fst snd] in Hs.
  exists b, rt1. split; [reflexivity|]. destruct Hs as (_ & Ht & Hf). auto.
Qed.


(** * Further properties of identifiers, sessions and OAuth states *)

Lemma length_string_of_list_ascii (l : list ascii) :
  String.length (string_of_list_ascii l) = length l.
Proof. induction l as [|c l IH]; simpl; [reflexivity|]. rewrite IH. reflexivity. Qed.

Lemma get_In (s : string) : forall (i : nat) (c : ascii),
  String.get i s = Some c -> In c (list_ascii_of_string s).
Proof.
  induction s as [|c0 s IH]; intros i c; simpl; [discriminate|].
  destruct i as [|i].
  - intros [= ->]. left. reflexivity.
  - intros Hg. right. apply (IH i c Hg).
Qed.

Lemma charset_at_In (b : N) : In (charset_at b) (list_ascii_of_string charset).
Proof.
  unfold charset_at.
  destruct (String.get _ charset) as [c|] eqn:Hg.
  - apply (get_In _ _ _ Hg).
  - left. reflexivity.
Qed.

(** X11.  Random identifiers.  When the entropy source delivers, the
    string [generateRandomString] returns has exactly the length asked
    for and is made of characters of the 62-character alphabet only; the
    call consumes that many bytes of entropy and does not read the
    clock. *)
Theorem generateRandomString_alphanumeric (n : nat) (rt : Runtime) :
  (n <= length (rt_entropy rt))%nat ->
  let s := fst (generateRandomString n rt) in
  let rt1 := snd (generateRandomString n rt) in
  String.length s = n /\
  (forall c : ascii, In c (list_ascii_of_string s) ->
                     In c (list_ascii_of_string charset)) /\
  rt_entropy rt1 = drop n (rt_entropy rt) /\
  rt_now rt1 = rt_now rt /\ rt_elapse rt1 = rt_elapse rt.
Proof.
  intros Hn. unfold generateRandomString, rand_Read.
  assert ((n <=? length (rt_entropy rt))%nat = true) as -> by (apply Nat.leb_le; exact Hn).
  cbn [fst snd rt_entropy rt_now rt_elapse]. split.
  - rewrite length_string_of_list_ascii, length_map, length_take. lia.
  - split; [|repeat split].
    intros c. rewrite list_ascii_of_string_of_list_ascii.
    intros Hin. apply in_map_iff in Hin as (b & <- & _). apply charset_at_In.
Qed.

Lemma generateRandomString_alphanumeric_witness :
  String.length (fst (generateRandomString 32 (demo_runtime T0 []))) = 32%nat /\
  fst (generateRandomString 32 (demo_runtime T0 [])) = demo_state.
Proof.
  split; [|vm_compute; reflexivity].
  apply (generateRandomString_alphanumeric 32 (demo_runtime T0 [])).
  vm_compute. lia.
Defined.

Lemma key_of_namespaces (sessionID state : string) :
  key_of "session" sessionID <> key_of "oauth:state" state.
Proof. unfold key_of. cbn. discriminate. Qed.

Section MemoryWorldMore.
Context {U Net : Type} `{OAuthNetwork Net}.

Local Abbreviation W := (World MemorySessionStore U Net).

(** [CreateSession] over the in-memory store, call by call. *)
Lemma CreateSession_memory (s : SessionManager) (userID email : string)
    (duration : Duration) (w : W) :
  let sessionID := fst (generateRandomString 32 (w_rt w)) in
  let rt1 := snd (generateRandomString 32 (w_rt w)) in
  let doc : gmap string JVal :=
    <["user_id" := JString (json_string userID)]>
    (<["email" := JString (json_string email)]>
    (<["created_at" := JTime (time_after 1 rt1)]>
    (<["expires_at" := JTime (Add (time_after 2 rt1) duration)]> ∅))) in
  CreateSession s userID email duration w =
    (Ok sessionID,
     mkWorld (snd (time_Now (snd (time_Now (snd (time_Now rt1))))))
       {| store := <[key_of (prefix s) sessionID :=
                      {| value := doc; expiresAt := Add (time_after 3 rt1) duration |}]>
                   (store (w_store w)) |}
       (w_users w) (w_net w)).
Proof.
  cbv zeta. unfold CreateSession, bind, liftRT, liftStore, ret.
  destruct (generateRandomString 32 (w_rt w)) as [sessionID rt1].
  cbn [fst snd w_rt w_store w_users w_net].
  change (time_after 3 rt1) with (time_after 1 (snd (time_Now (snd (time_Now rt1))))).
  change (time_after 2 rt1) with (time_after 1 (snd (time_Now rt1))).
  rewrite !time_after_1.
  destruct (time_Now rt1) as [createdAt rt2]. cbn [fst snd w_rt w_store w_users w_net].
  destruct (time_Now rt2) as [now rt3]. cbn [fst snd w_rt w_store w_users w_net].
  cbn [store_Set MemorySessionStore_SessionStore].
  unfold MemorySessionStore_Set, json_Marshal, SessionData_Marshal.
  cbn [Session_UserID Session_Email Session_CreatedAt Session_ExpiresAt].
  destruct (time_Now rt3) as [now3 rt4]. cbn [fst snd]. reflexivity.
Qed.

Lemma time_after_le_2 (rt : Runtime) : time_after 1 rt <= time_after 2 rt.
Proof. apply (time_after_mono 1). Qed.

Lemma time_after_le_3 (rt : Runtime) : time_after 2 rt <= time_after 3 rt.
Proof. apply (time_after_mono 2). Qed.

(** X12.  Round trip of a session.  Over the in-memory store
    [CreateSession] always succeeds and returns the identifier it drew;
    [GetSession] for that identifier, as long as the clock has not passed
    the session's [ExpiresAt], returns the session with the user id and
    email it was created for as JSON carries them, every byte that is not
    well-formed UTF-8 replaced by U+FFFD: the very user id and email when
    they are well-formed UTF-8. *)
Theorem GetSession_CreateSession_roundtrip
    (s : SessionManager) (userID email : string) (duration : Duration) (w : W)
    (rt2 : Runtime) (u2 : U) (n2 : Net) :
  let sessionID := fst (generateRandomString 32 (w_rt w)) in
  let rt1 := snd (generateRandomString 32 (w_rt w)) in
  let sessionData :=
    {| Session_UserID := json_string userID; Session_Email := json_string email;
       Session_CreatedAt := time_after 1 rt1;
       Session_ExpiresAt := Add (time_after 2 rt1) duration |} in
  let w1 := snd (CreateSession s userID email duration w) in
  fst (CreateSession s userID email duration w) = Ok sessionID /\
  (time_after 2 rt2 <= Session_ExpiresAt sessionData ->
   fst (GetSession s sessionID (mkWorld rt2 (w_store w1) u2 n2)) = Ok sessionData) /\
  (valid_utf8 userID -> valid_utf8 email ->
   Session_UserID sessionData = userID /\ Session_Email sessionData = email).
Proof.
  intros sessionID rt1 sessionData w1. subst w1.
  rewrite CreateSession_memory. cbv zeta. fold sessionID rt1. cbn [fst snd w_store].
  split; [reflexivity|].
  split; [|intros Hu He; cbn [sessionData Session_UserID Session_Email]; split; assumption].
  intros Hle. cbn [Session_ExpiresAt sessionData] in Hle.
  rewrite GetSession_memory. cbv zeta. cbn [w_store w_rt w_users w_net].
  erewrite MemorySessionStore_Get_live; [| apply lookup_insert_eq |].
  - cbn [value]. unfold json_Unmarshal, SessionData_Unmarshal, field_string, field_time.
    rewrite lookup_insert_eq.
    rewrite lookup_insert_ne by discriminate. rewrite lookup_insert_eq.
    do 2 (rewrite lookup_insert_ne by discriminate). rewrite lookup_insert_eq.
    do 3 (rewrite lookup_insert_ne by discriminate). rewrite lookup_insert_eq.
    cbn [fst snd].
    assert (After (fst (time_Now (snd (time_Now rt2)))) (Add (time_after 2 rt1) duration)
            = false) as Ha.
    { unfold After. apply Z.ltb_ge.
      change (time_after 2 rt2) with (time_after 1 (snd (time_Now rt2))) in Hle.
      rewrite time_after_1 in Hle. exact Hle. }
    cbn [Session_ExpiresAt]. rewrite Ha. reflexivity.
  - cbn [expiresAt]. unfold After. apply Z.ltb_ge.
    pose proof (time_after_le_2 rt2). pose proof (time_after_le_3 rt1).
    rewrite time_after_1 in *. unfold Add in *. lia.
Qed.

Lemma InvalidateSession_memory (s : SessionManager) (sessionID : string) (w : W) :
  InvalidateSession s sessionID w =
    (Ok tt,
     mkWorld (w_rt w) {| store := delete (key_of (prefix s) sessionID) (store (w_store w)) |}
             (w_users w) (w_net w)).
Proof. reflexivity. Qed.

(** X13.  Logging out.  [Logout] with a session id deletes the session
    and cannot fail over the in-memory store: every later [GetSession]
    for the id answers not found, the other keys of the store keep their
    entries, and a second [Logout] changes nothing more.  [Logout] with
    the empty id does nothing at all. *)
Theorem Logout_invalidates_session (a : AuthService) (sessionID : string) (w : W) :
  let key := key_of (prefix (sessionManager a)) sessionID in
  let w1 := snd (Logout a sessionID w) in
  Logout a "" w = (Ok tt, w) /\
  (sessionID <> "" ->
   fst (Logout a sessionID w) = Ok tt /\
   (forall (rt2 : Runtime) (u2 : U) (n2 : Net),
      fst (GetSession (sessionManager a) sessionID (mkWorld rt2 (w_store w1) u2 n2)) =
        Err "session not found: key not found") /\
   (forall other : string, other <> key ->
      store (w_store w1) !! other = store (w_store w) !! other) /\
   w_store (snd (Logout a sessionID w1)) = w_store w1).
Proof.
  intros key w1. split; [reflexivity|].
  intros Hid. subst w1. unfold Logout. rewrite (eqb_empty_false _ Hid). cbn [negb].
  rewrite !InvalidateSession_memory. cbn [fst snd w_store store]. fold key.
  split; [reflexivity|]. split; [|split].
  - intros rt2 u2 n2. apply GetSession_absent. cbn [w_store store].
    apply lookup_delete_eq.
  - intros other Hne. apply lookup_delete_ne. congruence.
  - f_equal. apply map_eq. intros k. destruct (decide (k = key)) as [->|Hne].
    + rewrite !lookup_delete_eq. reflexivity.
    + rewrite !lookup_delete_ne by congruence. reflexivity.
Qed.

(** X14.  Sessions and OAuth states share one store without meeting: in
    a service built by [NewAuthService], creating a session changes the
    entry of no OAuth state, and issuing an authorization URL changes the
    entry of no session. *)
Theorem sessions_and_states_do_not_collide
    (config : Config) (userID email : string) (duration : Duration)
    (provider redirectURI sessionID state : string) (w : W) :
  let a := NewAuthService config in
  store (w_store (snd (CreateSession (sessionManager a) userID email duration w)))
    !! key_of (statePrefix (oauthManager a)) state =
  store (w_store w) !! key_of (statePrefix (oauthManager a)) state /\
  store (w_store (snd (GetAuthURL (oauthManager a) provider redirectURI w)))
    !! key_of (prefix (sessionManager a)) sessionID =
  store (w_store w) !! key_of (prefix (sessionManager a)) sessionID.
Proof.
  cbv zeta. split.
  - rewrite CreateSession_memory. cbv zeta. cbn [snd w_store store].
    apply lookup_insert_ne. apply key_of_namespaces.
  - rewrite GetAuthURL_memory. cbv zeta. cbn [snd w_store store].
    apply lookup_insert_ne. intros Heq. symmetry in Heq.
    exact (key_of_namespaces _ _ Heq).
Qed.

(** X15.  Round trip of an OAuth state.  With a Google client id
    configured, [GetAuthURL] answers the Google authorization endpoint
    with the client id, the response type "code" and the state value it
    stored; as long as the clock has not passed the state's expiry,
    validating that state value gives back the redirect target the URL
    was requested for as JSON carries it, every byte that is not
    well-formed UTF-8 replaced by U+FFFD: the very redirect target when
    it is well-formed UTF-8. *)
Theorem validateState_GetAuthURL_roundtrip
    (o : OAuthManager) (redirectURI : string) (w : W)
    (rt2 : Runtime) (u2 : U) (n2 : Net) :
  let state := fst (generateRandomString 32 (w_rt w)) in
  let rt1 := snd (generateRandomString 32 (w_rt w)) in
  let expiry := Add (time_after 1 rt1) (OAuthStateExpiration (oauth_config o)) in
  let w1 := snd (GetAuthURL o ProviderGoogle redirectURI w) in
  GoogleClientID (oauth_config o) <> "" ->
  (exists url,
     fst (GetAuthURL o ProviderGoogle redirectURI w) = Ok url /\
     endpoint url = "https://accounts.google.com/o/oauth2/auth" /\
     In ("client_id", GoogleClientID (oauth_config o)) (params url) /\
     In ("response_type", "code") (params url) /\
     In ("state", state) (params url)) /\
  (time_after 2 rt2 <= expiry ->
   fst (validateState o state (mkWorld rt2 (w_store w1) u2 n2)) =
     Ok (json_string redirectURI) /\
   (valid_utf8 redirectURI ->
    fst (validateState o state (mkWorld rt2 (w_store w1) u2 n2)) = Ok redirectURI)).
Proof.
  intros state rt1 expiry w1 Hid. subst w1.
  rewrite GetAuthURL_memory. cbv zeta. fold state rt1. cbn [fst snd w_store].
  rewrite String.eqb_refl. split.
  - unfold getGoogleAuthURL. rewrite (eqb_empty_false _ Hid).
    eexists. split; [reflexivity|]. cbn [endpoint params].
    split; [reflexivity|]. cbn [In]. auto 10.
  - intros Hle.
    match goal with |- ?lhs = _ /\ _ =>
      assert (Hval : lhs = Ok (json_string redirectURI));
        [|split; [exact Hval|intros Hu; rewrite Hval, Hu; reflexivity]]
    end.
    apply (validateState_pending o state _
             {| value := <["state" := JString (json_string state)]>
                         (<["redirect_uri" := JString (json_string redirectURI)]>
                         (<["expires_at" := JTime expiry]> ∅));
                expiresAt := Add (time_after 2 rt1) (OAuthStateExpiration (oauth_config o)) |}
             {| State := json_string state; RedirectURI := json_string redirectURI;
                State_ExpiresAt := expiry |}).
    + cbn [w_store store]. apply lookup_insert_eq.
    + cbn [value]. unfold json_Unmarshal, OAuthState_Unmarshal, field_string, field_time.
      rewrite lookup_insert_eq.
      rewrite lookup_insert_ne by discriminate. rewrite lookup_insert_eq.
      do 2 (rewrite lookup_insert_ne by discriminate). rewrite lookup_insert_eq.
      reflexivity.
    + cbn [w_rt expiresAt]. pose proof (time_after_le_2 rt2).
      pose proof (time_after_le_2 rt1). unfold expiry, Add in *. lia.
    + cbn [w_rt State_ExpiresAt]. exact Hle.
Qed.

End MemoryWorldMore.

Lemma Logout_invalidates_session_witness :
  fst (Logout demo_service demo_state world_with_session) = Ok tt /\
  fst (GetSession demo_sessions demo_state
         (later (snd (Logout demo_service demo_state world_with_session)) (T0 + Minute))) =
    Err "session not found: key not found".
Proof.
  destruct (Logout_invalidates_session demo_service demo_state world_with_session)
    as [_ Hout].
  destruct Hout as (Hok & Hgone & _); [discriminate|].
  split; [exact Hok|apply Hgone].
Defined.

Lemma validateState_GetAuthURL_roundtrip_witness :
  (exists url,
     fst (GetAuthURL demo_oauth ProviderGoogle "/welcome"
            (demo_world (demo_runtime T0 [0; 1000]%N))) = Ok url /\
     In ("state", demo_state) (params url)) /\
  fst (validateState demo_oauth demo_state (later world_with_state (T0 + 10 * Minute))) =
    Ok "/welcome".
Proof.
  destruct (validateState_GetAuthURL_roundtrip demo_oauth "/welcome"
              (demo_world (demo_runtime T0 [0; 1000]%N))
              (runtime_at (T0 + 10 * Minute)) demo_users {| answers := [Ok demo_info] |})
    as [(url & Hurl & _ & _ & _ & Hstate) Hvalid]; [discriminate|].
  split.
  - exists url. split; [exact Hurl|exact Hstate].
  - apply Hvalid; [vm_compute; discriminate|reflexivity].
Defined.

(** * Further properties of the authentication service *)

Section OrchestratorMore.
Context {S U Net : Type}.
Context `{SessionStore S} `{UserStore U} `{OAuthNetwork Net} `{BCrypt} `{Hash}.

Local Abbreviation W := (World S U Net).

Lemma CreateSession_users (s : SessionManager) (userID email : string)
    (duration : Duration) (w : W) :
  w_users (snd (CreateSession s userID email duration w)) = w_users w /\
  w_net (snd (CreateSession s userID email duration w)) = w_net w.
Proof.
  unfold CreateSession, bind, liftRT, liftStore, ret.
  destruct (generateRandomString 32 (w_rt w)) as [sessionID rt1].
  cbn [fst snd w_rt w_store w_users w_net].
  destruct (time_Now rt1) as [createdAt rt2]. cbn [fst snd w_rt w_store w_users w_net].
  destruct (time_Now rt2) as [now rt3]. cbn [fst snd w_rt w_store w_users w_net].
  destruct (store_Set _ _ _ _ _) as [[[[]|e] s1] rt4]; split; reflexivity.
Qed.

(** In this model both generators always sign, so [generateAuthResponse]
    always answers: with the user it was given, the access token of the
    first reading of the clock and the refresh token of the second. *)
Lemma generateAuthResponse_eq (a : AuthService) (user : User) (w : W) :
  let j := jwtManager a in
  let t1 := time_after 1 (w_rt w) in
  let t2 := time_after 2 (w_rt w) in
  fst (generateAuthResponse a user w) =
    Ok (authResponse (auth_config a) user
          (CompactJWS "HS256" (accessClaims j (userClaims user) t1)
             (HMAC "HS256" (hmac_key "HS256" (secret j))
                (accessClaims j (userClaims user) t1)))
          (CompactJWS "HS256" (refreshClaims j (User_ID user) t2)
             (HMAC "HS256" (hmac_key "HS256" (secret j))
                (refreshClaims j (User_ID user) t2)))) /\
  w_users (snd (generateAuthResponse a user w)) = w_users w.
Proof.
  cbv zeta.
  change (time_after 2 (w_rt w)) with (time_after 1 (snd (time_Now (w_rt w)))).
  rewrite !time_after_1.
  pose proof (generateAuthResponse_tokens a user w _ _ _ _
                (GenerateToken_eq (jwtManager a) (userClaims user) (w_rt w))
                (GenerateRefreshToken_eq (jwtManager a) (User_ID user)
                   (snd (time_Now (w_rt w))))) as Hg.
  cbv zeta in Hg. rewrite Hg. cbn [fst snd]. split; [reflexivity|].
  match goal with
  | |- context [CreateSession ?s ?u ?e ?d ?w0] =>
      pose proof (CreateSession_users s u e d w0) as [Hu _];
      destruct (CreateSession s u e d w0) as [[sid|err] w3]
  end; cbn [fst snd w_users] in *; exact Hu.
Qed.

Lemma ValidateCallback_users (o : OAuthManager) (provider state code : string) (w : W) :
  w_users (snd (ValidateCallback o provider state code w)) = w_users w.
Proof.
  unfold ValidateCallback, validateState, bind, ret, liftStore, liftRT, liftNet.
  destruct (store_Get _ (w_store w) (w_rt w)) as [[[sd|e] s1] rt1];
    cbn [fst snd w_rt w_store w_users w_net]; [|reflexivity].
  destruct (store_Delete _ s1 rt1) as [[r s2] rt2]. cbn [fst snd w_rt w_store w_users w_net].
  destruct (time_Now rt2) as [now rt3]. cbn [fst snd w_rt w_store w_users w_net].
  destruct (After now (State_ExpiresAt sd)); cbn [fst snd w_users]; [reflexivity|].
  destruct (String.eqb provider ProviderGoogle).
  - cbn [w_net]. destruct (handleGoogleCallback _ code _) as [[u|e] n]; reflexivity.
  - destruct (String.eqb provider ProviderGitHub); [|reflexivity].
    cbn [w_net]. destruct (handleGitHubCallback _ code _) as [[u|e] n]; reflexivity.
Qed.

(** X16.  An OAuth profile without an email address is refused: when the
    callback validates and the provider's profile has an empty email,
    [OAuthSignIn] fails with "email is required from OAuth provider"
    and the user store is not consulted or changed. *)
Theorem OAuthSignIn_requires_email
    (a : AuthService) (provider state code : string) (w w1 : W)
    (oauthUser : OAuthUserInfo) (redirectURI : string) :
  ValidateCallback (oauthManager a) provider state code w
    = ((Some oauthUser, redirectURI, None), w1) ->
  OAuth_Email oauthUser = "" ->
  OAuthSignIn a provider state code w =
    (Err "email is required from OAuth provider", w1) /\
  w_users w1 = w_users w.
Proof.
  intros Hcb He. split.
  - unfold OAuthSignIn, bind, ret. rewrite Hcb, He. reflexivity.
  - pose proof (ValidateCallback_users (oauthManager a) provider state code w) as Hu.
    rewrite Hcb in Hu. exact Hu.
Qed.

(** X17.  The sign-up switch.  [NewConfig] allows sign-up exactly when
    ALLOW_SIGNUP is unset, empty or the string "true" (any other value,
    "TRUE" or "1" included, turns it off), and with sign-up off [SignUp]
    of a service built from that configuration fails with "signup is
    disabled" and changes nothing. *)
Theorem NewConfig_signup_switch (env : gmap string string) :
  let config := NewConfig env in
  (AllowSignup config = true <->
   os_Getenv env "ALLOW_SIGNUP" = "" \/ os_Getenv env "ALLOW_SIGNUP" = "true") /\
  (AllowSignup config = false ->
   forall (req : SignUpRequest) (w : W),
     SignUp (NewAuthService config) req w = (Err "signup is disabled", w)).
Proof.
  cbv zeta. split.
  - cbn [AllowSignup NewConfig]. unfold getEnv.
    destruct (String.eqb_spec (os_Getenv env "ALLOW_SIGNUP") "") as [->|Hne]; cbn [negb].
    + split; [auto|reflexivity].
    + rewrite String.eqb_eq. split; [auto|]. intros [He|He]; congruence.
  - intros Hoff req w. unfold SignUp. cbn [auth_config NewAuthService].
    rewrite Hoff. reflexivity.
Qed.
End OrchestratorMore.

Section OrchestratorExamples.
#[local] Existing Instance plain_bcrypt.
#[local] Existing Instance short_hash.

Lemma OAuthSignIn_requires_email_witness :
  fst (OAuthSignIn demo_service ProviderGoogle demo_state "code"
         (mkWorld (runtime_at (T0 + Minute)) (w_store world_with_state) demo_users
            {| answers := [Ok {| OAuth_ID := "1001"; OAuth_Email := ""; OAuth_Name := "Ann";
                                 OAuth_AvatarURL := ""; OAuth_Provider := "google" |}] |})) =
    Err "email is required from OAuth provider".
Proof.
  refine (f_equal fst (proj1 (OAuthSignIn_requires_email demo_service ProviderGoogle
            demo_state "code" _ _ _ _ _ _))).
  - vm_compute. reflexivity.
  - reflexivity.
Defined.
End OrchestratorExamples.

(** X18.  What [NewConfig] fixes.  Whatever the environment, the token
    lifetime is 24 hours, the OAuth state lifetime 10 minutes and the
    bcrypt cost 10; the issuer, the two provider redirect URIs and the
    two front-end URLs are never empty, an empty variable falling back
    to its default like an unset one; the signing secret alone has no
    default and is empty when JWT_SECRET is unset or empty. *)
Theorem NewConfig_defaults (env : gmap string string) :
  let config := NewConfig env in
  JWTExpiration config = 24 * Hour /\
  OAuthStateExpiration config = 10 * Minute /\
  BCryptCost config = 10 /\
  JWTIssuer config <> "" /\
  GoogleRedirectURI config <> "" /\ GitHubRedirectURI config <> "" /\
  FrontendSuccessURL config <> "" /\ FrontendErrorURL config <> "" /\
  JWTSecret config = os_Getenv env "JWT_SECRET".
Proof.
  assert (forall key d, d <> "" -> getEnv env key d <> "") as Hd.
  { intros key d Hne. unfold getEnv.
    destruct (String.eqb_spec (os_Getenv env key) "") as [_|Hv]; cbn [negb]; assumption. }
  cbv zeta. cbn [NewConfig JWTExpiration OAuthStateExpiration BCryptCost JWTIssuer
                 GoogleRedirectURI GitHubRedirectURI FrontendSuccessURL FrontendErrorURL
                 JWTSecret].
  repeat split; try (apply Hd; discriminate).
  unfold getEnv.
  destruct (String.eqb_spec (os_Getenv env "JWT_SECRET") "") as [->|Hv]; reflexivity.
Qed.

Section Inversions.
Context {S U Net : Type}.
Context `{SessionStore S} `{UserStore U} `{BCrypt} `{Hash}.

Local Abbreviation W := (World S U Net).

(** What a successful [SignUp] went through. *)
Lemma SignUp_Ok_inv (a : AuthService) (req : SignUpRequest) (w : W) (resp : AuthResponse) :
  fst (SignUp a req w) = Ok resp ->
  AllowSignup (auth_config a) = true /\
  exists (u1 u2 : U) (hashedPassword : string) (rt0 : Runtime),
    UserExists (SignUp_Email req) (w_users w) = (Ok false, u1) /\
    GenerateFromPassword (SignUp_Password req) (BCryptCost (auth_config a)) (w_rt w)
      = (Ok hashedPassword, rt0) /\
    CreateUser (AuthResponse_User resp) hashedPassword u1 = (Ok tt, u2) /\
    User_Email (AuthResponse_User resp) = SignUp_Email req /\
    User_Name (AuthResponse_User resp) = SignUp_Name req /\
    User_Provider (AuthResponse_User resp) = ProviderLocal /\
    w_users (snd (SignUp a req w)) = u2.
Proof.
  unfold SignUp, bind, liftRT, liftUsers, ret.
  destruct (AllowSignup (auth_config a)); cbn [negb]; [|discriminate].
  destruct (UserExists _ (w_users w)) as [[[|]|e] u1] eqn:Hx; try discriminate.
  cbn [fst snd w_rt w_store w_users w_net].
  destruct (GenerateFromPassword _ _ (w_rt w)) as [[hashed|e] rt0] eqn:Hh; [|discriminate].
  cbn [fst snd w_rt w_store w_users w_net].
  destruct (generateRandomString 16 rt0) as [id rt1]. cbn [fst snd w_rt w_store w_users w_net].
  destruct (time_Now rt1) as [createdAt rt2]. cbn [fst snd w_rt w_store w_users w_net].
  destruct (time_Now rt2) as [updatedAt rt3]. cbn [fst snd w_rt w_store w_users w_net].
  destruct (CreateUser _ hashed u1) as [[[]|e] u2] eqn:Hc; [|discriminate].
  cbn [fst snd w_rt w_store w_users w_net].
  match goal with
  | |- context [generateAuthResponse a ?user ?w0] =>
      destruct (generateAuthResponse_eq (U:=U) (Net:=Net) a user w0) as [Hr Hu]
  end.
  cbv zeta in Hr. rewrite Hr, Hu. intros [= <-].
  split; [reflexivity|]. exists u1, u2, hashed, rt0.
  cbn [AuthResponse_User authResponse User_Email User_Name User_Provider w_users].
  repeat split; try reflexivity. exact Hc.
Qed.

(** What a successful [SignIn] went through. *)
Lemma SignIn_Ok_inv (a : AuthService) (req : SignInRequest) (w : W) (resp : AuthResponse) :
  fst (SignIn a req w) = Ok resp ->
  exists (hashedPassword : string) (u1 : U),
    GetUserByEmail (SignIn_Email req) (w_users w)
      = (Ok (AuthResponse_User resp, hashedPassword), u1) /\
    CompareHashAndPassword hashedPassword (SignIn_Password req) = Ok tt /\
    fst (generateAuthResponse a (AuthResponse_User resp)
           (mkWorld (w_rt w) (w_store w) u1 (w_net w))) = Ok resp /\
    w_users (snd (SignIn a req w)) = u1.
Proof.
  unfold SignIn, bind, liftUsers, ret.
  destruct (GetUserByEmail _ (w_users w)) as [[[user hashed]|e] u1] eqn:Hu; [|discriminate].
  destruct (CompareHashAndPassword hashed _) as [[]|e] eqn:Hc; [|discriminate].
  destruct (generateAuthResponse_eq (U:=U) (Net:=Net) a user
              (mkWorld (w_rt w) (w_store w) u1 (w_net w))) as [Hr Husers].
  cbv zeta in Hr. rewrite Husers. rewrite Hr. intros [= <-].
  cbn [AuthResponse_User authResponse]. exists hashed, u1.
  split; [reflexivity|]. split; [exact Hc|]. split; [exact Hr|reflexivity].
Qed.
End Inversions.

(** A refresh token of this manager, before the expiry written in it. *)
Lemma ValidateRefreshToken_own `{Hash} (j : JWTManager) (userID : string) (t : Time)
    (rt : Runtime) :
  userID <> "" ->
  Before (fst (time_Now rt)) (time_Unix (Unix (Add t (30 * 24 * Hour)))) = true ->
  ValidateRefreshToken j
    (CompactJWS "HS256" (refreshClaims j userID t)
       (HMAC "HS256" (hmac_key "HS256" (secret j)) (refreshClaims j userID t))) rt =
  (Ok (json_string userID), snd (time_Now rt)).
Proof.
  intros Hid Hexp. unfold ValidateRefreshToken. rewrite jwt_Parse_signed.
  rewrite Validate_ok.
  - cbn [negb Valid Claims fst]. unfold claim_string.
    rewrite refreshClaims_type, refreshClaims_user_id.
    rewrite json_string_eqb_empty, eqb_empty_false by exact Hid. reflexivity.
  - eapply verifyExpiresAt_before; [apply refreshClaims_exp | exact Hexp].
  - apply verifyNotBefore_unset, refreshClaims_nbf.
Qed.

Lemma InMemoryUserStore_GetUserByID_found (s : InMemoryUserStore) (email : string)
    (user : User) :
  users s !! email = Some user ->
  exists found,
    InMemoryUserStore_GetUserByID (User_ID user) s = (Ok found, s) /\
    User_ID found = User_ID user.
Proof.
  intros Hu. unfold InMemoryUserStore_GetUserByID.
  destruct (List.find _ (map_to_list (users s))) as [kv|] eqn:Hf.
  - apply List.find_some in Hf as [_ Hid]. apply String.eqb_eq in Hid.
    exists (snd kv). split; [reflexivity|exact Hid].
  - exfalso. apply elem_of_map_to_list in Hu. apply list_elem_of_In in Hu.
    pose proof (List.find_none _ _ Hf _ Hu) as Hn. cbn [snd] in Hn.
    rewrite String.eqb_refl in Hn. discriminate.
Qed.

Section InMemoryUsers.
Context {S Net : Type} `{SessionStore S} `{BCrypt} `{Hash}.

Local Abbreviation W := (World S InMemoryUserStore Net).

(** X19.  Sign-up, then sign-in.  Over the in-memory user store and with
    a password hash that verifies the password it was made from: after a
    successful [SignUp] the same email and password sign in as the very
    user that was created, a local user with the email asked for, and a
    second [SignUp] for that email fails with "user already exists". *)
Theorem SignUp_then_SignIn
    (a : AuthService) (req : SignUpRequest) (w : W) (resp : AuthResponse)
    (rt2 : Runtime) (s2 : S) (n2 : Net) :
  (forall (password hashed : string) (cost : Z) (rt rt' : Runtime),
     GenerateFromPassword password cost rt = (Ok hashed, rt') ->
     hashed <> "" /\ CompareHashAndPassword hashed password = Ok tt) ->
  fst (SignUp a req w) = Ok resp ->
  let w2 := mkWorld rt2 s2 (w_users (snd (SignUp a req w))) n2 in
  User_Email (AuthResponse_User resp) = SignUp_Email req /\
  User_Provider (AuthResponse_User resp) = ProviderLocal /\
  (exists resp2,
     fst (SignIn a {| SignIn_Email := SignUp_Email req;
                      SignIn_Password := SignUp_Password req |} w2) = Ok resp2 /\
     AuthResponse_User resp2 = AuthResponse_User resp) /\
  (forall req' : SignUpRequest,
     SignUp_Email req' = SignUp_Email req ->
     fst (SignUp a req' w2) = Err "user already exists").
Proof.
  intros Hbcrypt Hok w2. subst w2.
  apply SignUp_Ok_inv in Hok
    as (Hallow & u1 & u2 & hashed & rt0 & Hx & Hh & Hc & Hmail & _ & Hprov & ->).
  destruct (Hbcrypt _ _ _ _ _ Hh) as [Hne Hcmp].
  cbn [UserExists CreateUser InMemoryUserStore_UserStore] in Hx, Hc.
  unfold InMemoryUserStore_UserExists in Hx.
  unfold InMemoryUserStore_CreateUser in Hc. rewrite Hmail in Hc.
  destruct (users (w_users w) !! SignUp_Email req) eqn:Hfree; [discriminate|].
  injection Hx as <-. rewrite Hfree in Hc. injection Hc as <-.
  rewrite (eqb_empty_false _ Hne).
  split; [exact Hmail|]. split; [exact Hprov|]. split.
  - unfold SignIn, bind, liftUsers, ret.
    cbn [GetUserByEmail InMemoryUserStore_UserStore w_users SignIn_Email SignIn_Password].
    unfold InMemoryUserStore_GetUserByEmail. cbn [users passwords].
    rewrite !lookup_insert_eq, Hcmp.
    match goal with
    | |- context [generateAuthResponse a ?user ?w0] =>
        destruct (generateAuthResponse_eq (U:=InMemoryUserStore) (Net:=Net) a user w0)
          as [Hr _]
    end.
    cbv zeta in Hr. rewrite Hr. eexists. split; reflexivity.
  - intros req' Hsame. unfold SignUp, bind, liftUsers, ret. rewrite Hallow. cbn [negb].
    cbn [UserExists InMemoryUserStore_UserStore w_users].
    unfold InMemoryUserStore_UserExists. cbn [users]. rewrite Hsame, lookup_insert_eq.
    reflexivity.
Qed.

(** X20.  Refreshing.  Over the in-memory user store: the refresh token
    of a successful [SignIn] of a user whose id is non-empty and
    well-formed UTF-8, presented to [RefreshToken] before the expiry
    written in it, yields a new response for a user with that id; the
    access token of the same response is refused as a refresh token. *)
Theorem RefreshToken_after_SignIn
    (a : AuthService) (req : SignInRequest) (w : W) (resp : AuthResponse)
    (rt2 : Runtime) (s2 : S) (n2 : Net) (exp : Z) :
  fst (SignIn a req w) = Ok resp ->
  User_ID (AuthResponse_User resp) <> "" ->
  valid_utf8 (User_ID (AuthResponse_User resp)) ->
  token_claims (AuthResponse_RefreshToken resp) !! "exp" = Some (VNumber exp) ->
  Before (fst (time_Now rt2)) (time_Unix exp) = true ->
  let w2 := mkWorld rt2 s2 (w_users (snd (SignIn a req w))) n2 in
  (exists resp2,
     fst (RefreshToken a (AuthResponse_RefreshToken resp) w2) = Ok resp2 /\
     User_ID (AuthResponse_User resp2) = User_ID (AuthResponse_User resp)) /\
  is_Err (fst (RefreshToken a (AuthResponse_AccessToken resp) w2)) = true.
Proof.
  intros Hok Hid Hutf Hexp Hbefore w2. subst w2.
  apply SignIn_Ok_inv in Hok as (hashed & u1 & Hu & _ & Hr & ->).
  destruct (generateAuthResponse_eq (U:=InMemoryUserStore) (Net:=Net) a
              (AuthResponse_User resp) (mkWorld (w_rt w) (w_store w) u1 (w_net w)))
    as [Hr' _].
  cbv zeta in Hr'. rewrite Hr' in Hr. injection Hr as Hresp.
  set (user := AuthResponse_User resp) in *.
  cbn [GetUserByEmail InMemoryUserStore_UserStore] in Hu.
  unfold InMemoryUserStore_GetUserByEmail in Hu.
  destruct (users (w_users w) !! SignIn_Email req) as [stored|] eqn:Hl; [|discriminate].
  injection Hu as -> _ <-.
  destruct (InMemoryUserStore_GetUserByID_found (w_users w) _ user Hl)
    as (found & Hfound & Hsame).
  rewrite <- Hresp in Hexp |- *.
  cbn [AuthResponse_RefreshToken AuthResponse_AccessToken authResponse token_claims w_rt]
    in Hexp |- *.
  rewrite refreshClaims_exp in Hexp. injection Hexp as <-.
  split.
  - unfold RefreshToken, bind, liftRT, liftUsers, ret. cbn [w_rt].
    rewrite (ValidateRefreshToken_own _ _ _ rt2 Hid Hbefore). rewrite Hutf.
    cbn [fst snd w_rt w_store w_users w_net GetUserByID InMemoryUserStore_UserStore].
    rewrite Hfound.
    match goal with
    | |- context [generateAuthResponse a ?u ?w0] =>
        destruct (generateAuthResponse_eq (U:=InMemoryUserStore) (Net:=Net) a u w0)
          as [Hr2 _]
    end.
    cbv zeta in Hr2. rewrite Hr2. eexists. split; [reflexivity|].
    cbn [AuthResponse_User authResponse]. exact Hsame.
  - unfold RefreshToken, bind, liftRT, ret. cbn [w_rt].
    unfold ValidateRefreshToken.
    destruct (jwt_Parse _ (keyFunc (jwtManager a)) rt2) as [[token|e] rt3] eqn:Hp.
    + apply jwt_Parse_Ok in Hp as [Hc Hv]. rewrite Hv, Hc. cbn [negb token_claims].
      unfold claim_string at 1. rewrite accessClaims_type. reflexivity.
    + reflexivity.
Qed.
End InMemoryUsers.

(** * Properties of the provider exchanges *)

Section ProviderExchangeProps.
Context {Net B : Type} `{HTTPClient Net B}.

(** X21.  Which address [getGitHubEmail] picks.  When GitHub answers the
    address list with status 200, the call makes that one request; it
    fails with "no verified email found" exactly when no listed address
    is verified, and an address it returns is a listed and verified one,
    a primary one unless the list has no address both primary and
    verified. *)
Theorem getGitHubEmail_picks_verified
    (accessToken : string) (n n1 : Net) (resp : Response B) (emails : list GitHubEmail) :
  client_Do (github_emails_request accessToken) n = (Ok resp, n1) ->
  StatusCode resp = StatusOK ->
  Unmarshal_emails (Body resp) = Ok emails ->
  snd (getGitHubEmail accessToken n) = n1 /\
  (fst (getGitHubEmail accessToken n) = Err "no verified email found" <->
   forall e, In e emails -> Verified e = false) /\
  (forall addr : string,
     fst (getGitHubEmail accessToken n) = Ok addr ->
     exists e, In e emails /\ GitHubEmail_Email e = addr /\ Verified e = true /\
               (Primary e = true \/
                forall e', In e' emails -> Primary e' && Verified e' = false)).
Proof.
  intros Hdo Hst Hun. unfold getGitHubEmail.
  change {| req_Method := "GET"; req_URL := "https://api.github.com/user/emails";
            req_Header := [("Authorization", "Bearer " +:+ accessToken);
                           ("Accept", "application/vnd.github.v3+json")];
            req_Form := [] |} with (github_emails_request accessToken).
  rewrite Hdo, Hst, Hun. cbn [negb Z.eqb StatusOK Pos.eqb].
  destruct (find (fun email => Primary email && Verified email) emails) as [e|] eqn:Hp.
  - apply find_some in Hp as [Hin Hpv]. apply andb_prop in Hpv as [Hpr Hv].
    cbn [fst snd]. split; [reflexivity|]. split.
    + split; [discriminate|]. intros Hall. rewrite (Hall e Hin) in Hv. discriminate.
    + intros addr [= <-]. exists e. auto.
  - pose proof (find_none _ _ Hp) as Hnone.
    destruct (find (fun email => Verified email) emails) as [e|] eqn:Hv.
    + apply find_some in Hv as [Hin Hver]. cbn [fst snd]. split; [reflexivity|]. split.
      * split; [discriminate|]. intros Hall. rewrite (Hall e Hin) in Hver. discriminate.
      * intros addr [= <-]. exists e. auto.
    + pose proof (find_none _ _ Hv) as Hnv. cbn [fst snd]. split; [reflexivity|]. split.
      * split; [intros _; exact Hnv|reflexivity].
      * intros addr [=].
Qed.

(** X22.  What [handleGitHubCallback] makes of a profile.  Once the
    token exchange and the profile request have both answered 200 with
    bodies that decode, the callback succeeds whatever becomes of the
    address lookup: the provider is "github", the id is the decimal of
    GitHub's numeric id, the name is the profile's name or, if that is
    empty, the login; a public email is kept and no address list is
    requested; without one the email is what [getGitHubEmail] finds, and
    stays empty when that fails. *)
Theorem handleGitHubCallback_profile
    (config : Config) (code accessToken : string) (n n1 n2 : Net)
    (resp userResp : Response B) (githubUser : GitHubUser) :
  client_Do (github_token_request config code) n = (Ok resp, n1) ->
  StatusCode resp = StatusOK ->
  Decode_tokenResp (Body resp) = Ok accessToken ->
  client_Do (github_user_request accessToken) n1 = (Ok userResp, n2) ->
  StatusCode userResp = StatusOK ->
  Decode_githubUser (Body userResp) = Ok githubUser ->
  exists (info : OAuthUserInfo) (n3 : Net),
    OAuthManager_handleGitHubCallback config code n = (Ok info, n3) /\
    OAuth_Provider info = "github" /\
    OAuth_ID info = pretty (GitHub_ID githubUser) /\
    OAuth_AvatarURL info = GitHub_AvatarURL githubUser /\
    OAuth_Name info = (if String.eqb (GitHub_Name githubUser) ""
                       then GitHub_Login githubUser else GitHub_Name githubUser) /\
    (GitHub_Email githubUser <> "" ->
     OAuth_Email info = GitHub_Email githubUser /\ n3 = n2) /\
    (GitHub_Email githubUser = "" ->
     n3 = snd (getGitHubEmail accessToken n2) /\
     OAuth_Email info = match fst (getGitHubEmail accessToken n2) with
                        | Ok email => email
                        | Err _ => ""
                        end).
Proof.
  intros Hdo Hst Hdec Hdo2 Hst2 Hdec2. unfold OAuthManager_handleGitHubCallback.
  change {| req_Method := "POST"; req_URL := "https://github.com/login/oauth/access_token";
            req_Header := _; req_Form := _ |} with (github_token_request config code).
  rewrite Hdo, Hst, Hdec. cbn [negb Z.eqb StatusOK Pos.eqb].
  change {| req_Method := "GET"; req_URL := "https://api.github.com/user";
            req_Header := _; req_Form := _ |} with (github_user_request accessToken).
  rewrite Hdo2, Hst2, Hdec2. cbn [negb Z.eqb StatusOK Pos.eqb].
  destruct (String.eqb_spec (GitHub_Email githubUser) "") as [He|He].
  - destruct (getGitHubEmail accessToken n2) as [[email|e] n3] eqn:Hg;
      eexists; eexists; (split; [reflexivity|]);
      cbn [OAuth_Provider OAuth_ID OAuth_AvatarURL OAuth_Name OAuth_Email fst snd];
      do 4 (split; [reflexivity|]); (split; [intros Hne; contradiction|]);
      intros _; split; [reflexivity| |reflexivity|]; [reflexivity|exact He].
  - eexists; eexists; (split; [reflexivity|]).
    cbn [OAuth_Provider OAuth_ID OAuth_AvatarURL OAuth_Name OAuth_Email fst snd].
    do 4 (split; [reflexivity|]). split; [intros _; split; reflexivity|].
    intros Hz. contradiction.
Qed.

(** X23.  When [handleGoogleCallback] succeeds.  A profile comes back
    only if the token endpoint answered the code with status 200 and a
    body holding an access token, and the user-info endpoint, asked with
    that token as bearer, answered 200 with a profile: the result is
    that profile, its picture as avatar, under the provider "google". *)
Theorem handleGoogleCallback_Ok_inv
    (config : Config) (code : string) (n n2 : Net) (info : OAuthUserInfo) :
  OAuthManager_handleGoogleCallback config code n = (Ok info, n2) ->
  exists (resp userResp : Response B) (n1 : Net) (accessToken : string)
         (googleUser : GoogleUser),
    client_Do (google_token_request config code) n = (Ok resp, n1) /\
    StatusCode resp = StatusOK /\
    Decode_tokenResp (Body resp) = Ok accessToken /\
    client_Do (google_userinfo_request accessToken) n1 = (Ok userResp, n2) /\
    StatusCode userResp = StatusOK /\
    Decode_googleUser (Body userResp) = Ok googleUser /\
    info = {| OAuth_ID := Google_ID googleUser;
              OAuth_Email := Google_Email googleUser;
              OAuth_Name := Google_Name googleUser;
              OAuth_AvatarURL := Google_Picture googleUser;
              OAuth_Provider := "google" |}.
Proof.
  unfold OAuthManager_handleGoogleCallback.
  change {| req_Method := "POST"; req_URL := "https://oauth2.googleapis.com/token";
            req_Header := _; req_Form := _ |} with (google_token_request config code).
  destruct (client_Do (google_token_request config code) n) as [[resp|e] n1] eqn:Hdo;
    [|discriminate].
  destruct (StatusCode resp =? StatusOK) eqn:Hst; cbn [negb]; [|discriminate].
  destruct (Decode_tokenResp (Body resp)) as [accessToken|e] eqn:Hdec; [|discriminate].
  change {| req_Method := "GET"; req_URL := "https://www.googleapis.com/oauth2/v2/userinfo";
            req_Header := _; req_Form := _ |} with (google_userinfo_request accessToken).
  destruct (client_Do (google_userinfo_request accessToken) n1) as [[userResp|e] n2'] eqn:Hdo2;
    [|discriminate].
  destruct (StatusCode userResp =? StatusOK) eqn:Hst2; cbn [negb]; [|discriminate].
  destruct (Decode_googleUser (Body userResp)) as [googleUser|e] eqn:Hdec2; [|discriminate].
  intros [= <- <-]. apply Z.eqb_eq in Hst, Hst2.
  exists resp, userResp, n1, accessToken, googleUser. repeat split; assumption.
Qed.
End ProviderExchangeProps.

(** * The further properties on the sample worlds *)

Section ExamplesMore.
#[local] Existing Instance plain_bcrypt.
#[local] Existing Instance short_hash.

Lemma plain_bcrypt_verifies (password hashed : string) (cost : Z) (rt rt' : Runtime) :
  GenerateFromPassword password cost rt = (Ok hashed, rt') ->
  hashed <> "" /\ CompareHashAndPassword hashed password = Ok tt.
Proof.
  cbn [GenerateFromPassword CompareHashAndPassword plain_bcrypt].
  intros [= <- _]. split; [discriminate|]. rewrite String.eqb_refl. reflexivity.
Qed.

Lemma SignUp_then_SignIn_witness :
  (exists resp2,
     fst (SignIn demo_service {| SignIn_Email := "new@b.com"; SignIn_Password := "pw123456" |}
            (later (snd (SignUp demo_service new_user_request
                           (demo_world (demo_runtime T0 []))))
                   (T0 + Hour))) = Ok resp2) /\
  fst (SignUp demo_service new_user_request
         (later (snd (SignUp demo_service new_user_request
                        (demo_world (demo_runtime T0 []))))
                (T0 + Hour))) = Err "user already exists".
Proof.
  assert (exists resp, fst (SignUp demo_service new_user_request
                              (demo_world (demo_runtime T0 []))) = Ok resp)
    as [resp Hresp] by (vm_compute; eexists; reflexivity).
  destruct (SignUp_then_SignIn demo_service new_user_request
              (demo_world (demo_runtime T0 [])) resp (runtime_at (T0 + Hour))
              (w_store (snd (SignUp demo_service new_user_request
                               (demo_world (demo_runtime T0 [])))))
              (w_net (snd (SignUp demo_service new_user_request
                             (demo_world (demo_runtime T0 [])))))
              plain_bcrypt_verifies Hresp)
    as (_ & _ & (resp2 & Hin & _) & Hagain).
  split.
  - exists resp2. exact Hin.
  - apply Hagain. reflexivity.
Defined.

Lemma RefreshToken_after_SignIn_witness :
  exists resp2,
    fst (RefreshToken demo_service demo_refresh_token
           (later (snd (SignIn demo_service
                          {| SignIn_Email := "a@b.com"; SignIn_Password := "pw123456" |}
                          (demo_world (demo_runtime T0 []))))
                  (T0 + Hour))) = Ok resp2 /\
    User_ID (AuthResponse_User resp2) = "u1".
Proof.
  assert (fst (SignIn demo_service
                 {| SignIn_Email := "a@b.com"; SignIn_Password := "pw123456" |}
                 (demo_world (demo_runtime T0 []))) =
          Ok (authResponse demo_config demo_user demo_access_token demo_refresh_token))
    as Hresp by (vm_compute; reflexivity).
  refine (proj1 (RefreshToken_after_SignIn demo_service
                   {| SignIn_Email := "a@b.com"; SignIn_Password := "pw123456" |}
                   (demo_world (demo_runtime T0 []))
                   (authResponse demo_config demo_user demo_access_token demo_refresh_token)
                   (runtime_at (T0 + Hour))
                   (w_store (snd (SignIn demo_service
                                    {| SignIn_Email := "a@b.com";
                                       SignIn_Password := "pw123456" |}
                                    (demo_world (demo_runtime T0 [])))))
                   (w_net (snd (SignIn demo_service
                                  {| SignIn_Email := "a@b.com";
                                     SignIn_Password := "pw123456" |}
                                  (demo_world (demo_runtime T0 [])))))
                   (1700000000 + 30 * 24 * 3600) Hresp _ _ _ _)).
  - discriminate.
  - reflexivity.
  - vm_compute. reflexivity.
  - vm_compute. reflexivity.
Defined.

Lemma getGitHubEmail_picks_verified_witness :
  fst (getGitHubEmail "gho_token"
         {| replies := [Ok (mkResponse 200 (EmailsBody
              [ {| GitHubEmail_Email := "old@b.com"; Primary := false; Verified := true |};
                {| GitHubEmail_Email := "spam@b.com"; Primary := true; Verified := false |};
                {| GitHubEmail_Email := "octo@b.com"; Primary := true; Verified := true |} ]))];
            sent := [] |}) = Ok "octo@b.com" /\
  exists e,
    In e [ {| GitHubEmail_Email := "old@b.com"; Primary := false; Verified := true |};
           {| GitHubEmail_Email := "spam@b.com"; Primary := true; Verified := false |};
           {| GitHubEmail_Email := "octo@b.com"; Primary := true; Verified := true |} ] /\
    GitHubEmail_Email e = "octo@b.com" /\ Verified e = true.
Proof.
  assert (fst (getGitHubEmail "gho_token"
         {| replies := [Ok (mkResponse 200 (EmailsBody
              [ {| GitHubEmail_Email := "old@b.com"; Primary := false; Verified := true |};
                {| GitHubEmail_Email := "spam@b.com"; Primary := true; Verified := false |};
                {| GitHubEmail_Email := "octo@b.com"; Primary := true; Verified := true |} ]))];
            sent := [] |}) = Ok "octo@b.com") as Hpick by (vm_compute; reflexivity).
  split; [exact Hpick|].
  destruct (getGitHubEmail_picks_verified "gho_token"
              {| replies := [Ok (mkResponse 200 (EmailsBody
                   [ {| GitHubEmail_Email := "old@b.com"; Primary := false; Verified := true |};
                     {| GitHubEmail_Email := "spam@b.com"; Primary := true; Verified := false |};
                     {| GitHubEmail_Email := "octo@b.com"; Primary := true; Verified := true |} ]))];
                 sent := [] |}
              {| replies := []; sent := [github_emails_request "gho_token"] |}
              (mkResponse 200 (EmailsBody
                   [ {| GitHubEmail_Email := "old@b.com"; Primary := false; Verified := true |};
                     {| GitHubEmail_Email := "spam@b.com"; Primary := true; Verified := false |};
                     {| GitHubEmail_Email := "octo@b.com"; Primary := true; Verified := true |} ]))
              [ {| GitHubEmail_Email := "old@b.com"; Primary := false; Verified := true |};
                {| GitHubEmail_Email := "spam@b.com"; Primary := true; Verified := false |};
                {| GitHubEmail_Email := "octo@b.com"; Primary := true; Verified := true |} ])
    as (_ & _ & Hsound); try reflexivity.
  destruct (Hsound "octo@b.com" Hpick) as (e & Hin & Hmail & Hver & _).
  exists e. auto.
Defined.

Lemma handleGitHubCallback_profile_witness :
  exists n3,
    OAuthManager_handleGitHubCallback demo_config "code" github_script =
      (Ok {| OAuth_ID := "583231"; OAuth_Email := "octo@b.com"; OAuth_Name := "octocat";
             OAuth_AvatarURL := "https://example.org/o.png"; OAuth_Provider := "github" |},
       n3).
Proof.
  destruct (handleGitHubCallback_profile demo_config "code" "gho_token" github_script
              {| replies := tl (replies github_script);
                 sent := [github_token_request demo_config "code"] |}
              {| replies := tl (tl (replies github_script));
                 sent := [github_token_request demo_config "code";
                          github_user_request "gho_token"] |}
              (mkResponse 200 (TokenBody "gho_token"))
              (mkResponse 200 (GitHubBody {| GitHub_ID := 583231; GitHub_Login := "octocat";
                                             GitHub_Email := ""; GitHub_Name := "";
                                             GitHub_AvatarURL := "https://example.org/o.png" |}))
              {| GitHub_ID := 583231; GitHub_Login := "octocat";
                 GitHub_Email := ""; GitHub_Name := "";
                 GitHub_AvatarURL := "https://example.org/o.png" |})
    as (info & n3 & Hcb & _); try reflexivity.
  exists n3. rewrite Hcb. f_equal. f_equal.
  assert (fst (OAuthManager_handleGitHubCallback demo_config "code" github_script) =
          Ok {| OAuth_ID := "583231"; OAuth_Email := "octo@b.com"; OAuth_Name := "octocat";
                OAuth_AvatarURL := "https://example.org/o.png"; OAuth_Provider := "github" |})
    as Hv by (vm_compute; reflexivity).
  rewrite Hcb in Hv. cbn [fst] in Hv. injection Hv as ->. reflexivity.
Defined.

Lemma handleGoogleCallback_Ok_inv_witness :
  exists (resp : Response SampleBody) (n1 : ScriptedHTTP),
    client_Do (google_token_request demo_config "code") google_script = (Ok resp, n1) /\
    StatusCode resp = StatusOK.
Proof.
  destruct (handleGoogleCallback_Ok_inv demo_config "code" google_script
              {| replies := [];
                 sent := [google_token_request demo_config "code";
                          google_userinfo_request "ya29.token"] |}
              {| OAuth_ID := "1001"; OAuth_Email := "a@b.com"; OAuth_Name := "Ann";
                 OAuth_AvatarURL := "https://example.org/ann.png";
                 OAuth_Provider := "google" |})
    as (resp & userResp & n1 & accessToken & googleUser & Hdo & Hst & _).
  - vm_compute. reflexivity.
  - exists resp, n1. auto.
Defined.

End ExamplesMore.

(** * The HTTP handlers and middlewares *)

Lemma substring_all (s : string) : String.substring 0 (String.length s) s = s.
Proof. induction s as [|c s IH]; cbn; [reflexivity|]. by rewrite IH. Qed.

Lemma prefix_split (p s : string) :
  String.prefix p s = true ->
  s = p +:+ String.substring (String.length p) (String.length s - String.length p) s.
Proof.
  revert s. induction p as [|a p IH]; intros s.
  - intros _. change (s = String.substring 0 (String.length s - 0) s).
    rewrite Nat.sub_0_r. symmetry. apply substring_all.
  - destruct s as [|b s]; cbn [String.prefix]; [discriminate|].
    destruct (Ascii.ascii_dec a b) as [->|]; [|discriminate].
    intros Hp. rewrite (IH s Hp) at 1. reflexivity.
Qed.

Lemma TrimPrefix_trimmed (s prefix : string) :
  String.eqb (TrimPrefix s prefix) s = false -> s = prefix +:+ TrimPrefix s prefix.
Proof.
  unfold TrimPrefix. destruct (String.prefix prefix s) eqn:Hp.
  - intros _. apply prefix_split, Hp.
  - rewrite String.eqb_refl. discriminate.
Qed.

Lemma ValidateToken_Ok_UserID `{Hash} (j : JWTManager) (tok : TokenString) (rt rt1 : Runtime)
    (claims : TokenClaims) :
  ValidateToken j tok rt = (Ok claims, rt1) -> UserID claims <> "".
Proof.
  unfold ValidateToken.
  destruct (jwt_Parse tok (keyFunc j) rt) as [[token|e] rt2]; [|discriminate].
  destruct (negb (Valid token)); [discriminate|]. cbv zeta.
  destruct (String.eqb (claim_string (Claims token) "user_id") "") eqn:Hu; [discriminate|].
  intros [= <- _]. cbn [UserID]. by apply String.eqb_neq.
Qed.

Section HandlerProps.
Context {S U Net : Type}.
Context `{SessionStore S} `{UserStore U} `{BCrypt} `{Hash}.
Variable compact : string -> TokenString.

Local Abbreviation W := (World S U Net).

Lemma respond_StdContext (code : Z) (data : Payload) (ctx : StdContext) (w : W) :
  respond code data ctx w =
  (Ok tt,
   {| std_Request := std_Request ctx; std_Response := std_Response ctx ++ [(code, data)];
      values := values ctx; status := status ctx |}, w).
Proof. reflexivity. Qed.

(** X24.  [AuthMiddleware] is a gate.  Either the request carries
    [Authorization: Bearer t] where [ValidateToken] accepts [t] with
    claims of a non-empty user id, and the middleware is the next handler
    run on the context with the five user values set and the clock read
    once; or the answer is a 401 error that does not depend on the next
    handler, and session store, users and network are untouched.  This
    holds for every implementation of the context interface. *)
Theorem AuthMiddleware_gate {C : Type} `{HTTPContext C} (h : GenericAuthHandlers)
    (next : @HTTPHandler S U Net C) (ctx : C) (w : W) :
  (exists t claims rt1,
     ctx_GetHeader "Authorization" ctx = "Bearer " +:+ t /\
     ValidateToken (jwtManager (authService h)) (compact t) (w_rt w) = (Ok claims, rt1) /\
     UserID claims <> "" /\
     AuthMiddleware compact h next ctx w =
     next (set_user_context claims ctx) (mkWorld rt1 (w_store w) (w_users w) (w_net w))) \/
  (exists msg w',
     AuthMiddleware compact h next ctx w =
     respond StatusUnauthorized (ErrorBody msg) ctx w' /\
     w_store w' = w_store w /\ w_users w' = w_users w /\ w_net w' = w_net w).
Proof.
  unfold AuthMiddleware. cbv zeta.
  destruct (String.eqb (ctx_GetHeader "Authorization" ctx) "") eqn:He.
  { right. eexists _, w. split; [reflexivity|]. auto. }
  destruct (String.eqb (TrimPrefix (ctx_GetHeader "Authorization" ctx) "Bearer ")
              (ctx_GetHeader "Authorization" ctx)) eqn:Ht.
  { right. eexists _, w. split; [reflexivity|]. auto. }
  unfold AuthService_ValidateToken, liftRT.
  destruct (ValidateToken (jwtManager (authService h))
              (compact (TrimPrefix (ctx_GetHeader "Authorization" ctx) "Bearer "))
              (w_rt w)) as [[claims|e] rt1] eqn:Hv.
  - left. exists (TrimPrefix (ctx_GetHeader "Authorization" ctx) "Bearer "), claims, rt1.
    split; [apply TrimPrefix_trimmed, Ht|]. split; [exact Hv|].
    split; [eapply ValidateToken_Ok_UserID, Hv|]. reflexivity.
  - right. eexists _, _. split; [reflexivity|]. auto.
Qed.

Lemma ctx_string_set_user_context (key : string) (claims : TokenClaims)
    (ctx : StdContext) :
  key <> "user_id" -> key <> "user_email" -> key <> "user_name" ->
  key <> "user_provider" -> key <> "claims" ->
  ctx_string key (set_user_context claims ctx) = ctx_string key ctx.
Proof.
  intros Hk1 Hk2 Hk3 Hk4 Hk5. unfold ctx_string, set_user_context.
  cbn [ctx_Get ctx_Set StdContext_HTTPContext].
  unfold StdContext_Get, StdContext_Set. cbn [values].
  by rewrite !lookup_insert_ne.
Qed.

Lemma user_values_of_set_user_context (claims : TokenClaims) (ctx : StdContext) :
  ctx_string "user_id" (set_user_context claims ctx) = (UserID claims, true) /\
  ctx_string "user_email" (set_user_context claims ctx) = (Email claims, true) /\
  ctx_string "user_name" (set_user_context claims ctx) = (Name claims, true) /\
  ctx_string "user_provider" (set_user_context claims ctx) = (Provider claims, true).
Proof.
  unfold ctx_string, set_user_context.
  cbn [ctx_Get ctx_Set StdContext_HTTPContext].
  unfold StdContext_Get, StdContext_Set. cbn [values].
  repeat split.
  - do 4 (rewrite lookup_insert_ne by discriminate). by rewrite lookup_insert_eq.
  - do 3 (rewrite lookup_insert_ne by discriminate). by rewrite lookup_insert_eq.
  - do 2 (rewrite lookup_insert_ne by discriminate). by rewrite lookup_insert_eq.
  - do 1 (rewrite lookup_insert_ne by discriminate). by rewrite lookup_insert_eq.
Qed.

Lemma LogoutHandler_without_session {C : Type} `{HTTPContext C}
    (h : GenericAuthHandlers) (ctx : C) (w : W) :
  fst (ctx_string "session_id" ctx) = "" ->
  LogoutHandler h ctx w =
  respond StatusOK (MessageBody "Successfully logged out") ctx w.
Proof.
  intros Hs. unfold LogoutHandler. cbv zeta. rewrite Hs. reflexivity.
Qed.

Lemma OptionalAuthMiddleware_cases {C : Type} `{HTTPContext C}
    (h : GenericAuthHandlers) (next : @HTTPHandler S U Net C) (ctx : C) (w : W) :
  exists ctx1 rt1,
    OptionalAuthMiddleware compact h next ctx w =
    next ctx1 (mkWorld rt1 (w_store w) (w_users w) (w_net w)) /\
    (ctx1 = ctx \/ exists claims, ctx1 = set_user_context claims ctx).
Proof.
  unfold OptionalAuthMiddleware. cbv zeta. destruct w as [rt s u n].
  cbn [w_rt w_store w_users w_net].
  destruct (String.eqb (ctx_GetHeader "Authorization" ctx) "").
  { exists ctx, rt. auto. }
  destruct (String.eqb _ (ctx_GetHeader "Authorization" ctx)).
  { exists ctx, rt. auto. }
  unfold AuthService_ValidateToken, liftRT. cbn [w_rt w_store w_users w_net].
  destruct (ValidateToken _ _ rt) as [[claims|e] rt1].
  - exists (set_user_context claims ctx), rt1. split; [reflexivity|]. right. eauto.
  - exists ctx, rt1. auto.
Qed.

(** X25.  The logout route as the stdlib adapter registers it
    ([LogoutHandler] behind [OptionalAuthMiddleware], run on a fresh
    context): whatever the request and whatever bearer token it carries,
    the answer is 200 "Successfully logged out" and the session store,
    the users and the network are as before.  No value is ever set under
    "session_id", so [Logout] is called with the empty id. *)
Theorem logout_route_leaves_sessions (h : GenericAuthHandlers)
    (written : list (Z * Payload)) (r : HTTPRequest) (w : W) :
  exists ctx' w',
    chain (LogoutHandler h) [OptionalAuthMiddleware compact h]
      (NewStdContext written r) w = (Ok tt, ctx', w') /\
    std_Response ctx' = written ++ [(StatusOK, MessageBody "Successfully logged out")] /\
    w_store w' = w_store w /\ w_users w' = w_users w /\ w_net w' = w_net w.
Proof.
  cbn [chain foldr].
  destruct (OptionalAuthMiddleware_cases h (LogoutHandler h) (NewStdContext written r) w)
    as (ctx1 & rt1 & -> & Hctx).
  assert (Hs : fst (ctx_string "session_id" ctx1) = "" /\ std_Response ctx1 = written).
  { destruct Hctx as [->|[claims ->]]; [split; reflexivity|].
    rewrite ctx_string_set_user_context by discriminate. split; reflexivity. }
  destruct Hs as [Hs Hr].
  rewrite LogoutHandler_without_session by exact Hs.
  rewrite respond_StdContext. eexists _, _. split; [reflexivity|].
  cbn [std_Response w_store w_users w_net]. rewrite Hr. auto.
Qed.

Lemma prefix_app (p t : string) : String.prefix p (p +:+ t) = true.
Proof.
  induction p as [|a p IH]; [by destruct t|].
  change (String a p +:+ t) with (String a (p +:+ t)). cbn [String.prefix].
  destruct (Ascii.ascii_dec a a); [exact IH|congruence].
Qed.

Lemma TrimPrefix_app (p t : string) : TrimPrefix (p +:+ t) p = t.
Proof.
  unfold TrimPrefix. rewrite prefix_app.
  induction p as [|a p IH].
  - change ("" +:+ t) with t. cbn [String.length]. rewrite Nat.sub_0_r.
    apply substring_all.
  - change (String a p +:+ t) with (String a (p +:+ t)).
    cbn [String.length Nat.sub String.substring]. exact IH.
Qed.

Lemma TrimPrefix_Bearer (t : string) : TrimPrefix ("Bearer " +:+ t) "Bearer " = t.
Proof. apply TrimPrefix_app. Qed.

Lemma Bearer_not_fixpoint (t : string) : "Bearer " +:+ t <> t.
Proof.
  intros Heq. apply (f_equal String.length) in Heq.
  rewrite length_app in Heq. cbn [String.length] in Heq. lia.
Qed.

(** What [AuthMiddleware] does on a fresh [StdContext], by the request's
    Authorization header. *)
Lemma AuthMiddleware_fresh_cases (h : GenericAuthHandlers)
    (next : @HTTPHandler S U Net StdContext) (written : list (Z * Payload))
    (r : HTTPRequest) (w : W) :
  (exists t claims rt1,
     Header r !! "Authorization" = Some ("Bearer " +:+ t) /\
     ValidateToken (jwtManager (authService h)) (compact t) (w_rt w) = (Ok claims, rt1) /\
     AuthMiddleware compact h next (NewStdContext written r) w =
     next (set_user_context claims (NewStdContext written r))
       (mkWorld rt1 (w_store w) (w_users w) (w_net w))) \/
  (exists msg w',
     AuthMiddleware compact h next (NewStdContext written r) w =
     respond StatusUnauthorized (ErrorBody msg) (NewStdContext written r) w' /\
     msg <> "User not authenticated" /\
     w_store w' = w_store w /\ w_users w' = w_users w /\ w_net w' = w_net w /\
     (forall t claims,
        Header r !! "Authorization" = Some ("Bearer " +:+ t) ->
        fst (ValidateToken (jwtManager (authService h)) (compact t) (w_rt w))
        <> Ok claims)).
Proof.
  unfold AuthMiddleware. cbv zeta.
  cbn [ctx_GetHeader StdContext_HTTPContext]. unfold StdContext_GetHeader.
  cbn [std_Request NewStdContext].
  destruct (Header r !! "Authorization") as [hdr|].
  2:{ rewrite String.eqb_refl. right. eexists _, w. split; [reflexivity|].
      split; [discriminate|]. do 3 (split; [reflexivity|]). discriminate. }
  destruct (String.eqb hdr "") eqn:He.
  { apply String.eqb_eq in He. subst hdr. right. eexists _, w. split; [reflexivity|].
    split; [discriminate|]. do 3 (split; [reflexivity|]). discriminate. }
  destruct (String.eqb (TrimPrefix hdr "Bearer ") hdr) eqn:Ht.
  { right. eexists _, w. split; [reflexivity|].
    split; [discriminate|]. do 3 (split; [reflexivity|]).
    intros t claims [= ->]. apply String.eqb_eq in Ht.
    rewrite TrimPrefix_Bearer in Ht. symmetry in Ht.
    by apply Bearer_not_fixpoint in Ht. }
  apply TrimPrefix_trimmed in Ht.
  unfold AuthService_ValidateToken, liftRT.
  destruct (ValidateToken (jwtManager (authService h))
              (compact (TrimPrefix hdr "Bearer ")) (w_rt w)) as [[claims|e] rt1] eqn:Hv.
  - left. exists (TrimPrefix hdr "Bearer "), claims, rt1.
    split; [by rewrite <- Ht|]. split; [exact Hv|]. reflexivity.
  - right. eexists _, _. split; [reflexivity|].
    split; [discriminate|]. do 3 (split; [reflexivity|]).
    intros t claims [= Hhdr]. rewrite Hhdr, TrimPrefix_Bearer in Hv.
    rewrite Hv. discriminate.
Qed.

(** X26.  The user route as the stdlib adapter registers it
    ([GetUserHandler] behind [AuthMiddleware], run on a fresh context)
    answers 200 with exactly the four claims of the bearer token when
    [ValidateToken] accepts it, and a 401 error when the request carries
    no bearer token that [ValidateToken] accepts; the handler's own
    "User not authenticated" branch is never reached.  Session store and
    users are untouched either way. *)
Theorem user_route_reports_token_claims (h : GenericAuthHandlers)
    (written : list (Z * Payload)) (r : HTTPRequest) (w : W) :
  exists ctx' w',
    chain (GetUserHandler h) [AuthMiddleware compact h]
      (NewStdContext written r) w = (Ok tt, ctx', w') /\
    w_store w' = w_store w /\ w_users w' = w_users w /\
    ((exists msg,
        msg <> "User not authenticated" /\
        std_Response ctx' = written ++ [(StatusUnauthorized, ErrorBody msg)] /\
        (forall t claims,
           Header r !! "Authorization" = Some ("Bearer " +:+ t) ->
           fst (ValidateToken (jwtManager (authService h)) (compact t) (w_rt w))
           <> Ok claims)) \/
     (exists t claims,
        Header r !! "Authorization" = Some ("Bearer " +:+ t) /\
        fst (ValidateToken (jwtManager (authService h)) (compact t) (w_rt w)) = Ok claims /\
        std_Response ctx' =
        written ++ [(StatusOK, UserBody (UserID claims) (Email claims) (Name claims)
                                 (Provider claims))])).
Proof.
  cbn [chain foldr].
  destruct (AuthMiddleware_fresh_cases h (GetUserHandler h) written r w)
    as [(t & claims & rt1 & Hhdr & Hv & ->)|(msg & w' & -> & Hmsg & Hs & Hu & _ & Hno)].
  - unfold GetUserHandler.
    destruct (user_values_of_set_user_context claims (NewStdContext written r))
      as (-> & -> & -> & ->).
    cbn [negb fst].
    rewrite respond_StdContext. eexists _, _. split; [reflexivity|].
    split; [reflexivity|]. split; [reflexivity|]. right.
    exists t, claims. split; [exact Hhdr|]. split; [by rewrite Hv|reflexivity].
  - rewrite respond_StdContext. eexists _, _. split; [reflexivity|].
    split; [exact Hs|]. split; [exact Hu|]. left. exists msg.
    split; [exact Hmsg|]. split; [reflexivity|exact Hno].
Qed.

(** X27.  [SignUpHandler] validates before it calls the service: unless
    the body decodes with a non-empty email and a password of at least 6
    bytes, the answer is a 400 error and the world (clock, entropy,
    session store, users) is exactly as before. *)
Theorem SignUpHandler_validates_first (h : GenericAuthHandlers) (ctx : StdContext)
    (w : W) :
  (forall object, http_Body (std_Request ctx) = BodyObject object ->
     member object "email" = "" \/ (String.length (member object "password") < 6)%nat) ->
  exists msg ctx',
    SignUpHandler h ctx w = (Ok tt, ctx', w) /\
    std_Response ctx' = std_Response ctx ++ [(StatusBadRequest, ErrorBody msg)].
Proof.
  intros Hbody. unfold SignUpHandler.
  cbn [ctx_Bind StdContext_HTTPContext]. unfold StdContext_Bind. cbv zeta.
  destruct (http_Body (std_Request ctx)) as [object| |] eqn:Hb.
  - specialize (Hbody object eq_refl).
    unfold bind_fields, SignUpRequest_Bindable. cbn [SignUp_Email SignUp_Password].
    destruct (String.eqb (member object "email") "") eqn:He.
    { cbn [orb]. rewrite respond_StdContext. eexists _, _. split; reflexivity. }
    destruct (String.eqb (member object "password") "") eqn:Hp.
    { cbn [orb]. rewrite respond_StdContext. eexists _, _. split; reflexivity. }
    cbn [orb]. destruct Hbody as [Hemail|Hlen].
    { rewrite Hemail in He. discriminate. }
    apply Nat.ltb_lt in Hlen. rewrite Hlen.
    rewrite respond_StdContext. eexists _, _. split; reflexivity.
  - rewrite respond_StdContext. eexists _, _. split; reflexivity.
  - rewrite respond_StdContext. eexists _, _. split; reflexivity.
Qed.

(** X28.  A body that does not decode stops the three body handlers
    alike: sign-up, sign-in and refresh answer 400 "Invalid request body"
    and leave the world as it was. *)
Theorem undecodable_body_is_rejected (h : GenericAuthHandlers) (ctx : StdContext)
    (w : W) :
  (forall object, http_Body (std_Request ctx) <> BodyObject object) ->
  forall handler,
    In handler [SignUpHandler h; SignInHandler h; RefreshTokenHandler compact h] ->
    exists ctx',
      handler ctx w = (Ok tt, ctx', w) /\
      std_Response ctx' =
      std_Response ctx ++ [(StatusBadRequest, ErrorBody "Invalid request body")].
Proof.
  intros Hbody handler Hin.
  assert (Hbind : forall A (B : Bindable A),
            exists e ctx1, @StdContext_Bind A B ctx = (Err e, ctx1) /\
                           std_Response ctx1 = std_Response ctx /\
                           values ctx1 = values ctx /\ status ctx1 = status ctx).
  { intros A B. unfold StdContext_Bind. cbv zeta.
    destruct (http_Body (std_Request ctx)) as [object| |] eqn:Hb.
    - by destruct (Hbody object).
    - eexists _, _. split; [reflexivity|]. auto.
    - eexists _, _. split; [reflexivity|]. auto. }
  cbn [In] in Hin. destruct Hin as [<-|[<-|[<-|[]]]].
  - unfold SignUpHandler. cbn [ctx_Bind StdContext_HTTPContext].
    destruct (Hbind _ SignUpRequest_Bindable) as (e & ctx1 & -> & Hr & _).
    rewrite respond_StdContext. eexists. split; [reflexivity|].
    cbn [std_Response]. by rewrite Hr.
  - unfold SignInHandler. cbn [ctx_Bind StdContext_HTTPContext].
    destruct (Hbind _ SignInRequest_Bindable) as (e & ctx1 & -> & Hr & _).
    rewrite respond_StdContext. eexists. split; [reflexivity|].
    cbn [std_Response]. by rewrite Hr.
  - unfold RefreshTokenHandler. cbn [ctx_Bind StdContext_HTTPContext].
    destruct (Hbind _ RefreshRequest_Bindable) as (e & ctx1 & -> & Hr & _).
    rewrite respond_StdContext. eexists. split; [reflexivity|].
    cbn [std_Response]. by rewrite Hr.
Qed.

(** X29.  The user route assembled from the adapter's own wrappers,
    [WrapMiddleware (AuthMiddleware) (WrapHandler GetUserHandler)], never
    answers 200: [WrapHandler] runs the handler on a context of its own,
    so the values the middleware set are not there, and a request whose
    token was validated is answered 401 "User not authenticated".  Every
    request gets exactly one 401 error, and session store and users are
    untouched. *)
Theorem wrapped_user_route_never_authenticates (h : GenericAuthHandlers)
    (written : list (Z * Payload)) (r : HTTPRequest) (w : W) :
  exists msg r' w',
    WrapMiddleware (AuthMiddleware compact h) (WrapHandler (GetUserHandler h))
      written r w = (written ++ [(StatusUnauthorized, ErrorBody msg)], r', w') /\
    w_store w' = w_store w /\ w_users w' = w_users w /\
    (forall t claims,
       Header r !! "Authorization" = Some ("Bearer " +:+ t) ->
       fst (ValidateToken (jwtManager (authService h)) (compact t) (w_rt w)) = Ok claims ->
       msg = "User not authenticated").
Proof.
  unfold WrapMiddleware. cbv zeta.
  destruct (AuthMiddleware_fresh_cases h
              (fun httpCtx w1 =>
                 let '(written1, r1, w2) :=
                   WrapHandler (GetUserHandler h) (std_Response httpCtx)
                     (std_Request httpCtx) w1 in
                 (Ok tt,
                  {| std_Request := r1; std_Response := written1;
                     values := values httpCtx; status := status httpCtx |}, w2))
              written r w)
    as [(t & claims & rt1 & Hhdr & Hv & ->)|(msg & w' & -> & _ & Hs & Hu & _ & Hno)].
  - exists "User not authenticated". eexists _, _. split; [reflexivity|].
    split; [reflexivity|]. split; reflexivity.
  - rewrite respond_StdContext. exists msg. eexists _, _. split; [reflexivity|].
    split; [exact Hs|]. split; [exact Hu|].
    intros t claims Hhdr Hv. by destruct (Hno t claims Hhdr).
Qed.
End HandlerProps.

Section HandlerExamples.
#[local] Existing Instance plain_bcrypt.
#[local] Existing Instance short_hash.

Lemma SignUpHandler_validates_first_witness :
  exists msg ctx',
    SignUpHandler demo_handlers (NewStdContext [] short_password_request)
      (demo_world (demo_runtime T0 [])) =
    (Ok tt, ctx', demo_world (demo_runtime T0 [])) /\
    std_Response ctx' = [] ++ [(StatusBadRequest, ErrorBody msg)].
Proof.
  apply (SignUpHandler_validates_first demo_handlers
           (NewStdContext [] short_password_request) (demo_world (demo_runtime T0 []))).
  intros object [= <-]. right. vm_compute. lia.
Defined.

Lemma undecodable_body_is_rejected_witness :
  exists ctx',
    SignInHandler demo_handlers (NewStdContext [] malformed_request)
      (demo_world (demo_runtime T0 [])) =
    (Ok tt, ctx', demo_world (demo_runtime T0 [])) /\
    std_Response ctx' = [] ++ [(StatusBadRequest, ErrorBody "Invalid request body")].
Proof.
  apply (undecodable_body_is_rejected sample_compact demo_handlers
           (NewStdContext [] malformed_request) (demo_world (demo_runtime T0 []))).
  - intros object. discriminate.
  - cbn [In]. right. left. reflexivity.
Defined.
End HandlerExamples.
